(** * Bulls or Cows front end: [static/script.js]

    A shallow embedding of the page script.  The document is a finite map
    from element ids to the properties the script reads and writes; every
    function of the script is a computation over the document, the focused
    cell and the log of calls that leave the script (requests, alerts,
    timers).  An [async] function is cut where it waits for its request:
    one part runs up to [fetch], the other resumes with the parsed
    response; nothing of the function runs between [await fetch] and
    [await res.json()]. *)

From Stdlib Require Import ZArith QArith Qround Ascii String.
From stdpp Require Import gmap strings list fin_maps pretty.

Local Open Scope string_scope.
Local Open Scope list_scope.
Local Open Scope nat_scope.

(** ** Strings

    A JavaScript string is a sequence of code units; the model keeps the
    code units below 256 as [ascii]. *)

(** [/[0-9]/] *)
Definition is_digit (c : ascii) : bool :=
  let n := nat_of_ascii c in (48 <=? n) && (n <=? 57).

(** [/\s/], on the code units the model has: tab, line feed, vertical tab,
    form feed, carriage return, space, no-break space. *)
Definition is_space (c : ascii) : bool :=
  let n := nat_of_ascii c in
  ((9 <=? n) && (n <=? 13)) || (n =? 32) || (n =? 160).

(** [s.replace(/[^...]/g, '')]: the characters satisfying [p], in order. *)
Fixpoint keep (p : ascii -> bool) (s : string) : string :=
  match s with
  | EmptyString => EmptyString
  | String c r => if p c then String c (keep p r) else keep p r
  end.

(** [s.slice(0, n)] *)
Fixpoint take_str (n : nat) (s : string) {struct s} : string :=
  match s, n with
  | String c r, S n' => String c (take_str n' r)
  | _, _ => EmptyString
  end.

(** [s.slice(-1)] *)
Fixpoint last_char (s : string) : string :=
  match s with
  | EmptyString => EmptyString
  | String c EmptyString => String c EmptyString
  | String _ r => last_char r
  end.

(** [s.split('')] *)
Fixpoint split_chars (s : string) : list string :=
  match s with
  | EmptyString => []
  | String c r => String c EmptyString :: split_chars r
  end.

(** [l.join(sep)] *)
Fixpoint join (sep : string) (l : list string) : string :=
  match l with
  | [] => EmptyString
  | [x] => x
  | x :: r => x +:+ sep +:+ join sep r
  end.

(** [s.split('').join(' ')] *)
Definition spaced (s : string) : string := join " " (split_chars s).

(** [s.repeat(n)] *)
Fixpoint repeat_str (s : string) (n : nat) : string :=
  match n with
  | 0 => EmptyString
  | S n' => s +:+ repeat_str s n'
  end.

Fixpoint drop_while (p : ascii -> bool) (s : string) : string :=
  match s with
  | EmptyString => EmptyString
  | String c r => if p c then drop_while p r else s
  end.

(** [s.trim()] *)
Definition trim (s : string) : string :=
  String.rev (drop_while is_space (String.rev (drop_while is_space s))).

Definition nonempty (s : string) : bool :=
  match s with EmptyString => false | _ => true end.

(** ** Numbers

    [parseInt] yields an integer or [NaN].  The integer is kept exact, as a
    double keeps it up to 2^53; beyond, a double rounds, which [Num] does
    not follow: see [exact]. *)
Inductive number := NaN | Num (z : Z).

(** [a + b], as long as the sum is one of the integers a double holds
    (see [exact]). *)
Definition num_add (a b : number) : number :=
  match a, b with
  | Num x, Num y => Num (x + y)
  | _, _ => NaN
  end.

(** [a > b]: false as soon as one side is [NaN]. *)
Definition num_gt (a b : number) : bool :=
  match a, b with
  | Num x, Num y => (y <? x)%Z
  | _, _ => false
  end.

(** The numbers on which [Num] is the double of the script: [NaN], and
    the integers from -2^53 to 2^53, every one of which a double holds
    without rounding. *)
Definition exact (n : number) : bool :=
  match n with
  | Num z => (Z.abs z <=? 2 ^ 53)%Z
  | NaN => true
  end.

(** Two counts and their sum are such numbers, so that [parseInt] of the
    selects, [bulls + cows] and the test against 4 are computed here as
    the script computes them. *)
Definition exact_counts (bulls cows : number) : bool :=
  exact bulls && exact cows && exact (num_add bulls cows).

Fixpoint digits_value (acc : Z) (s : string) : Z :=
  match s with
  | String c r =>
      if is_digit c
      then digits_value (10 * acc + (Z.of_nat (nat_of_ascii c) - 48)) r
      else acc
  | EmptyString => acc
  end.

Definition starts_with_digit (s : string) : bool :=
  match s with String c _ => is_digit c | EmptyString => false end.

(** [parseInt(s, 10)]: leading white space is skipped, one sign is read,
    then the longest run of decimal digits; no digit gives [NaN].  The
    result is the integer the digits denote; it is the script's double
    when it is [exact]. *)
Definition parseInt (s : string) : number :=
  match drop_while is_space s with
  | String "-" r =>
      if starts_with_digit r then Num (- digits_value 0 r) else NaN
  | String "+" r =>
      if starts_with_digit r then Num (digits_value 0 r) else NaN
  | r => if starts_with_digit r then Num (digits_value 0 r) else NaN
  end.

(** ** The document *)

(** One [.otp-box] input: its value and whether its class list holds
    [filled]. *)
Record box := Box { bvalue : string; filled : bool }.

(** A child of a history list.  The script creates [HistoryRow]s: the text
    of the [num] span and the two counts interpolated in the [bc] span. *)
Inductive child :=
| Placeholder
| HistoryRow (num : string) (bulls cows : number)
| OtherChild.

(** The properties of an element the script touches.  [boxes] are the
    element's [.otp-box] descendants in document order, [children] those of
    a history list; [atEnd] holds once [scrollTop] was set to
    [scrollHeight]; [originalHTML] is the [_originalHTML] expando. *)
Record element := Element {
  textContent : string;
  value : string;
  display : string;
  animation : string;
  disabled : bool;
  innerHTML : string;
  originalHTML : option string;
  boxes : list box;
  children : list child;
  atEnd : bool
}.

Definition set_textContent (t : string) (e : element) : element :=
  Element t (value e) (display e) (animation e) (disabled e) (innerHTML e)
          (originalHTML e) [] [] (atEnd e).
Definition set_value (v : string) (e : element) : element :=
  Element (textContent e) v (display e) (animation e) (disabled e)
          (innerHTML e) (originalHTML e) (boxes e) (children e) (atEnd e).
Definition set_display (v : string) (e : element) : element :=
  Element (textContent e) (value e) v (animation e) (disabled e)
          (innerHTML e) (originalHTML e) (boxes e) (children e) (atEnd e).
Definition set_animation (v : string) (e : element) : element :=
  Element (textContent e) (value e) (display e) v (disabled e)
          (innerHTML e) (originalHTML e) (boxes e) (children e) (atEnd e).
Definition set_disabled (v : bool) (e : element) : element :=
  Element (textContent e) (value e) (display e) (animation e) v
          (innerHTML e) (originalHTML e) (boxes e) (children e) (atEnd e).
Definition set_innerHTML (v : string) (e : element) : element :=
  Element (textContent e) (value e) (display e) (animation e) (disabled e)
          v (originalHTML e) (boxes e) (children e) (atEnd e).
Definition set_originalHTML (v : option string) (e : element) : element :=
  Element (textContent e) (value e) (display e) (animation e) (disabled e)
          (innerHTML e) v (boxes e) (children e) (atEnd e).
Definition set_boxes (v : list box) (e : element) : element :=
  Element (textContent e) (value e) (display e) (animation e) (disabled e)
          (innerHTML e) (originalHTML e) v (children e) (atEnd e).
Definition set_children (v : list child) (e : element) : element :=
  Element (textContent e) (value e) (display e) (animation e) (disabled e)
          (innerHTML e) (originalHTML e) (boxes e) v (atEnd e).
Definition set_atEnd (v : bool) (e : element) : element :=
  Element (textContent e) (value e) (display e) (animation e) (disabled e)
          (innerHTML e) (originalHTML e) (boxes e) (children e) v.

(** JSON values of the request bodies. *)
Inductive json :=
| JNull
| JNumber (z : Z)
| JString (s : string).

(** A request body: the fields of the object given to [JSON.stringify]. *)
Definition body := list (string * json).

(** [JSON.stringify] of a number: [NaN] is written [null]. *)
Definition json_of_number (n : number) : json :=
  match n with NaN => JNull | Num z => JNumber z end.

(** The closures handed to [setTimeout]. *)
Inductive callback :=
| CbShowWinner (winner : string) (secret : option string)
| CbAiTurn
| CbShowHumanTurn.

(** Calls that leave the script, in the order they are made. *)
Inductive effect :=
| Fetch (method url : string) (payload : option body)
| Alert (msg : string)
| SetTimeout (cb : callback) (ms : nat)
| SetInterval (digits : list string) (ms : nat)
| Click (id : string)
| Select (cid : string) (idx : nat)
| LaunchConfetti.

(** [focus] is the focused cell, as container id and index among the
    container's boxes; [wired] lists the containers whose boxes carry the
    listeners of [initOtpBoxes], once per call. *)
Record state := State {
  dom : gmap string element;
  focus : option (string * nat);
  wired : list string;
  trace : list effect
}.

Definition set_dom (d : gmap string element) (s : state) : state :=
  State d (focus s) (wired s) (trace s).
Definition set_focus (f : option (string * nat)) (s : state) : state :=
  State (dom s) f (wired s) (trace s).
Definition set_wired (w : list string) (s : state) : state :=
  State (dom s) (focus s) w (trace s).
Definition emit (e : effect) (s : state) : state :=
  State (dom s) (focus s) (wired s) (trace s ++ [e]).

(** ** Computations

    A computation changes the state and returns or throws; what was done
    before a throw stays done. *)
Inductive outcome (A : Type) :=
| Ret (a : A)
| Throw.
Arguments Ret {A} a.
Arguments Throw {A}.

Definition M (A : Type) : Type := state -> outcome A * state.

Definition ret {A} (a : A) : M A := fun s => (Ret a, s).
Definition throw {A} : M A := fun s => (Throw, s).
Definition bind {A B} (m : M A) (k : A -> M B) : M B :=
  fun s => match m s with
           | (Ret a, s') => k a s'
           | (Throw, s') => (Throw, s')
           end.
Definition modify (f : state -> state) : M unit := fun s => (Ret tt, f s).
Definition gets {A} (f : state -> A) : M A := fun s => (Ret (f s), s).

Notation "'do' x <- m ; k" := (bind m (fun x => k))
  (at level 10, x name, m at level 100, k at level 200).
Notation "m ;; k" := (bind m (fun _ => k))
  (at level 100, k at level 200, right associativity).

(** [try { m } catch (err) { h }] *)
Definition try_catch {A} (m h : M A) : M A :=
  fun s => match m s with
           | (Throw, s') => h s'
           | r => r
           end.

(** [try { m } finally { f }] *)
Definition finally {A} (m : M A) (f : M unit) : M A :=
  fun s => match m s with
           | (r, s') => match f s' with
                        | (Ret _, s'') => (r, s'')
                        | (Throw, s'') => (Throw, s'')
                        end
           end.

Definition when (b : bool) (m : M unit) : M unit := if b then m else ret tt.

Fixpoint iter_M (n : nat) (m : M unit) : M unit :=
  match n with
  | 0 => ret tt
  | S n' => m ;; iter_M n' m
  end.

(** The state a computation leaves. *)
Definition exec {A} (m : M A) (s : state) : state := snd (m s).
Definition result {A} (m : M A) (s : state) : outcome A := fst (m s).

(** [document.getElementById(id)] *)
Definition getElementById (id : string) : M (option element) :=
  gets (fun s => dom s !! id).

(** The document with [f] applied to the element [id] resolves to. *)
Definition upd (id : string) (f : element -> element) (s : state) : state :=
  set_dom (alter f id (dom s)) s.

(** Assignment to properties of the element [id] resolved to. *)
Definition update (id : string) (f : element -> element) : M unit :=
  modify (upd id f).

(** Assignment to a property of [getElementById(id)] without a null check:
    a [TypeError] when the id does not resolve. *)
Definition update_or_throw (id : string) (f : element -> element) : M unit :=
  do el <- getElementById id;
  match el with
  | Some _ => update id f
  | None => throw
  end.

(** ** The digit boxes *)

Definition set_bvalue (v : string) (b : box) : box := Box v (filled b).
Definition set_filled (f : bool) (b : box) : box := Box (bvalue b) f.

(** [container.querySelectorAll('.otp-box')] for the element [cid]. *)
Definition boxes_of (cid : string) (s : state) : list box :=
  match dom s !! cid with
  | Some e => boxes e
  | None => []
  end.

(** Assignment to properties of [boxes[i]]. *)
Definition set_box (cid : string) (i : nat) (f : box -> box) : M unit :=
  update cid (fun e => set_boxes (alter f i (boxes e)) e).

(** [boxes[i].focus()] *)
Definition focus_box (cid : string) (i : nat) : M unit :=
  modify (set_focus (Some (cid, i))).

(** The [input] listener of box [idx]; [val] is [e.target.value]. *)
Definition on_input (cid : string) (idx : nat) (val : string) : M unit :=
  do bs <- gets (boxes_of cid);
  let digit := last_char (keep is_digit val) in
  set_box cid idx (set_bvalue digit) ;;
  if nonempty digit then
    set_box cid idx (set_filled true) ;;
    when (idx <? length bs - 1) (focus_box cid (idx + 1))
  else
    set_box cid idx (set_filled false).

(** The [keydown] listener of box [idx]; [key] is [e.key].  The result
    tells whether [preventDefault] was called. *)
Definition on_keydown (cid : string) (idx : nat) (key : string) : M bool :=
  do bs <- gets (boxes_of cid);
  match bs !! idx with
  | None => ret false
  | Some b =>
      do prevented <-
        (if String.eqb key "Backspace" then
           (if negb (nonempty (bvalue b)) && (0 <? idx) then
              set_box cid (idx - 1) (set_bvalue "") ;;
              set_box cid (idx - 1) (set_filled false) ;;
              focus_box cid (idx - 1)
            else
              set_box cid idx (set_bvalue "") ;;
              set_box cid idx (set_filled false)) ;;
           ret true
         else ret false);
      when (String.eqb key "ArrowLeft" && (0 <? idx))
           (focus_box cid (idx - 1)) ;;
      when (String.eqb key "ArrowRight" && (idx <? length bs - 1))
           (focus_box cid (idx + 1)) ;;
      when (String.eqb key "Enter" && (idx =? length bs - 1))
           (do b1 <- getElementById "btnHumanSubmit";
            do b2 <- getElementById "btnStart";
            let submitBtn :=
              match b1 with
              | Some e => Some ("btnHumanSubmit", e)
              | None => (fun e => ("btnStart", e)) <$> b2
              end in
            match submitBtn with
            | Some (id, e) => when (negb (disabled e)) (modify (emit (Click id)))
            | None => ret tt
            end) ;;
      ret prevented
  end.

(** The [keypress] listener: [preventDefault] unless the key holds a
    digit. *)
Definition on_keypress (key : string) : M bool :=
  ret (negb (nonempty (keep is_digit key))).

(** [l.forEach((x, i) => f x i)], counting from [i]. *)
Fixpoint forEach_from {A} (f : A -> nat -> M unit) (l : list A) (i : nat)
  : M unit :=
  match l with
  | [] => ret tt
  | x :: r => f x i ;; forEach_from f r (S i)
  end.

(** [boxes.find(b => b.value === '')], as the index of the box found. *)
Fixpoint find_empty (bs : list box) : option nat :=
  match bs with
  | [] => None
  | b :: r => if nonempty (bvalue b) then S <$> find_empty r else Some 0
  end.

(** The [paste] listener; [text] is the clipboard's text. *)
Definition on_paste (cid : string) (text : string) : M bool :=
  let pasted := take_str 4 (keep is_digit text) in
  forEach_from
    (fun ch i =>
       do bs <- gets (boxes_of cid);
       match bs !! i with
       | Some _ =>
           set_box cid i (set_bvalue ch) ;;
           set_box cid i (set_filled true)
       | None => ret tt
       end)
    (split_chars pasted) 0 ;;
  do bs <- gets (boxes_of cid);
  match find_empty bs with
  | Some i => focus_box cid i
  | None =>
      match bs !! (length bs - 1) with
      | Some _ => focus_box cid (length bs - 1)
      | None => throw
      end
  end ;;
  ret true.

(** The [click] listener: [box.select()]. *)
Definition on_click (cid : string) (idx : nat) : M unit :=
  modify (emit (Select cid idx)).

Definition initOtpBoxes (containerId : string) : M unit :=
  do container <- getElementById containerId;
  match container with
  | None => ret tt
  | Some _ => modify (fun s => set_wired (wired s ++ [containerId]) s)
  end.

(** How many times [initOtpBoxes] wired the container. *)
Definition listeners (cid : string) (s : state) : nat :=
  length (filter (fun c => c = cid) (wired s)).

(** A listener that throws does not stop the others. *)
Definition listener {A} (m : M A) : M unit :=
  fun s => (Ret tt, snd (m s)).

(** The user presses [key]: [keydown] reaches the focused box, once for
    each listener on it. *)
Definition press (key : string) : M unit :=
  do f <- gets focus;
  match f with
  | Some (cid, idx) =>
      do n <- gets (listeners cid);
      iter_M n (listener (on_keydown cid idx key))
  | None => ret tt
  end.

(** The user pastes [text] into the focused box. *)
Definition paste (text : string) : M unit :=
  do f <- gets focus;
  match f with
  | Some (cid, idx) =>
      do bs <- gets (boxes_of cid);
      do n <- gets (listeners cid);
      match bs !! idx with
      | Some _ => iter_M n (listener (on_paste cid text))
      | None => ret tt
      end
  | None => ret tt
  end.

Definition getOtpValue (containerId : string) : M string :=
  do container <- getElementById containerId;
  match container with
  | None => ret ""
  | Some e => ret (join "" (map bvalue (boxes e)))
  end.

Definition clearOtpBoxes (containerId : string) : M unit :=
  do container <- getElementById containerId;
  match container with
  | None => ret tt
  | Some e =>
      update containerId
        (fun e => set_boxes
                    (map (fun b => set_filled false (set_bvalue "" b)) (boxes e))
                    e) ;;
      match boxes e with
      | _ :: _ => focus_box containerId 0
      | [] => ret tt
      end
  end.

(** ** Show and hide helpers *)

Definition show (id : string) : M unit :=
  do el <- getElementById id;
  match el with
  | Some _ => update id (set_display "")
  | None => ret tt
  end.

Definition hide (id : string) : M unit :=
  do el <- getElementById id;
  match el with
  | Some _ => update id (set_display "none")
  | None => ret tt
  end.

Definition showError (id msg : string) : M unit :=
  do el <- getElementById id;
  match el with
  | None => ret tt
  | Some _ =>
      update id (set_textContent msg) ;;
      update id (set_display "") ;;
      update id (set_animation "none") ;;
      update id (set_animation "")
  end.

Definition clearError (id : string) : M unit :=
  do el <- getElementById id;
  match el with
  | Some _ => update id (set_display "none")
  | None => ret tt
  end.

(** The markup of the loading spinner; its ellipsis is kept as the bytes
    of its UTF-8 form, like the other symbols of the script outside
    Latin-1. *)
Definition dquote : string := String (ascii_of_nat 34) EmptyString.
Definition spinnerHTML : string :=
  "<span class=" +:+ dquote +:+ "spinner" +:+ dquote +:+ "></span> Loading…".

(** [setButtonLoading(document.getElementById(id), loading)] *)
Definition setButtonLoading (id : string) (loading : bool) : M unit :=
  do btn <- getElementById id;
  match btn with
  | None => ret tt
  | Some b =>
      update id (set_disabled loading) ;;
      if loading then
        update id (set_originalHTML (Some (innerHTML b))) ;;
        update id (set_innerHTML spinnerHTML)
      else
        match originalHTML b with
        | Some h => when (nonempty h) (update id (set_innerHTML h))
        | None => ret tt
        end
  end.

(** ** History *)

(** [list.querySelector('.history-empty')] and [empty.remove()]: the first
    placeholder leaves the list. *)
Fixpoint remove_placeholder (l : list child) : list child :=
  match l with
  | [] => []
  | Placeholder :: r => r
  | c :: r => c :: remove_placeholder r
  end.

Definition addHistoryRow (listId guess : string) (bulls cows : number)
  : M unit :=
  do list <- getElementById listId;
  match list with
  | None => ret tt
  | Some _ =>
      update listId
        (fun e => set_children (remove_placeholder (children e)) e) ;;
      let row := HistoryRow (spaced guess) bulls cows in
      update listId (fun e => set_children (children e ++ [row]) e) ;;
      update listId (set_atEnd true)
  end.

Definition is_row (c : child) : bool :=
  match c with HistoryRow _ _ _ => true | _ => false end.

(** The rows of the history list [listId]. *)
Definition rows (listId : string) (s : state) : list child :=
  match dom s !! listId with
  | Some e => filter is_row (children e)
  | None => []
  end.

(** ** Turn management *)

(** What a request comes back with: [Failed] when [fetch] or [res.json()]
    rejects or the body is no object, else the fields the script reads. *)
Inductive response (A : Type) :=
| Failed
| Reply (data : A).
Arguments Failed {A}.
Arguments Reply {A} data.

(** [error] is empty when the field is missing. *)
Record human_reply := HumanReply {
  h_success : bool;
  h_error : string;
  h_bulls : Z;
  h_cows : Z;
  h_won : bool;
  h_ai_secret : option string
}.

Record ai_turn_reply := AiTurnReply {
  t_success : bool;
  t_error : string;
  t_ai_guess : option string
}.

Record feedback_reply := FeedbackReply {
  f_success : bool;
  f_error : string;
  f_won : bool;
  f_human_secret : option string
}.

(** [a || b] on strings *)
Definition or_else (a b : string) : string := if nonempty a then a else b.

Definition showHumanTurn : M unit :=
  show "humanCard" ;;
  hide "resultFlash" ;;
  hide "aiCard" ;;
  do bs <- gets (boxes_of "guessInputs");
  match bs with
  | _ :: _ => focus_box "guessInputs" 0
  | [] => ret tt
  end.

Definition showResultFlash (guess : string) (bulls cows : Z) : M unit :=
  do flashEl <- getElementById "resultFlash";
  match flashEl with
  | None => ret tt
  | Some _ =>
      let emoji := if (bulls =? 4)%Z then "🎉"
                   else if (2 <=? bulls)%Z then "🔥" else "🎯" in
      update_or_throw "resultEmoji" (set_textContent emoji) ;;
      update_or_throw "resultScore"
        (set_textContent ("🐂 " +:+ pretty bulls +:+ " Bulls  ·  🐄 "
                          +:+ pretty cows +:+ " Cows")) ;;
      update_or_throw "resultSub"
        (set_textContent ("Your guess: " +:+ spaced guess)) ;;
      update "resultFlash" (set_animation "none") ;;
      update "resultFlash" (set_animation "") ;;
      show "resultFlash"
  end.

(** [submitHumanGuess] up to its [await]: the guess in flight, or [None]
    when the function has returned. *)
Definition submitHumanGuess_send : M (option string) :=
  do guess <- getOtpValue "guessInputs";
  clearError "humanError" ;;
  if negb (String.length guess =? 4) then
    showError "humanError" "Fill in all 4 digits." ;;
    ret None
  else
    setButtonLoading "btnHumanSubmit" true ;;
    modify (emit (Fetch "POST" "/human-turn" (Some [("guess", JString guess)]))) ;;
    ret (Some guess).

(** [submitHumanGuess] from the response on. *)
Definition submitHumanGuess_resume (guess : string)
    (r : response human_reply) : M unit :=
  finally
    (try_catch
       (match r with
        | Failed => throw
        | Reply data =>
            if negb (h_success data) then
              showError "humanError" (or_else (h_error data) "Invalid guess.")
            else
              addHistoryRow "humanHistory" guess
                            (Num (h_bulls data)) (Num (h_cows data)) ;;
              clearOtpBoxes "guessInputs" ;;
              hide "humanCard" ;;
              showResultFlash guess (h_bulls data) (h_cows data) ;;
              if h_won data then
                modify (emit (SetTimeout
                                (CbShowWinner "human" (h_ai_secret data)) 2000))
              else
                modify (emit (SetTimeout CbAiTurn 2500))
        end)
       (showError "humanError" "Network error. Please try again."))
    (setButtonLoading "btnHumanSubmit" false).

Definition displayAiGuess (guess : string) : M unit :=
  do display <- getElementById "aiGuessDisplay";
  match display with
  | None => ret tt
  | Some _ =>
      update "aiGuessDisplay" (set_textContent "_ _ _ _") ;;
      let digits := split_chars guess in
      modify (emit (SetInterval digits 180)) ;;
      show "aiCard" ;;
      do card <- getElementById "aiCard";
      match card with
      | Some _ =>
          update "aiCard" (set_animation "none") ;;
          update "aiCard" (set_animation "")
      | None => ret tt
      end
  end.

(** One firing of the interval of [displayAiGuess], at counter [i]: the
    new counter, and whether [clearInterval] was called. *)
Definition revealTick (digits : list string) (i : nat) : M (nat * bool) :=
  let shown :=
    join " " (take (i + 1) digits) +:+
    (if i <? 3 then " " +:+ trim (repeat_str "_ " (3 - i)) else "") in
  update "aiGuessDisplay" (set_textContent shown) ;;
  ret (i + 1, length digits <=? i + 1).

(** The interval over [n] periods from counter [i]; the result tells
    whether it is still set. *)
Fixpoint reveal (digits : list string) (i n : nat) : M bool :=
  match n with
  | 0 => ret true
  | S n' =>
      do r <- revealTick digits i;
      if snd r then ret false else reveal digits (fst r) n'
  end.

(** [triggerAiTurn] up to its [await]. *)
Definition triggerAiTurn_send : M unit :=
  modify (emit (Fetch "GET" "/ai-turn" None)).

(** [triggerAiTurn] from the response on. *)
Definition triggerAiTurn_resume (r : response ai_turn_reply) : M unit :=
  try_catch
    (match r with
     | Failed => throw
     | Reply data =>
         if negb (t_success data) then
           modify (emit (Alert ("AI error: " +:+ or_else (t_error data) "Unknown")))
         else
           match t_ai_guess data with
           | Some g => displayAiGuess g
           | None =>
               (* displayAiGuess(undefined): past the guard the display is
                  reset, then [guess.split] throws *)
               do display <- getElementById "aiGuessDisplay";
               match display with
               | None => ret tt
               | Some _ =>
                   update "aiGuessDisplay" (set_textContent "_ _ _ _") ;;
                   throw
               end
           end
     end)
    (modify (emit (Alert "Network error during AI turn."))).

(** [submitAiFeedback] up to its [await]: the parsed counts in flight, or
    [None] when the function has returned. *)
Definition submitAiFeedback_send : M (option (number * number)) :=
  do elBulls <- getElementById "aiBulls";
  match elBulls with
  | None => throw
  | Some eb =>
      let bulls := parseInt (value eb) in
      do elCows <- getElementById "aiCows";
      match elCows with
      | None => throw
      | Some ec =>
          let cows := parseInt (value ec) in
          clearError "aiError" ;;
          if num_gt (num_add bulls cows) (Num 4) then
            showError "aiError" "Bulls + Cows cannot exceed 4." ;;
            ret None
          else
            setButtonLoading "btnAiFeedback" true ;;
            modify (emit (Fetch "POST" "/ai-feedback"
                            (Some [("bulls", json_of_number bulls);
                                   ("cows", json_of_number cows)]))) ;;
            ret (Some (bulls, cows))
      end
  end.

(** [submitAiFeedback] from the response on. *)
Definition submitAiFeedback_resume (bulls cows : number)
    (r : response feedback_reply) : M unit :=
  finally
    (try_catch
       (match r with
        | Failed => throw
        | Reply data =>
            if negb (f_success data) then
              showError "aiError" (or_else (f_error data) "Invalid feedback.")
            else
              do aiDisplay <- getElementById "aiGuessDisplay";
              let guess :=
                keep (fun c => negb (is_space c))
                     (match aiDisplay with
                      | Some e => textContent e
                      | None => "????"
                      end) in
              addHistoryRow "aiHistory" guess bulls cows ;;
              update_or_throw "aiBulls" (set_value "0") ;;
              update_or_throw "aiCows" (set_value "0") ;;
              if f_won data then
                hide "aiCard" ;;
                modify (emit (SetTimeout
                                (CbShowWinner "ai" (f_human_secret data)) 400))
              else
                hide "aiCard" ;;
                modify (emit (SetTimeout CbShowHumanTurn 300))
        end)
       (showError "aiError" "Network error. Please try again."))
    (setButtonLoading "btnAiFeedback" false).

(** ** Win overlay *)

Definition showWinner (winner : string) (revealedSecret : option string)
  : M unit :=
  do overlay <- getElementById "winOverlay";
  match overlay with
  | None => ret tt
  | Some _ =>
      let isHuman := String.eqb winner "human" in
      update_or_throw "winEmoji"
        (set_textContent (if isHuman then "🏆" else "🤖")) ;;
      update_or_throw "winTitle"
        (set_textContent (if isHuman then "HUMAN WINS!" else "AI WINS!")) ;;
      update_or_throw "winSub"
        (set_textContent (if isHuman
                          then "You cracked the AI's secret number!"
                          else "The AI cracked your secret number!")) ;;
      update_or_throw "winSecret"
        (set_textContent (match revealedSecret with
                          | Some sec => if nonempty sec then spaced sec else ""
                          | None => ""
                          end)) ;;
      update "winOverlay" (set_display "flex") ;;
      when isHuman (modify (emit LaunchConfetti))
  end.

(** What a [setTimeout] closure does when its delay is over. *)
Definition run_callback (cb : callback) : M unit :=
  match cb with
  | CbShowWinner winner secret => showWinner winner secret
  | CbAiTurn => hide "resultFlash" ;; triggerAiTurn_send
  | CbShowHumanTurn => showHumanTurn
  end.

(** ** Confetti

    [launchConfetti] touches the canvas and the host's timers only; it is
    modelled on its own.  The script's arithmetic on doubles is kept behind
    an interface, so that nothing proved depends on how numbers round. *)
Module Confetti.

Class Arith (num : Type) := {
  lit : Q -> num;
  add : num -> num -> num;
  sub : num -> num -> num;
  mul : num -> num -> num;
  div : num -> num -> num;
  neg : num -> num;
  gt : num -> num -> bool;
  floor : num -> Z;
  PI : num
}.

Section Launch.
Context {num : Type} `{Arith num}.

(** The successive values of [Math.random()]. *)
Variable random : nat -> num.
(** [window.innerWidth], [window.innerHeight]. *)
Variables innerWidth innerHeight : num.

Record particle := Particle {
  x : num; y : num; w : num; h : num;
  color : option string;
  vx : num; vy : num;
  angle : num; spin : num;
  opacity : num
}.

(** One [fillRect] as it lands on the surface: the transform, alpha and
    fill style in force, and the rectangle. *)
Record rect := Rect {
  tx : num; ty : num; rot : num; alpha : num; fill : option string;
  rx : num; ry : num; rw : num; rh : num
}.

Definition COLORS : list string :=
  ["#ffb41e"; "#ff4d4d"; "#4daaff"; "#39ff88"; "#fff"; "#ff80d5"].

(** [COLORS[i]]: nothing outside the array. *)
Definition color_at (i : Z) : option string :=
  if (i <? 0)%Z then None else COLORS !! Z.to_nat i.

(** The [k]-th particle: ten draws, in the order of the object literal. *)
Definition spawn (width : num) (k : nat) : particle :=
  let r j := random (10 * k + j) in
  {| x := mul (r 0) width;
     y := sub (lit (-20)) (mul (r 1) (lit 200));
     w := add (lit 6) (mul (r 2) (lit 8));
     h := add (lit 8) (mul (r 3) (lit 6));
     color := color_at (floor (mul (r 4) (lit (Z.of_nat (length COLORS) # 1))));
     vx := mul (sub (r 5) (lit 0.5)) (lit 3);
     vy := add (lit 2) (mul (r 6) (lit 4));
     angle := mul (mul (r 7) PI) (lit 2);
     spin := mul (sub (r 8) (lit 0.5)) (lit 0.15);
     opacity := add (lit 0.9) (mul (r 9) (lit 0.1)) |}.

(** The canvas, the variables of the closure, and the host's timers:
    [requested] holds the handles of the frame callbacks requested and
    neither run nor cancelled, [timeouts] the delays of the pending
    [setTimeout] calls. *)
Record world := World {
  width : num;
  height : num;
  surface : list rect;
  particles : list particle;
  frame : option nat;
  done : bool;
  next_handle : nat;
  requested : list nat;
  timeouts : list nat
}.

(** The body of [particles.forEach] in [loop]: the particle after the
    frame, and what it draws; [None] past the bottom. *)
Definition advance (height : num) (p : particle)
  : particle * option rect :=
  if gt (y p) (add height (lit 20)) then (p, None)
  else
    let x' := add (x p) (vx p) in
    let y' := add (y p) (vy p) in
    let angle' := add (angle p) (spin p) in
    let vy' := add (vy p) (lit 0.05) in
    (Particle x' y' (w p) (h p) (color p) (vx p) vy' angle' (spin p)
              (opacity p),
     Some (Rect x' y' angle' (opacity p) (color p)
                (div (neg (w p)) (lit 2)) (div (neg (h p)) (lit 2))
                (w p) (h p))).

Definition loop (st : world) : world :=
  let moved := map (advance (height st)) (particles st) in
  let drawn := omap snd moved in
  let alive := length drawn in
  let again := (0 <? alive) && negb (done st) in
  World (width st) (height st)
        drawn
        (map fst moved)
        (if again then Some (next_handle st) else frame st)
        (done st)
        (if again then S (next_handle st) else next_handle st)
        (if again then requested st ++ [next_handle st] else requested st)
        (timeouts st).

(** [launchConfetti()], given what [getElementById('confettiCanvas')]
    finds and the next handle of the host; [None] when the function
    returns at its guard. *)
Definition launchConfetti (canvas : option (list rect)) (handle : nat)
  : option world :=
  match canvas with
  | None => None
  | Some _ =>
      let spawned := map (spawn innerWidth) (seq 0 140) in
      let st := World innerWidth innerHeight [] spawned None false
                      handle [] [] in
      let st := loop st in
      Some (World (width st) (height st) (surface st) (particles st)
                  (frame st) (done st) (next_handle st) (requested st)
                  (timeouts st ++ [5000]))
  end.

(** [cancelAnimationFrame(frame)] *)
Definition cancel (f : option nat) (l : list nat) : list nat :=
  match f with
  | Some id => filter (fun i => i ≠ id) l
  | None => l
  end.

(** The host runs the frame callback [id], if it is still requested. *)
Definition frame_fires (id : nat) (st : world) : world :=
  if decide (id ∈ requested st) then
    loop (World (width st) (height st) (surface st) (particles st)
                (frame st) (done st) (next_handle st)
                (filter (fun i => i ≠ id) (requested st)) (timeouts st))
  else st.

(** The closure given to [setTimeout] runs. *)
Definition timer_fires (st : world) : world :=
  World (width st) (height st) [] (particles st) (frame st) true
        (next_handle st) (cancel (frame st) (requested st))
        (tail (timeouts st)).

Definition frames_fire (ids : list nat) (st : world) : world :=
  fold_left (fun st id => frame_fires id st) ids st.

(** At most the frame callback last requested is pending. *)
Definition one_pending (st : world) : Prop :=
  requested st = [] \/ exists id, frame st = Some id /\ requested st = [id].

End Launch.

(** Exact rationals as numbers, to run the model. *)
#[global] Instance Q_arith : Arith Q := {|
  lit q := q;
  add := Qplus;
  sub := Qminus;
  mul := Qmult;
  div := Qdiv;
  neg := Qopp;
  gt a b := negb (Qle_bool a b);
  floor := Qfloor;
  PI := 355 # 113
|}.

End Confetti.

(** ** What the helpers leave of an element *)

(** [showError] *)
Definition error_shown (msg : string) (e : element) : element :=
  set_animation ""
    (set_animation "none" (set_display "" (set_textContent msg e))).

(** [setButtonLoading] *)
Definition button_loading (loading : bool) (b : element) : element :=
  if loading then
    set_innerHTML spinnerHTML
      (set_originalHTML (Some (innerHTML b)) (set_disabled loading b))
  else
    match originalHTML b with
    | Some h => if nonempty h
                then set_innerHTML h (set_disabled loading b)
                else set_disabled loading b
    | None => set_disabled loading b
    end.

(** [addHistoryRow] *)
Definition row_added (guess : string) (bulls cows : number) (e : element)
  : element :=
  set_atEnd true
    (set_children
       (remove_placeholder (children e) ++ [HistoryRow (spaced guess) bulls cows])
       e).

(** [clearOtpBoxes] *)
Definition boxes_cleared (e : element) : element :=
  set_boxes (map (fun b => set_filled false (set_bvalue "" b)) (boxes e)) e.

(** [getOtpValue] *)
Definition otp_value (id : string) (s : state) : string :=
  match dom s !! id with
  | Some e => join "" (map bvalue (boxes e))
  | None => ""
  end.

(** The boxes of [cid] replaced. *)
Definition with_boxes (cid : string) (bs : list box) (s : state) : state :=
  upd cid (set_boxes bs) s.

(** ** Sample documents *)

Definition blank : element := Element "" "" "" "" false "" None [] [] false.

Definition cell (v : string) : box := Box v (nonempty v).

Definition group (a b c d : string) : element :=
  set_boxes [cell a; cell b; cell c; cell d] blank.

(** The game page: the guess group [a b c d] wired once with the focus on its
    cell [i], both history lists with their placeholder, the feedback
    selects at [bulls] and [cows], the AI card hidden. *)
Definition page (a b c d : string) (i : nat) (bulls cows : string) : state :=
  State
    (list_to_map
       [("guessInputs", group a b c d);
        ("humanError", set_display "none" blank);
        ("btnHumanSubmit", set_innerHTML "Submit" blank);
        ("humanCard", blank);
        ("resultFlash", set_display "none" blank);
        ("resultEmoji", blank); ("resultScore", blank); ("resultSub", blank);
        ("aiCard", set_display "none" blank);
        ("aiGuessDisplay", set_textContent "_ _ _ _" blank);
        ("aiBulls", set_value bulls blank);
        ("aiCows", set_value cows blank);
        ("aiError", set_display "none" blank);
        ("btnAiFeedback", set_innerHTML "Send" blank);
        ("humanHistory", set_children [Placeholder] blank);
        ("aiHistory", set_children [Placeholder] blank);
        ("winOverlay", set_display "none" blank);
        ("winEmoji", blank); ("winTitle", blank); ("winSub", blank);
        ("winSecret", blank)])
    (Some ("guessInputs", i))
    ["guessInputs"]
    [].

(** A page without any of the elements. *)
Definition empty_page : state := State ∅ None [] [].

(** ** The digit group seen on its cells alone

    The listeners read and write the boxes of one container and the
    focus; these functions say what they do to the list of cells and to
    the index of the focused cell. *)

Definition clear_box (b : box) : box := set_filled false (set_bvalue "" b).

Definition empty_box : box := Box "" false.

(** [keydown] with [Backspace] on the cell [idx]. *)
Definition backspace_cells (bs : list box) (idx : nat) : list box * nat :=
  match bs !! idx with
  | None => (bs, idx)
  | Some b =>
      if negb (nonempty (bvalue b)) && (0 <? idx)
      then (alter clear_box (idx - 1) bs, idx - 1)
      else (alter clear_box idx bs, idx)
  end.

Fixpoint backspaces (n : nat) (bs : list box) (idx : nat) : list box * nat :=
  match n with
  | 0 => (bs, idx)
  | S n' => let (bs', idx') := backspace_cells bs idx in backspaces n' bs' idx'
  end.

(** The loop of the [paste] listener over the characters [chs], from the
    cell [i] on. *)
Fixpoint fill_from (chs : list string) (i : nat) (bs : list box) : list box :=
  match chs with
  | [] => bs
  | ch :: r =>
      fill_from r (S i)
                (alter (fun b => set_filled true (set_bvalue ch b)) i bs)
  end.

(** Where the [paste] listener puts the focus. *)
Definition focus_after_paste (bs : list box) : nat :=
  match find_empty bs with
  | Some i => i
  | None => length bs - 1
  end.

(** The container [cid] is on the page with the cells [bs], wired once,
    and its cell [idx] has the focus. *)
Record widget (cid : string) (bs : list box) (idx : nat) (s : state)
  : Prop := Widget {
  widget_present : is_Some (dom s !! cid);
  widget_boxes : boxes_of cid s = bs;
  widget_focus : focus s = Some (cid, idx);
  widget_wired : listeners cid s = 1
}.

(** ** The page as it runs

    Between two events the script is idle.  A configuration is the page
    together with the requests in flight: the guesses sent to
    [/human-turn] and the counts sent to [/ai-feedback] whose functions
    wait at their [await], oldest first. *)
Record config := Config {
  page_of : state;
  guesses_in_flight : list string;
  feedback_in_flight : list (number * number)
}.

Inductive event :=
| Wire (cid : string)
| Input (cid : string) (idx : nat) (val : string)
| Press (key : string)
| Paste (text : string)
| ClickBox (cid : string) (idx : nat)
| Pick (id : string) (v : string)
| ClickSubmitGuess
| GuessAnswered (r : response human_reply)
| AiTurnAnswered (r : response ai_turn_reply)
| ClickSubmitFeedback
| FeedbackAnswered (r : response feedback_reply)
| TimeoutOver (cb : callback)
| IntervalFires (digits : list string) (i : nat).

(** The page after a computation; an uncaught throw ends the handler and
    leaves the page as it is then. *)
Definition on_page (m : M unit) (c : config) : config :=
  Config (exec m (page_of c)) (guesses_in_flight c) (feedback_in_flight c).

Definition step (e : event) (c : config) : config :=
  match e with
  | Wire cid => on_page (initOtpBoxes cid) c
  | Input cid idx val =>
      on_page (do n <- gets (listeners cid);
               focus_box cid idx ;;
               iter_M n (listener (on_input cid idx val))) c
  | Press key => on_page (press key) c
  | Paste text => on_page (paste text) c
  | ClickBox cid idx =>
      on_page (do n <- gets (listeners cid);
               focus_box cid idx ;;
               iter_M n (listener (on_click cid idx))) c
  | Pick id v => on_page (update id (set_value v)) c
  | ClickSubmitGuess =>
      match submitHumanGuess_send (page_of c) with
      | (Ret (Some guess), s) =>
          Config s (guesses_in_flight c ++ [guess]) (feedback_in_flight c)
      | (_, s) => Config s (guesses_in_flight c) (feedback_in_flight c)
      end
  | GuessAnswered r =>
      match guesses_in_flight c with
      | guess :: rest =>
          Config (exec (submitHumanGuess_resume guess r) (page_of c))
                 rest (feedback_in_flight c)
      | [] => c
      end
  | AiTurnAnswered r => on_page (triggerAiTurn_resume r) c
  | ClickSubmitFeedback =>
      match submitAiFeedback_send (page_of c) with
      | (Ret (Some counts), s) =>
          Config s (guesses_in_flight c) (feedback_in_flight c ++ [counts])
      | (_, s) => Config s (guesses_in_flight c) (feedback_in_flight c)
      end
  | FeedbackAnswered r =>
      match feedback_in_flight c with
      | (bulls, cows) :: rest =>
          Config (exec (submitAiFeedback_resume bulls cows r) (page_of c))
                 (guesses_in_flight c) rest
      | [] => c
      end
  | TimeoutOver cb => on_page (run_callback cb) c
  | IntervalFires digits i => on_page (revealTick digits i ;; ret tt) c
  end.

Fixpoint run_events (evs : list event) (c : config) : config :=
  match evs with
  | [] => c
  | e :: r => run_events r (step e c)
  end.

Inductive actor := Human | Ai.

(** The history list of an actor. *)
Definition log_id (a : actor) : string :=
  match a with Human => "humanHistory" | Ai => "aiHistory" end.

(** The row a successful submission of [a] appends when [e] happens in
    [c]: the answer to a request of [a] in flight that says [success]. *)
Definition submission (a : actor) (e : event) (c : config) : option child :=
  match a, e with
  | Human, GuessAnswered (Reply data) =>
      match guesses_in_flight c with
      | guess :: _ =>
          if h_success data
          then Some (HistoryRow (spaced guess)
                                (Num (h_bulls data)) (Num (h_cows data)))
          else None
      | [] => None
      end
  | Ai, FeedbackAnswered (Reply data) =>
      match feedback_in_flight c with
      | (bulls, cows) :: _ =>
          if f_success data
          then
            let shown :=
              match dom (page_of c) !! "aiGuessDisplay" with
              | Some e => textContent e
              | None => "????"
              end in
            Some (HistoryRow (spaced (keep (fun ch => negb (is_space ch)) shown))
                             bulls cows)
          else None
      | [] => None
      end
  | _, _ => None
  end.

(** Whether the answer [e] says the game is won. *)
Definition winning (e : event) : bool :=
  match e with
  | GuessAnswered (Reply data) => h_won data
  | FeedbackAnswered (Reply data) => f_won data
  | _ => false
  end.

(** The successful submissions of [a] along [evs] from [c]; those that do
    not win. *)
Fixpoint successes (a : actor) (evs : list event) (c : config) : nat :=
  match evs with
  | [] => 0
  | e :: r =>
      match submission a e c with
      | Some _ => 1 + successes a r (step e c)
      | None => successes a r (step e c)
      end
  end.

Fixpoint successes_not_winning (a : actor) (evs : list event) (c : config)
  : nat :=
  match evs with
  | [] => 0
  | e :: r =>
      match submission a e c with
      | Some _ =>
          (if winning e then 0 else 1) + successes_not_winning a r (step e c)
      | None => successes_not_winning a r (step e c)
      end
  end.

(** The rows of a history list, when the list is on the page. *)
Definition log_rows (l : string) (s : state) : option (list child) :=
  (fun e => filter is_row (children e)) <$> dom s !! l.

(** The rows of the list [l] are [v]. *)
Definition rows_are (l : string) (v : option (list child)) (s : state) : Prop :=
  log_rows l s = v.

(** A computation that leaves [I] as it finds it, however it ends. *)
Definition stable {A} (I : state -> Prop) (m : M A) : Prop :=
  forall s, I s -> I (m s).2.

(** The rows with the row of a submission, if any, appended. *)
Definition appended (o : option child) (rs : list child) : list child :=
  match o with
  | Some row => rs ++ [row]
  | None => rs
  end.

(** A game page with the guess ["1234"] typed and nothing in flight. *)
Definition fresh_game : config :=
  Config (page "1" "2" "3" "4" 3 "0" "0") [] [].

(** The guess is submitted and answered: four bulls, won. *)
Definition winning_round : list event :=
  [ClickSubmitGuess;
   GuessAnswered (Reply (HumanReply true "" 4 0 true (Some "1234")))].

(** The guess is submitted and answered: one bull, one cow, not won. *)
Definition plain_round : list event :=
  [ClickSubmitGuess;
   GuessAnswered (Reply (HumanReply true "" 1 1 false None))].

(** ** The reveal of the AI guess *)

(** What the display reads once [n] digits of [guess] are revealed: the
    digits, then one placeholder for each digit still hidden. *)
Definition revealed (guess : string) (n : nat) : string :=
  spaced (take_str n guess +:+ repeat_str "_" (4 - n)).

Definition all_digits (s : string) : bool :=
  forallb is_digit (list_ascii_of_string s).

(** [show('aiCard')] is in force. *)
Definition card_shown (s : state) : bool :=
  match dom s !! "aiCard" with
  | Some e => String.eqb (display e) ""
  | None => false
  end.

(** The display reads all the digits of [guess]. *)
Definition digits_shown (guess : string) (s : state) : bool :=
  match dom s !! "aiGuessDisplay" with
  | Some e => String.eqb (textContent e) (spaced guess)
  | None => false
  end.

(** What the display reads. *)
Definition display_text (s : state) : option string :=
  textContent <$> dom s !! "aiGuessDisplay".

(** The page after [displayAiGuess guess] and [n] periods of its
    interval. *)
Definition reveal_after (guess : string) (n : nat) (s : state) : state :=
  exec (reveal (split_chars guess) 0 n) (exec (displayAiGuess guess) s).

(** The feedback clicked after [k] periods of the interval of
    [displayAiGuess guess] and answered [m] periods later.  The interval
    goes on firing between the click and the answer as long as it is
    still set at the click; [submitAiFeedback] reads the display for the
    history row after its [await]s, in its second half. *)
Definition answered_after (guess : string) (k m : nat)
    (r : response feedback_reply) (s : state) : state :=
  let shown := exec (displayAiGuess guess) s in
  let still := result (reveal (split_chars guess) 0 k) shown in
  let clicked := exec (reveal (split_chars guess) 0 k) shown in
  match submitAiFeedback_send clicked with
  | (Ret (Some (bulls, cows)), sent) =>
      let later :=
        match still with
        | Ret true => exec (reveal (split_chars guess) k m) sent
        | _ => sent
        end in
      exec (submitAiFeedback_resume bulls cows r) later
  | (_, sent) => sent
  end.

(** Two rounds: a guess that does not win, four digits pasted, a guess
    that wins. *)
Definition two_rounds : list event :=
  plain_round ++ [Paste "5678"] ++ winning_round.

(** ** Reading the page *)

(** The element [id] is on the page. *)
Definition has (id : string) (s : state) : Prop := is_Some (dom s !! id).

(** The property [f] of the element [id], when it is on the page. *)
Definition field {A} (f : element -> A) (id : string) (s : state)
  : option A :=
  f <$> dom s !! id.

(** ** Typing into the digit group *)

(** What the [input] listener keeps of [e.target.value]. *)
Definition typed_digit (val : string) : string := last_char (keep is_digit val).

(** The [input] listener of the cell [idx] on the cells alone. *)
Definition input_cells (bs : list box) (idx : nat) (val : string) : list box :=
  alter (fun b => set_filled (nonempty (typed_digit val))
                             (set_bvalue (typed_digit val) b))
        idx bs.

(** The user types into the cells 0, 1, ... in turn; [vals] are the values
    the [input] events carry. *)
Definition type_all (cid : string) (vals : list string) : M unit :=
  forEach_from (fun val i => on_input cid i val) vals 0.

(** A cell is empty and not marked, or holds one digit and is marked
    [filled]. *)
Definition cell_ok (b : box) : bool :=
  match bvalue b with
  | EmptyString => negb (filled b)
  | String c EmptyString => is_digit c && filled b
  | _ => false
  end.

(** A string of decimal digits only. *)
Definition digits_only (s : string) : bool :=
  forallb is_digit (list_ascii_of_string s).

(** ** The start page *)

Record start_reply := StartReply {
  s_success : bool;
  s_error : string;
  s_redirect : string
}.

(** [quickStartGame] up to its [await]. *)
Definition quickStartGame_send : M unit :=
  setButtonLoading "btnStartGame" true ;;
  modify (emit (Fetch "POST" "/start" (Some []))).

(** [quickStartGame] from the response on; the result is the address
    assigned to [window.location.href], if any. *)
Definition quickStartGame_resume (r : response start_reply)
  : M (option string) :=
  finally
    (try_catch
       (match r with
        | Failed => throw
        | Reply data =>
            if negb (s_success data) then
              modify (emit (Alert (or_else (s_error data)
                                           "Failed to start game."))) ;;
              ret None
            else
              ret (Some (s_redirect data))
        end)
       (modify (emit (Alert "Network error. Please try again.")) ;;
        ret None))
    (setButtonLoading "btnStartGame" false).

(** [resetGame] up to its [await]. *)
Definition resetGame_send : M unit :=
  modify (emit (Fetch "POST" "/reset" None)).

(** [resetGame] from there on, whether [fetch] resolved or rejected; the
    result is the address assigned to [window.location.href]. *)
Definition resetGame_resume (resolved : bool) : M string :=
  try_catch (if resolved then ret tt else throw) (ret tt) ;;
  ret "/".

(** ** Requests *)

(** The number a JSON field carries, if it is one. *)
Definition json_number (j : json) : option Z :=
  match j with JNumber z => Some z | _ => None end.

(** A call that leaves the script is in order: a guess sent to
    [/human-turn] has four characters, and counts sent to [/ai-feedback]
    do not add up to more than 4. *)
Definition request_ok (e : effect) : bool :=
  match e with
  | Fetch _ url payload =>
      if String.eqb url "/human-turn" then
        match payload with
        | Some [(_, JString guess)] => String.length guess =? 4
        | _ => false
        end
      else if String.eqb url "/ai-feedback" then
        match payload with
        | Some [(_, bulls); (_, cows)] =>
            match json_number bulls, json_number cows with
            | Some b, Some c => (b + c <=? 4)%Z
            | _, _ => true
            end
        | _ => false
        end
      else true
  | _ => true
  end.

(** ** Confetti: particles past the lower bound *)

(** [p.y > canvas.height + 20] *)
Definition past_bottom {num : Type} `{Confetti.Arith num}
    (height : num) (p : Confetti.particle) : bool :=
  Confetti.gt (Confetti.y p) (Confetti.add height (Confetti.lit 20)).

(** A page with all the elements of the game page but with nothing typed:
    four empty cells with the focus on the first. *)
Definition empty_game : state := page "" "" "" "" 0 "0" "0".

(** Every cell of the container [cid] is empty and not marked, or holds
    one digit and is marked. *)
Definition cells_fine (cid : string) (s : state) : Prop :=
  Forall (fun b => cell_ok b = true) (boxes_of cid s).

(** ** What the turn helpers leave of the page *)

(** The tier of [showResultFlash]. *)
Definition flash_emoji (bulls : Z) : string :=
  if (bulls =? 4)%Z then "🎉" else if (2 <=? bulls)%Z then "🔥" else "🎯".

Definition flash_score (bulls cows : Z) : string :=
  "🐂 " +:+ pretty bulls +:+ " Bulls  ·  🐄 " +:+ pretty cows +:+ " Cows".

(** [showResultFlash] on a page that has its four elements. *)
Definition flash_shown (guess : string) (bulls cows : Z) (s : state) : state :=
  upd "resultFlash" (set_display "" ∘ set_animation "" ∘ set_animation "none")
    (upd "resultSub" (set_textContent ("Your guess: " +:+ spaced guess))
       (upd "resultScore" (set_textContent (flash_score bulls cows))
          (upd "resultEmoji" (set_textContent (flash_emoji bulls)) s))).

(** What [submitHumanGuess] tells the user when the round trip fails. *)
Definition human_failure (r : response human_reply) : string :=
  match r with
  | Failed => "Network error. Please try again."
  | Reply data => or_else (h_error data) "Invalid guess."
  end.

(** What [submitAiFeedback] tells the user when the round trip fails. *)
Definition feedback_failure (r : response feedback_reply) : string :=
  match r with
  | Failed => "Network error. Please try again."
  | Reply data => or_else (f_error data) "Invalid feedback."
  end.

(** The timer a successful answer to a guess sets. *)
Definition human_timer (data : human_reply) : effect :=
  if h_won data
  then SetTimeout (CbShowWinner "human" (h_ai_secret data)) 2000
  else SetTimeout CbAiTurn 2500.

(** The timer a successful answer to a feedback sets. *)
Definition feedback_timer (data : feedback_reply) : effect :=
  if f_won data
  then SetTimeout (CbShowWinner "ai" (f_human_secret data)) 400
  else SetTimeout CbShowHumanTurn 300.

(** [submitHumanGuess] with its request answered by [r] before anything
    else happens. *)
Definition submitHumanGuess (r : response human_reply) : M unit :=
  do sent <- submitHumanGuess_send;
  match sent with
  | Some guess => submitHumanGuess_resume guess r
  | None => ret tt
  end.

(** [submitAiFeedback] with its request answered by [r] before anything
    else happens. *)
Definition submitAiFeedback (r : response feedback_reply) : M unit :=
  do sent <- submitAiFeedback_send;
  match sent with
  | Some (bulls, cows) => submitAiFeedback_resume bulls cows r
  | None => ret tt
  end.

(** A reply to a guess that the service turns down. *)
Definition turned_down : response human_reply :=
  Reply (HumanReply false "Digits must differ." 0 0 false None).

(** A reply to a guess: one bull, one cow, not won. *)
Definition one_one : human_reply := HumanReply true "" 1 1 false None.

(** A reply to a guess: four bulls, won, with the secret of the AI. *)
Definition four_bulls : human_reply :=
  HumanReply true "" 4 0 true (Some "1234").

(** The game page without the element of the result emoji. *)
Definition page_without_emoji : state :=
  set_dom (delete "resultEmoji" (dom (page "1" "2" "3" "4" 3 "0" "0")))
          (page "1" "2" "3" "4" 3 "0" "0").

(** A reply to a feedback that does not end the game, and one that the
    service turns down. *)
Definition goes_on : feedback_reply := FeedbackReply true "" false None.

Definition inconsistent : response feedback_reply :=
  Reply (FeedbackReply false "Feedback is inconsistent." false None).

(** Every call that has left the script is in order. *)
Definition calls_ok (s : state) : Prop :=
  Forall (fun e => request_ok e = true) (trace s).

(** * Properties *)

(** ** The model at work *)

Example parseInt_select_values :
  parseInt "3" = Num 3 /\ parseInt " 12px" = Num 12 /\
  parseInt "-4" = Num (-4) /\ parseInt "" = NaN /\ parseInt "x1" = NaN.
Proof. repeat split; reflexivity. Qed.

Example nan_is_not_above_four :
  num_gt (num_add NaN (Num 9)) (Num 4) = false /\
  num_gt (num_add (Num 3) (Num 2)) (Num 4) = true.
Proof. split; reflexivity. Qed.

Example paste_keeps_digits :
  take_str 4 (keep is_digit "a9-8b7 6x5") = "9876".
Proof. reflexivity. Qed.

Example reveal_placeholders :
  trim (repeat_str "_ " 3) = "_ _ _" /\ spaced "1234" = "1 2 3 4".
Proof. split; reflexivity. Qed.

Example typing_moves_on :
  let s := exec (on_input "guessInputs" 1 "7") (page "1" "" "" "" 1 "0" "0") in
  boxes_of "guessInputs" s = [cell "1"; cell "7"; cell ""; cell ""] /\
  focus s = Some ("guessInputs", 2).
Proof. split; reflexivity. Qed.

(** ** How the helpers run *)

Lemma state_eta (s : state) : State (dom s) (focus s) (wired s) (trace s) = s.
Proof. by destruct s. Qed.

Lemma upd_absent id f s : dom s !! id = None -> upd id f s = s.
Proof.
  intros Hid. unfold upd, set_dom. rewrite alter_id' by done. apply state_eta.
Qed.

Lemma upd_upd id f g s : upd id f (upd id g s) = upd id (f ∘ g) s.
Proof. unfold upd, set_dom. simpl. by rewrite alter_alter_eq. Qed.

Lemma upd_ext id f g s :
  (forall e, dom s !! id = Some e -> f e = g e) -> upd id f s = upd id g s.
Proof. intros Hfg. unfold upd. by rewrite (alter_ext f g). Qed.

Lemma lookup_upd id f s : dom (upd id f s) !! id = f <$> dom s !! id.
Proof. apply lookup_alter_eq. Qed.

Lemma lookup_upd_ne id id' f s :
  id <> id' -> dom (upd id f s) !! id' = dom s !! id'.
Proof. intros. by apply lookup_alter_ne. Qed.

Lemma bind_run {A B} (m : M A) (k : A -> M B) s a s' :
  m s = (Ret a, s') -> bind m k s = k a s'.
Proof. intros Hm. unfold bind. by rewrite Hm. Qed.

Lemma bind_throw {A B} (m : M A) (k : A -> M B) s s' :
  m s = (Throw, s') -> bind m k s = (Throw, s').
Proof. intros Hm. unfold bind. by rewrite Hm. Qed.

Lemma ret_run {A} (a : A) s : ret a s = (Ret a, s).
Proof. done. Qed.

Lemma gets_run {A} (f : state -> A) s : gets f s = (Ret (f s), s).
Proof. done. Qed.

Lemma modify_run f s : modify f s = (Ret tt, f s).
Proof. done. Qed.

Lemma update_run id f s : update id f s = (Ret tt, upd id f s).
Proof. done. Qed.

Lemma getElementById_run id s : getElementById id s = (Ret (dom s !! id), s).
Proof. done. Qed.

Create HintDb run discriminated.
#[local] Hint Resolve ret_run gets_run modify_run update_run
  getElementById_run : run.

(** Runs the head of a sequence whose outcome a [run] hint gives. *)
Ltac run1 := erewrite bind_run by (eauto with run); cbv beta iota.
Ltac run := repeat run1.

Lemma show_run id s : show id s = (Ret tt, upd id (set_display "") s).
Proof.
  unfold show. run. destruct (dom s !! id) eqn:E; [done|].
  by rewrite upd_absent.
Qed.

Lemma hide_run id s : hide id s = (Ret tt, upd id (set_display "none") s).
Proof.
  unfold hide. run. destruct (dom s !! id) eqn:E; [done|].
  by rewrite upd_absent.
Qed.

Lemma clearError_run id s :
  clearError id s = (Ret tt, upd id (set_display "none") s).
Proof. apply hide_run. Qed.

Lemma showError_run id msg s :
  showError id msg s = (Ret tt, upd id (error_shown msg) s).
Proof.
  unfold showError. run. destruct (dom s !! id) eqn:E.
  - run. rewrite update_run. by rewrite !upd_upd.
  - by rewrite upd_absent.
Qed.

Lemma setButtonLoading_run id loading s :
  setButtonLoading id loading s = (Ret tt, upd id (button_loading loading) s).
Proof.
  unfold setButtonLoading. run. destruct (dom s !! id) as [b|] eqn:E.
  - run. destruct loading.
    + run. rewrite update_run, !upd_upd. f_equal. apply upd_ext.
      intros e He. rewrite E in He. by simplify_eq.
    + destruct (originalHTML b) as [h|] eqn:Eh.
      * unfold when. destruct (nonempty h) eqn:En.
        -- rewrite update_run, upd_upd. f_equal. apply upd_ext.
           intros e He. rewrite E in He. simplify_eq. simpl.
           unfold button_loading. by rewrite Eh, En.
        -- rewrite ret_run. f_equal. apply upd_ext.
           intros e He. rewrite E in He. simplify_eq.
           unfold button_loading. by rewrite Eh, En.
      * rewrite ret_run. f_equal. apply upd_ext.
        intros e He. rewrite E in He. simplify_eq.
        unfold button_loading. by rewrite Eh.
  - by rewrite upd_absent.
Qed.

Lemma addHistoryRow_run id guess bulls cows s :
  addHistoryRow id guess bulls cows s
  = (Ret tt, upd id (row_added guess bulls cows) s).
Proof.
  unfold addHistoryRow. run. destruct (dom s !! id) eqn:E.
  - run. rewrite update_run. by rewrite !upd_upd.
  - by rewrite upd_absent.
Qed.

Lemma getOtpValue_run id s : getOtpValue id s = (Ret (otp_value id s), s).
Proof.
  unfold getOtpValue, otp_value. run. by destruct (dom s !! id).
Qed.

Lemma clearOtpBoxes_run id s :
  clearOtpBoxes id s
  = (Ret tt,
     match boxes_of id s with
     | _ :: _ => set_focus (Some (id, 0)) (upd id boxes_cleared s)
     | [] => upd id boxes_cleared s
     end).
Proof.
  unfold clearOtpBoxes, boxes_of. run. destruct (dom s !! id) as [e|] eqn:E.
  - run. by destruct (boxes e).
  - by rewrite upd_absent.
Qed.

#[local] Hint Resolve show_run hide_run clearError_run showError_run
  setButtonLoading_run addHistoryRow_run getOtpValue_run clearOtpBoxes_run
  : run.

(** ** Guards before the requests *)

(** C1. When the guess read from the input group has a length other than
    4, [submitHumanGuess] returns before its [await]: nothing is in
    flight, no call leaves the script (so no request to [/human-turn]),
    and the inline error element, when the page has it, shows the
    message. *)
Theorem guess_length_guard (s : state) (guess : string) :
  result (getOtpValue "guessInputs") s = Ret guess ->
  String.length guess <> 4 ->
  let s' := exec submitHumanGuess_send s in
  result submitHumanGuess_send s = Ret None /\
  trace s' = trace s /\
  forall e, dom s !! "humanError" = Some e ->
    exists e', dom s' !! "humanError" = Some e' /\
               textContent e' = "Fill in all 4 digits." /\
               display e' = "".
Proof.
  intros Hread Hlen.
  unfold result in Hread. rewrite getOtpValue_run in Hread.
  simpl in Hread. injection Hread as Hguess.
  assert (Hrun : submitHumanGuess_send s
                 = (Ret None,
                    upd "humanError" (error_shown "Fill in all 4 digits.")
                        (upd "humanError" (set_display "none") s))).
  { unfold submitHumanGuess_send. run. rewrite Hguess.
    destruct (Nat.eqb_spec (String.length guess) 4) as [|_]; [done|].
    simpl. by run. }
  unfold exec, result. rewrite Hrun. simpl. repeat split.
  intros e He. rewrite !lookup_alter_eq, He. simpl. eauto.
Qed.

Lemma guess_length_guard_witness :
  let s := page "1" "2" "" "" 2 "0" "0" in
  result submitHumanGuess_send s = Ret None /\
  trace (exec submitHumanGuess_send s) = trace s.
Proof.
  destruct (guess_length_guard (page "1" "2" "" "" 2 "0" "0") "12")
    as (Hres & Htrace & _).
  - reflexivity.
  - vm_compute. lia.
  - split; [exact Hres | exact Htrace].
Defined.

(** C2. When the parsed counts add up to more than 4, [submitAiFeedback]
    returns before its [await]: nothing is in flight, no call leaves the
    script (so no request to [/ai-feedback]), and the inline error
    element, when the page has it, shows the message.  The counts and
    their sum are integers a double holds without rounding, so that the
    sum and the test are the script's. *)
Theorem feedback_sum_guard (s : state) (elBulls elCows : element) :
  dom s !! "aiBulls" = Some elBulls ->
  dom s !! "aiCows" = Some elCows ->
  exact_counts (parseInt (value elBulls)) (parseInt (value elCows)) = true ->
  num_gt (num_add (parseInt (value elBulls)) (parseInt (value elCows)))
         (Num 4) = true ->
  let s' := exec submitAiFeedback_send s in
  result submitAiFeedback_send s = Ret None /\
  trace s' = trace s /\
  forall e, dom s !! "aiError" = Some e ->
    exists e', dom s' !! "aiError" = Some e' /\
               textContent e' = "Bulls + Cows cannot exceed 4." /\
               display e' = "".
Proof.
  intros Hb Hc _ Hsum.
  assert (Hrun : submitAiFeedback_send s
                 = (Ret None,
                    upd "aiError" (error_shown "Bulls + Cows cannot exceed 4.")
                        (upd "aiError" (set_display "none") s))).
  { unfold submitAiFeedback_send. run. rewrite Hb. run. rewrite Hc. run.
    rewrite Hsum. by run. }
  unfold exec, result. rewrite Hrun. simpl. repeat split.
  intros e He. rewrite !lookup_alter_eq, He. simpl. eauto.
Qed.

Lemma feedback_sum_guard_witness :
  let s := page "1" "2" "3" "4" 3 "3" "2" in
  result submitAiFeedback_send s = Ret None /\
  trace (exec submitAiFeedback_send s) = trace s.
Proof.
  destruct (feedback_sum_guard (page "1" "2" "3" "4" 3 "3" "2")
              (set_value "3" blank) (set_value "2" blank))
    as (Hres & Htrace & _).
  - reflexivity.
  - reflexivity.
  - reflexivity.
  - reflexivity.
  - split; [exact Hres | exact Htrace].
Defined.

(** C9. When one of the two selects holds a value [parseInt] cannot read,
    its count is [NaN], the comparison with 4 is false, and
    [submitAiFeedback] goes on to its request: the body sent to
    [/ai-feedback] carries that count, which [JSON.stringify] writes as
    [null], in place of a number. *)
Theorem feedback_nan_passes_guard (s : state) (elBulls elCows : element) :
  dom s !! "aiBulls" = Some elBulls ->
  dom s !! "aiCows" = Some elCows ->
  parseInt (value elBulls) = NaN \/ parseInt (value elCows) = NaN ->
  let bulls := parseInt (value elBulls) in
  let cows := parseInt (value elCows) in
  num_gt (num_add bulls cows) (Num 4) = false /\
  result submitAiFeedback_send s = Ret (Some (bulls, cows)) /\
  trace (exec submitAiFeedback_send s)
  = trace s ++ [Fetch "POST" "/ai-feedback"
                  (Some [("bulls", json_of_number bulls);
                         ("cows", json_of_number cows)])] /\
  (json_of_number bulls = JNull \/ json_of_number cows = JNull).
Proof.
  intros Hb Hc Hnan bulls cows.
  assert (Hsum : num_gt (num_add bulls cows) (Num 4) = false).
  { subst bulls cows. destruct Hnan as [-> | ->]; [done|].
    by destruct (parseInt (value elBulls)). }
  assert (Hrun : submitAiFeedback_send s
                 = (Ret (Some (bulls, cows)),
                    emit (Fetch "POST" "/ai-feedback"
                            (Some [("bulls", json_of_number bulls);
                                   ("cows", json_of_number cows)]))
                         (upd "btnAiFeedback" (button_loading true)
                              (upd "aiError" (set_display "none") s)))).
  { unfold submitAiFeedback_send. run. rewrite Hb. run. rewrite Hc. run.
    fold bulls cows. rewrite Hsum. by run. }
  unfold exec, result. rewrite Hrun. simpl. repeat split; [done|].
  subst bulls cows. destruct Hnan as [-> | ->]; [by left | by right].
Qed.

Lemma feedback_nan_passes_guard_witness :
  trace (exec submitAiFeedback_send (page "1" "2" "3" "4" 3 "" "2"))
  = [Fetch "POST" "/ai-feedback"
       (Some [("bulls", JNull); ("cows", JNumber 2)])].
Proof.
  destruct (feedback_nan_passes_guard (page "1" "2" "3" "4" 3 "" "2")
              (set_value "" blank) (set_value "2" blank))
    as (_ & _ & Htrace & _).
  - reflexivity.
  - reflexivity.
  - left. reflexivity.
  - exact Htrace.
Defined.

(** ** Identifiers that do not resolve *)

(** C8. When the identifier does not resolve to an element, reading the
    boxes returns the empty string and wiring, clearing, showing, hiding,
    showing or clearing an error and appending a history row all return
    with the page as it was; so does the winner overlay when its own
    element is missing. *)
Theorem missing_element_noop (s : state) (id msg guess : string)
    (bulls cows : number) :
  dom s !! id = None ->
  getOtpValue id s = (Ret "", s) /\
  initOtpBoxes id s = (Ret tt, s) /\
  clearOtpBoxes id s = (Ret tt, s) /\
  show id s = (Ret tt, s) /\
  hide id s = (Ret tt, s) /\
  showError id msg s = (Ret tt, s) /\
  clearError id s = (Ret tt, s) /\
  addHistoryRow id guess bulls cows s = (Ret tt, s) /\
  setButtonLoading id true s = (Ret tt, s) /\
  (forall winner secret,
     id = "winOverlay" -> showWinner winner secret s = (Ret tt, s)).
Proof.
  intros Hid.
  unfold getOtpValue, initOtpBoxes, clearOtpBoxes, show, hide, showError,
    clearError, addHistoryRow, setButtonLoading, showWinner.
  repeat split; try (run; by rewrite Hid).
  intros winner secret ->. run. by rewrite Hid.
Qed.

Lemma missing_element_noop_witness :
  getOtpValue "guessInputs" empty_page = (Ret "", empty_page) /\
  addHistoryRow "humanHistory" "1234" (Num 1) (Num 2) empty_page
  = (Ret tt, empty_page).
Proof.
  destruct (missing_element_noop empty_page "guessInputs" "" "" NaN NaN)
    as (Hread & _); [reflexivity|].
  destruct (missing_element_noop empty_page "humanHistory" "" "1234"
              (Num 1) (Num 2))
    as (_ & _ & _ & _ & _ & _ & _ & Hrow & _); [reflexivity|].
  split; [exact Hread | exact Hrow].
Defined.

(** ** The digit group *)

Lemma upd_box_twice cid i f g s :
  upd cid (fun e => set_boxes (alter f i (boxes e)) e)
    (upd cid (fun e => set_boxes (alter g i (boxes e)) e) s)
  = with_boxes cid (alter (f ∘ g) i (boxes_of cid s)) s.
Proof.
  rewrite upd_upd. unfold with_boxes, boxes_of. apply upd_ext.
  intros e He. rewrite He. unfold set_boxes. simpl.
  by rewrite list_alter_alter_eq.
Qed.

Lemma with_boxes_present cid bs s id :
  is_Some (dom (with_boxes cid bs s) !! id) <-> is_Some (dom s !! id).
Proof. unfold with_boxes, upd. simpl. apply lookup_alter_is_Some. Qed.

Lemma boxes_of_with_boxes cid bs s :
  is_Some (dom s !! cid) -> boxes_of cid (with_boxes cid bs s) = bs.
Proof.
  intros [e He]. unfold boxes_of, with_boxes. by rewrite lookup_upd, He.
Qed.

Lemma with_boxes_twice cid bs1 bs2 s :
  with_boxes cid bs2 (with_boxes cid bs1 s) = with_boxes cid bs2 s.
Proof. unfold with_boxes. rewrite upd_upd. by apply upd_ext. Qed.

Lemma with_boxes_same cid s : with_boxes cid (boxes_of cid s) s = s.
Proof.
  unfold with_boxes, boxes_of, upd, set_dom.
  rewrite alter_id; [apply state_eta|].
  intros e He. rewrite He. by destruct e.
Qed.

Lemma widget_moved cid bs idx s bs' idx' :
  widget cid bs idx s ->
  widget cid bs' idx' (set_focus (Some (cid, idx')) (with_boxes cid bs' s)).
Proof.
  intros [Hp Hb Hf Hw]. split; simpl; [|unfold boxes_of; simpl|done..].
  - by apply with_boxes_present.
  - by apply boxes_of_with_boxes.
Qed.

Lemma on_keydown_backspace cid bs idx s :
  widget cid bs idx s -> idx < length bs ->
  exec (on_keydown cid idx "Backspace") s
  = let (bs', idx') := backspace_cells bs idx in
    set_focus (Some (cid, idx')) (with_boxes cid bs' s).
Proof.
  intros [Hp Hb Hf Hw] Hidx.
  destruct (lookup_lt_is_Some_2 bs idx Hidx) as [b Hb0].
  unfold exec, on_keydown, backspace_cells. run. rewrite Hb, Hb0. simpl.
  destruct (negb (nonempty (bvalue b)) && (0 <? idx)) eqn:E.
  - run. simpl. by rewrite upd_box_twice, Hb.
  - run. simpl. rewrite upd_box_twice, Hb. unfold set_focus. simpl.
    rewrite <- Hf. by destruct s.
Qed.

Lemma press_backspace cid bs idx s :
  widget cid bs idx s -> idx < length bs ->
  press "Backspace" s
  = (Ret tt,
     let (bs', idx') := backspace_cells bs idx in
     set_focus (Some (cid, idx')) (with_boxes cid bs' s)).
Proof.
  intros Hw Hidx. unfold press. run. rewrite (widget_focus _ _ _ _ Hw). run.
  rewrite (widget_wired _ _ _ _ Hw). simpl. run.
  rewrite <- (on_keydown_backspace cid bs idx s Hw Hidx).
  unfold listener, exec. by run.
Qed.

Lemma backspace_cells_bounds bs idx :
  idx < length bs ->
  length (backspace_cells bs idx).1 = length bs /\
  (backspace_cells bs idx).2 < length bs.
Proof.
  intros Hidx. unfold backspace_cells.
  destruct (bs !! idx) as [b|]; [|done].
  destruct (negb (nonempty (bvalue b)) && (0 <? idx)); simpl;
    rewrite length_alter; lia.
Qed.

(** [n] presses of [Backspace] do to the page what [backspaces n] does to
    the cells. *)
Lemma presses_backspace cid n : forall bs idx s,
  widget cid bs idx s -> idx < length bs ->
  exists s',
    iter_M n (press "Backspace") s = (Ret tt, s') /\
    widget cid (backspaces n bs idx).1 (backspaces n bs idx).2 s' /\
    trace s' = trace s.
Proof.
  induction n as [|n IH]; intros bs idx s Hw Hidx.
  - exists s. by destruct Hw.
  - simpl. rewrite (bind_run _ _ _ _ _ (press_backspace _ _ _ _ Hw Hidx)).
    destruct (backspace_cells_bounds bs idx Hidx) as [Hlen Hlt].
    destruct (backspace_cells bs idx) as [bs1 idx1] eqn:E. simpl in *.
    destruct (IH bs1 idx1 (set_focus (Some (cid, idx1)) (with_boxes cid bs1 s)))
      as (s' & Hrun & Hw' & Htr).
    + by apply widget_moved with bs idx.
    + lia.
    + exists s'. split; [done|]. split; [done|]. by rewrite Htr.
Qed.

Lemma clear_box_empty b : clear_box b = empty_box.
Proof. done. Qed.

(** From the second press on: the focus sits on the first emptied cell and
    walks left. *)
Lemma backspaces_walk j : forall pre k,
  1 <= k -> j <= length pre ->
  backspaces j (pre ++ replicate k empty_box) (length pre)
  = (take (length pre - j) pre ++ replicate (k + j) empty_box,
     length pre - j).
Proof.
  induction j as [|j IH]; intros pre k Hk Hj.
  - simpl. by rewrite Nat.sub_0_r, firstn_all, Nat.add_0_r.
  - destruct (decide (pre = [])) as [->|Hne]; [simpl in Hj; lia|].
    destruct (exists_last Hne) as (pre0 & x & ->).
    rewrite length_app in *. simpl in *.
    unfold backspace_cells.
    replace (((pre0 ++ [x]) ++ replicate k empty_box) !! (length pre0 + 1))
      with (Some empty_box).
    2:{ rewrite lookup_app_r by (rewrite length_app; simpl; lia).
        rewrite length_app. simpl.
        rewrite Nat.sub_diag. by destruct k; [lia|]. }
    simpl. replace (0 <? length pre0 + 1) with true
      by (symmetry; apply Nat.ltb_lt; lia).
    replace (length pre0 + 1 - 1) with (length pre0 + 0) by lia.
    rewrite <- app_assoc, alter_app_r. simpl. rewrite clear_box_empty.
    change (empty_box :: replicate k empty_box)
      with (replicate (S k) empty_box).
    rewrite Nat.add_0_r, IH by lia.
    f_equal; [|lia]. f_equal.
    + replace (length pre0 + 1 - S j) with (length pre0 - j) by lia.
      by rewrite take_app_le by lia.
    + f_equal. lia.
Qed.

(** As many presses as there are cells empty a filled group. *)
Lemma backspaces_all bs :
  bs <> [] -> Forall (fun b => bvalue b <> "") bs ->
  backspaces (length bs) bs (length bs - 1)
  = (replicate (length bs) empty_box, 0).
Proof.
  intros Hne Hfull. destruct (exists_last Hne) as (pre & x & ->).
  apply Forall_app in Hfull as [_ Hx]. apply Forall_inv in Hx.
  rewrite length_app. simpl.
  replace (length pre + 1) with (S (length pre)) by lia. simpl.
  rewrite Nat.sub_0_r. unfold backspace_cells.
  rewrite lookup_app_r by lia. rewrite Nat.sub_diag. simpl.
  replace (nonempty (bvalue x)) with true
    by (destruct (bvalue x) eqn:Ex; [congruence | done]).
  simpl. rewrite alter_app_r_alt by lia. rewrite Nat.sub_diag. simpl.
  rewrite clear_box_empty.
  change [empty_box] with (replicate 1 empty_box).
  rewrite backspaces_walk by lia.
  by rewrite Nat.sub_diag, take_0.
Qed.

(** C6. From a fully filled group with the focus on its last cell, as
    many presses of delete-backward as the group has cells (four for the
    four cells of the game) leave every cell empty with its filled flag
    cleared, and the focus on the first cell. *)
Theorem backspace_through_filled_group (s : state) (cid : string)
    (e : element) :
  dom s !! cid = Some e ->
  boxes e <> [] ->
  Forall (fun b => bvalue b <> "") (boxes e) ->
  focus s = Some (cid, length (boxes e) - 1) ->
  listeners cid s = 1 ->
  let n := length (boxes e) in
  let s' := exec (iter_M n (press "Backspace")) s in
  boxes_of cid s' = replicate n (Box "" false) /\
  focus s' = Some (cid, 0).
Proof.
  intros He Hne Hfull Hfocus Hwired n s'.
  assert (Hw : widget cid (boxes e) (n - 1) s).
  { split; [by eexists | unfold boxes_of; by rewrite He | done..]. }
  assert (Hn : n - 1 < length (boxes e)).
  { subst n. destruct (boxes e); [done | simpl; lia]. }
  destruct (presses_backspace cid n _ _ _ Hw Hn) as (s1 & Hrun & Hw1 & _).
  subst s'. unfold exec. rewrite Hrun. simpl.
  subst n. rewrite backspaces_all in Hw1 by done.
  destruct Hw1 as [_ Hb Hf _]. by split.
Qed.

Lemma backspace_through_filled_group_witness :
  let s' := exec (iter_M 4 (press "Backspace")) (page "1" "2" "3" "4" 3 "0" "0") in
  boxes_of "guessInputs" s' = replicate 4 (Box "" false) /\
  focus s' = Some ("guessInputs", 0).
Proof.
  apply (backspace_through_filled_group (page "1" "2" "3" "4" 3 "0" "0")
           "guessInputs" (group "1" "2" "3" "4")).
  - reflexivity.
  - discriminate.
  - repeat constructor; discriminate.
  - reflexivity.
  - reflexivity.
Defined.

(** *** Paste *)

Lemma fill_from_length chs : forall i bs,
  length (fill_from chs i bs) = length bs.
Proof.
  induction chs as [|ch r IH]; intros i bs; simpl; [done|].
  by rewrite IH, length_alter.
Qed.

(** Cells before the first written one, and cells after the last
    character, keep what they hold. *)
Lemma fill_from_outside chs : forall i bs j,
  j < i \/ i + length chs <= j -> fill_from chs i bs !! j = bs !! j.
Proof.
  induction chs as [|ch r IH]; intros i bs j Hj; simpl in *; [done|].
  rewrite IH by lia. apply list_lookup_alter_ne. lia.
Qed.

(** The [k]-th character lands in the cell [i + k], marked filled. *)
Lemma fill_from_written chs : forall i bs k ch,
  chs !! k = Some ch -> i + k < length bs ->
  fill_from chs i bs !! (i + k) = Some (Box ch true).
Proof.
  induction chs as [|c r IH]; intros i bs k ch Hk Hlt; [done|].
  destruct k as [|k]; simpl in *.
  - simplify_eq. rewrite fill_from_outside by lia.
    rewrite Nat.add_0_r, list_lookup_alter_eq.
    destruct (lookup_lt_is_Some_2 bs i) as [b ->]; [lia | done].
  - replace (i + S k) with (S i + k) by lia.
    apply IH; [done|]. rewrite length_alter. lia.
Qed.

Lemma paste_loop cid chs : forall i s,
  is_Some (dom s !! cid) ->
  forEach_from
    (fun ch i =>
       do bs <- gets (boxes_of cid);
       match bs !! i with
       | Some _ =>
           set_box cid i (set_bvalue ch) ;;
           set_box cid i (set_filled true)
       | None => ret tt
       end)
    chs i s
  = (Ret tt, with_boxes cid (fill_from chs i (boxes_of cid s)) s).
Proof.
  induction chs as [|ch r IH]; intros i s Hp; simpl.
  - by rewrite with_boxes_same.
  - assert (Hstep :
      (do bs <- gets (boxes_of cid);
       match bs !! i with
       | Some _ =>
           set_box cid i (set_bvalue ch) ;;
           set_box cid i (set_filled true)
       | None => ret tt
       end) s
      = (Ret tt,
         with_boxes cid
           (alter (fun b => set_filled true (set_bvalue ch b)) i
                  (boxes_of cid s)) s)).
    { run. destruct (boxes_of cid s !! i) as [b|] eqn:E.
      - unfold set_box. run. rewrite update_run. by rewrite upd_box_twice.
      - rewrite ret_run. f_equal.
        rewrite <- (with_boxes_same cid s) at 1. f_equal.
        apply list_eq. intros j. rewrite list_lookup_alter.
        case_decide; [subst; by rewrite E | done]. }
    rewrite (bind_run _ _ _ _ _ Hstep), IH by (by apply with_boxes_present).
    by rewrite with_boxes_twice, boxes_of_with_boxes.
Qed.

Lemma on_paste_run cid bs idx text s :
  widget cid bs idx s -> bs <> [] ->
  let bs' := fill_from (split_chars (take_str 4 (keep is_digit text))) 0 bs in
  on_paste cid text s
  = (Ret true,
     set_focus (Some (cid, focus_after_paste bs')) (with_boxes cid bs' s)).
Proof.
  intros [Hp Hb Hf Hw] Hne bs'. unfold on_paste.
  rewrite (bind_run _ _ _ _ _ (paste_loop cid _ 0 s Hp)).
  run. rewrite boxes_of_with_boxes, Hb by done. fold bs'.
  unfold focus_after_paste. destruct (find_empty bs') as [i|]; [by run|].
  destruct (lookup_lt_is_Some_2 bs' (length bs' - 1)) as [b ->]; [|by run].
  subst bs'. rewrite fill_from_length. destruct bs; [done | simpl; lia].
Qed.

(** [find_empty] finds the first cell whose value is empty. *)
Lemma find_empty_first bs i :
  find_empty bs = Some i <->
  (exists b, bs !! i = Some b /\ bvalue b = "") /\
  (forall j b, j < i -> bs !! j = Some b -> bvalue b <> "").
Proof.
  revert i. induction bs as [|b r IH]; intros i; simpl.
  - split; [done | by intros [(? & ? & _) _]].
  - destruct (bvalue b) as [|c v] eqn:Eb; simpl.
    + split.
      * intros [= <-]. split; [by exists b | intros; lia].
      * intros [_ Hmin]. destruct i as [|i]; [done|].
        by destruct (Hmin 0 b ltac:(lia) eq_refl).
    + split.
      * intros Hi. destruct (find_empty r) as [i'|] eqn:Er; [|done].
        simpl in Hi. simplify_eq.
        destruct (proj1 (IH i') eq_refl) as [Hex Hmin]. split; [done|].
        intros [|j] b' Hj Hb'; simpl in *; [simplify_eq; by rewrite Eb|].
        apply (Hmin j); [lia | done].
      * intros [(b' & Hb' & Hv) Hmin]. destruct i as [|i]; simpl in *.
        { simplify_eq. congruence. }
        rewrite (proj2 (IH i)); [done|]. split; [by exists b'|].
        intros j b'' Hj Hb''. apply (Hmin (S j)); [lia | done].
Qed.

Lemma find_empty_none bs :
  find_empty bs = None <-> Forall (fun b => bvalue b <> "") bs.
Proof.
  induction bs as [|b r IH]; simpl; [done|].
  destruct (bvalue b) as [|c v] eqn:Eb; simpl.
  - split; [done|]. intros Hall. by apply Forall_inv in Hall.
  - rewrite Forall_cons, <- IH, Eb.
    destruct (find_empty r); simpl; split; try done. by intros [_ ?].
Qed.

Lemma take_str_length n s : String.length (take_str n s) <= n.
Proof.
  revert s. induction n as [|n IH]; intros [|c s]; simpl; try lia.
  specialize (IH s). lia.
Qed.

Lemma split_chars_length s : length (split_chars s) = String.length s.
Proof. induction s as [|c s IH]; simpl; [done | by rewrite IH]. Qed.

(** C5. Pasting [text] into a cell of the group writes the first four
    digit characters of [text] (non-digits dropped, further digits
    discarded) into the cells from cell 0 on, left to right, each marked
    filled; the other cells keep what they hold; the focus goes to the
    first empty cell, or to the last cell when none is empty. *)
Theorem paste_fills_first_four_digits (s : state) (cid text : string)
    (e : element) (idx : nat) :
  dom s !! cid = Some e ->
  focus s = Some (cid, idx) ->
  idx < length (boxes e) ->
  listeners cid s = 1 ->
  let digits := take_str 4 (keep is_digit text) in
  let s' := exec (paste text) s in
  let bs' := boxes_of cid s' in
  String.length digits <= 4 /\
  length bs' = length (boxes e) /\
  (forall i ch, split_chars digits !! i = Some ch -> i < length (boxes e) ->
     bs' !! i = Some (Box ch true)) /\
  (forall i, String.length digits <= i -> bs' !! i = boxes e !! i) /\
  ((exists i b, focus s' = Some (cid, i) /\ bs' !! i = Some b /\
                bvalue b = "" /\
                forall j b', j < i -> bs' !! j = Some b' -> bvalue b' <> "")
   \/ (focus s' = Some (cid, length bs' - 1) /\
       Forall (fun b => bvalue b <> "") bs')).
Proof.
  intros He Hfocus Hidx Hwired digits s' bs'.
  assert (Hw : widget cid (boxes e) idx s).
  { split; [by eexists | unfold boxes_of; by rewrite He | done..]. }
  assert (Hne : boxes e <> []) by (destruct (boxes e); [simpl in Hidx; lia | done]).
  set (filled := fill_from (split_chars digits) 0 (boxes e)).
  assert (Hrun : paste text s
                 = (Ret tt, set_focus (Some (cid, focus_after_paste filled))
                                      (with_boxes cid filled s))).
  { unfold paste. run. rewrite Hfocus. run.
    rewrite (widget_boxes _ _ _ _ Hw), Hwired.
    destruct (lookup_lt_is_Some_2 _ _ Hidx) as [b ->]. simpl. run.
    unfold listener. by rewrite (on_paste_run cid (boxes e) idx text s Hw Hne). }
  assert (Hbs : bs' = filled).
  { subst bs' s'. unfold exec. rewrite Hrun. simpl.
    unfold boxes_of at 1. simpl. apply boxes_of_with_boxes. by eexists. }
  assert (Hf : focus s' = Some (cid, focus_after_paste filled)).
  { subst s'. unfold exec. by rewrite Hrun. }
  rewrite Hbs. clear Hbs Hrun. subst filled. split; [apply take_str_length|].
  split; [apply fill_from_length|]. split; [|split].
  - intros i ch Hi Hlt. by apply (fill_from_written _ 0 _ i ch).
  - intros i Hi. apply fill_from_outside. right.
    rewrite split_chars_length. simpl. lia.
  - rewrite Hf. unfold focus_after_paste.
    destruct (find_empty _) as [i|] eqn:Efind.
    + left. apply find_empty_first in Efind as [(b & Hb & Hv) Hmin].
      by exists i, b.
    + right. split; [done|]. by apply find_empty_none.
Qed.

Lemma paste_fills_first_four_digits_witness :
  let s' := exec (paste "a9-8b7 6x5") (page "1" "" "" "" 1 "0" "0") in
  boxes_of "guessInputs" s' !! 0 = Some (Box "9" true) /\
  boxes_of "guessInputs" s' !! 3 = Some (Box "6" true) /\
  length (boxes_of "guessInputs" s') = 4.
Proof.
  destruct (paste_fills_first_four_digits (page "1" "" "" "" 1 "0" "0")
              "guessInputs" "a9-8b7 6x5" (group "1" "" "" "") 1)
    as (_ & Hlen & Hwritten & _).
  - reflexivity.
  - reflexivity.
  - simpl. lia.
  - reflexivity.
  - split; [|split].
    + apply (Hwritten 0 "9"); [reflexivity | simpl; lia].
    + apply (Hwritten 3 "6"); [reflexivity | simpl; lia].
    + exact Hlen.
Defined.

(** ** The history lists *)

Section Stable.
Context (I : state -> Prop).

Lemma stable_ret {A} (a : A) : stable I (ret a).
Proof. by intros s. Qed.

Lemma stable_throw {A} : stable I (@throw A).
Proof. by intros s. Qed.

Lemma stable_gets {A} (f : state -> A) : stable I (gets f).
Proof. by intros s. Qed.

Lemma stable_bind {A B} (m : M A) (k : A -> M B) :
  stable I m -> (forall a, stable I (k a)) -> stable I (bind m k).
Proof.
  intros Hm Hk s Hs. unfold bind. specialize (Hm s Hs).
  destruct (m s) as [[a|] s1]; simpl in *; [by apply Hk | done].
Qed.

Lemma stable_try_catch {A} (m h : M A) :
  stable I m -> stable I h -> stable I (try_catch m h).
Proof.
  intros Hm Hh s Hs. unfold try_catch. specialize (Hm s Hs).
  destruct (m s) as [[a|] s1]; simpl in *; [done | by apply Hh].
Qed.

Lemma stable_finally {A} (m : M A) (f : M unit) :
  stable I m -> stable I f -> stable I (finally m f).
Proof.
  intros Hm Hf s Hs. unfold finally. specialize (Hm s Hs).
  destruct (m s) as [r s1]. simpl in *. specialize (Hf s1 Hm).
  by destruct (f s1) as [[[]|] s2].
Qed.

Lemma stable_when (b : bool) (m : M unit) :
  stable I m -> stable I (when b m).
Proof. destruct b; [done | intros _; apply stable_ret]. Qed.

Lemma stable_listener {A} (m : M A) : stable I m -> stable I (listener m).
Proof. intros Hm s Hs. by apply Hm. Qed.

Lemma stable_iter (n : nat) (m : M unit) :
  stable I m -> stable I (iter_M n m).
Proof.
  intros Hm. induction n as [|n IH]; simpl; [apply stable_ret|].
  by apply stable_bind.
Qed.

Lemma stable_forEach {A} (f : A -> nat -> M unit) (l : list A) :
  (forall x i, stable I (f x i)) -> forall i, stable I (forEach_from f l i).
Proof.
  intros Hf. induction l as [|x r IH]; intros i; simpl; [apply stable_ret|].
  by apply stable_bind.
Qed.
End Stable.

Lemma log_rows_upd l id f s :
  (id <> l \/ forall e, filter is_row (children (f e)) = filter is_row (children e)) ->
  log_rows l (upd id f s) = log_rows l s.
Proof.
  intros Hf. unfold log_rows. destruct (decide (id = l)) as [->|Hne].
  - destruct Hf as [?|Hf]; [done|]. rewrite lookup_upd.
    destruct (dom s !! l); simpl; [by rewrite Hf | done].
  - by rewrite lookup_upd_ne.
Qed.

Section Rows.
Context (l : string) (v : option (list child)).

Lemma rows_update id f :
  (id <> l \/ forall e, filter is_row (children (f e)) = filter is_row (children e)) ->
  stable (rows_are l v) (update id f).
Proof. intros Hf s Hs. unfold rows_are in *. simpl. by rewrite log_rows_upd. Qed.

Lemma rows_update_or_throw id f :
  (id <> l \/ forall e, filter is_row (children (f e)) = filter is_row (children e)) ->
  stable (rows_are l v) (update_or_throw id f).
Proof.
  intros Hf. unfold update_or_throw. apply stable_bind; [apply stable_gets|].
  intros [e|]; [by apply rows_update | apply stable_throw].
Qed.

Lemma rows_modify f :
  (forall s, dom (f s) = dom s) -> stable (rows_are l v) (modify f).
Proof. intros Hf s Hs. unfold rows_are, log_rows in *. simpl. by rewrite Hf. Qed.

(** A helper that only applies [f] to the element [id]. *)
Lemma rows_run {A} (m : M A) id f :
  (forall s, exists a, m s = (Ret a, upd id f s)) ->
  (id <> l \/ forall e, filter is_row (children (f e)) = filter is_row (children e)) ->
  stable (rows_are l v) m.
Proof.
  intros Hm Hf s Hs. destruct (Hm s) as [a ->]. unfold rows_are in *. simpl.
  by rewrite log_rows_upd.
Qed.

Lemma rows_show id : stable (rows_are l v) (show id).
Proof. apply (rows_run _ id (set_display "")); [eexists; apply show_run | by right]. Qed.

Lemma rows_hide id : stable (rows_are l v) (hide id).
Proof. apply (rows_run _ id (set_display "none")); [eexists; apply hide_run | by right]. Qed.

Lemma rows_clearError id : stable (rows_are l v) (clearError id).
Proof. apply rows_hide. Qed.

Lemma rows_showError id msg : id <> l -> stable (rows_are l v) (showError id msg).
Proof.
  intros Hne. apply (rows_run _ id (error_shown msg));
    [eexists; apply showError_run | by left].
Qed.

Lemma rows_setButtonLoading id b : stable (rows_are l v) (setButtonLoading id b).
Proof.
  apply (rows_run _ id (button_loading b));
    [eexists; apply setButtonLoading_run | right].
  intros e. unfold button_loading.
  destruct b; [done|]. destruct (originalHTML e) as [h|]; [|done].
  by destruct (nonempty h).
Qed.

Lemma rows_addHistoryRow id guess bulls cows :
  id <> l -> stable (rows_are l v) (addHistoryRow id guess bulls cows).
Proof.
  intros Hne. apply (rows_run _ id (row_added guess bulls cows));
    [eexists; apply addHistoryRow_run | by left].
Qed.

Lemma rows_set_box cid i f : stable (rows_are l v) (set_box cid i f).
Proof. apply rows_update. by right. Qed.

Lemma rows_focus_box cid i : stable (rows_are l v) (focus_box cid i).
Proof. by apply rows_modify. Qed.

Lemma rows_emit e : stable (rows_are l v) (modify (emit e)).
Proof. by apply rows_modify. Qed.

Lemma rows_clearOtpBoxes id : stable (rows_are l v) (clearOtpBoxes id).
Proof.
  unfold clearOtpBoxes. apply stable_bind; [apply stable_gets|].
  intros [e|]; [|apply stable_ret].
  apply stable_bind; [apply rows_update; by right|]. intros _.
  destruct (boxes e); [apply stable_ret | apply rows_focus_box].
Qed.
End Rows.

Create HintDb rows discriminated.
#[local] Hint Resolve stable_ret stable_throw stable_gets stable_when
  stable_listener stable_iter stable_try_catch stable_finally
  rows_show rows_hide rows_clearError rows_setButtonLoading rows_set_box
  rows_focus_box rows_emit rows_clearOtpBoxes : rows.

(** Takes a computation apart along its sequences and case distinctions,
    closing the leaves with the [rows] hints; identifiers are compared by
    computation. *)
Ltac different :=
  solve [ left; discriminate
        | right; reflexivity
        | discriminate
        | match goal with a : actor |- _ => destruct a end;
          solve [left; discriminate | discriminate] ].
Ltac rows_step :=
  lazymatch goal with
  | |- stable _ (bind _ _) => apply stable_bind; [|intros ?]
  | |- stable _ (try_catch _ _) => apply stable_try_catch
  | |- stable _ (finally _ _) => apply stable_finally
  | |- stable _ (when _ _) => apply stable_when
  | |- stable _ (listener _) => apply stable_listener
  | |- stable _ (iter_M _ _) => apply stable_iter
  | |- stable _ (forEach_from _ _ _) => apply stable_forEach; intros ? ?
  | |- stable _ (getElementById _) => apply stable_gets
  | |- stable _ (showError _ _) => apply rows_showError; different
  | |- stable _ (addHistoryRow _ _ _ _) => apply rows_addHistoryRow; different
  | |- stable _ (update _ _) => apply rows_update; different
  | |- stable _ (update_or_throw _ _) => apply rows_update_or_throw; different
  | |- stable _ (match ?x with _ => _ end) => destruct x
  | |- _ => solve [eauto with rows]
  end.
Ltac rows := repeat rows_step.

Section Untouched.
Context (a : actor) (v : option (list child)).
#[local] Abbreviation kept := (stable (rows_are (log_id a) v)).

Lemma rows_initOtpBoxes cid : kept (initOtpBoxes cid).
Proof. unfold initOtpBoxes. rows. by apply rows_modify. Qed.

Lemma rows_on_input cid idx val : kept (on_input cid idx val).
Proof. unfold on_input. rows. Qed.

Lemma rows_on_keydown cid idx key : kept (on_keydown cid idx key).
Proof. unfold on_keydown. rows. Qed.

Lemma rows_on_paste cid text : kept (on_paste cid text).
Proof. unfold on_paste. rows. Qed.

Lemma rows_press key : kept (press key).
Proof. unfold press. rows. apply rows_on_keydown. Qed.

Lemma rows_paste text : kept (paste text).
Proof. unfold paste. rows. apply rows_on_paste. Qed.

Lemma rows_showResultFlash guess bulls cows :
  kept (showResultFlash guess bulls cows).
Proof. destruct a; unfold showResultFlash; rows. Qed.

Lemma rows_displayAiGuess guess : kept (displayAiGuess guess).
Proof. destruct a; unfold displayAiGuess; rows. Qed.

Lemma rows_triggerAiTurn_resume r : kept (triggerAiTurn_resume r).
Proof.
  unfold triggerAiTurn_resume. rows; apply rows_displayAiGuess.
Qed.

Lemma rows_showWinner winner secret : kept (showWinner winner secret).
Proof. destruct a; unfold showWinner; rows. Qed.

Lemma rows_showHumanTurn : kept showHumanTurn.
Proof. unfold showHumanTurn. rows. Qed.

Lemma rows_run_callback cb : kept (run_callback cb).
Proof.
  destruct cb; simpl.
  - apply rows_showWinner.
  - unfold triggerAiTurn_send. rows.
  - apply rows_showHumanTurn.
Qed.

Lemma rows_revealTick digits i : kept (revealTick digits i).
Proof. destruct a; unfold revealTick; rows. Qed.

Lemma rows_submitHumanGuess_send : kept submitHumanGuess_send.
Proof. destruct a; unfold submitHumanGuess_send, getOtpValue; rows. Qed.

Lemma rows_submitAiFeedback_send : kept submitAiFeedback_send.
Proof. destruct a; unfold submitAiFeedback_send; rows. Qed.

(** What follows the new row in [submitHumanGuess]. *)
Lemma rows_after_human_row guess data :
  kept (clearOtpBoxes "guessInputs" ;;
        hide "humanCard" ;;
        showResultFlash guess (h_bulls data) (h_cows data) ;;
        if h_won data then
          modify (emit (SetTimeout
                          (CbShowWinner "human" (h_ai_secret data)) 2000))
        else
          modify (emit (SetTimeout CbAiTurn 2500))).
Proof. rows. apply rows_showResultFlash. Qed.

(** What follows the new row in [submitAiFeedback]. *)
Lemma rows_after_ai_row data :
  kept (update_or_throw "aiBulls" (set_value "0") ;;
        update_or_throw "aiCows" (set_value "0") ;;
        if f_won data then
          hide "aiCard" ;;
          modify (emit (SetTimeout
                          (CbShowWinner "ai" (f_human_secret data)) 400))
        else
          hide "aiCard" ;;
          modify (emit (SetTimeout CbShowHumanTurn 300))).
Proof. rows. Qed.
End Untouched.

Lemma filter_remove_placeholder cs :
  filter is_row (remove_placeholder cs) = filter is_row cs.
Proof.
  induction cs as [|c r IH]; [done|].
  destruct c; simpl; [done | |]; by rewrite ?filter_cons, ?IH.
Qed.

Lemma log_rows_row_added l guess bulls cows s :
  log_rows l (upd l (row_added guess bulls cows) s)
  = appended (Some (HistoryRow (spaced guess) bulls cows)) <$> log_rows l s.
Proof.
  unfold log_rows. rewrite lookup_upd. destruct (dom s !! l) as [e|]; [|done].
  simpl. by rewrite filter_app, filter_remove_placeholder.
Qed.

(** A [try]/[catch]/[finally] whose body, from [s], goes on as [rest]
    does from [s1]. *)
Lemma finally_try_from {A} (I : state -> Prop) (body rest h : M A) f s s1 :
  body s = rest s1 -> I s1 ->
  stable I rest -> stable I h -> stable I f ->
  I ((finally (try_catch body h) f) s).2.
Proof.
  intros Hbody Hs1 Hrest Hh Hf.
  pose proof (stable_finally I _ _ (stable_try_catch I _ _ Hrest Hh) Hf s1 Hs1)
    as Hgoal.
  unfold finally, try_catch in *. by rewrite Hbody.
Qed.

Lemma rows_human_resume_success guess data s :
  h_success data = true ->
  log_rows "humanHistory" (exec (submitHumanGuess_resume guess (Reply data)) s)
  = appended (Some (HistoryRow (spaced guess)
                               (Num (h_bulls data)) (Num (h_cows data))))
      <$> log_rows "humanHistory" s.
Proof.
  intros Hok. unfold exec, submitHumanGuess_resume. rewrite Hok. simpl.
  eapply (finally_try_from (rows_are "humanHistory" _)).
  - apply bind_run, addHistoryRow_run.
  - apply log_rows_row_added.
  - apply (rows_after_human_row Human).
  - rows.
  - rows.
Qed.

Lemma rows_ai_resume_success bulls cows data s :
  f_success data = true ->
  log_rows "aiHistory" (exec (submitAiFeedback_resume bulls cows (Reply data)) s)
  = appended
      (Some (HistoryRow
               (spaced (keep (fun ch => negb (is_space ch))
                             match dom s !! "aiGuessDisplay" with
                             | Some e => textContent e
                             | None => "????"
                             end))
               bulls cows))
      <$> log_rows "aiHistory" s.
Proof.
  intros Hok. unfold exec, submitAiFeedback_resume. rewrite Hok. simpl.
  eapply (finally_try_from (rows_are "aiHistory" _)).
  - rewrite (bind_run _ _ _ _ _ (getElementById_run _ _)).
    apply bind_run, addHistoryRow_run.
  - apply log_rows_row_added.
  - apply (rows_after_ai_row Ai).
  - rows.
  - rows.
Qed.

Lemma rows_human_resume_other a guess r s :
  match a, r with
  | Human, Reply data => h_success data = false
  | _, _ => True
  end ->
  log_rows (log_id a) (exec (submitHumanGuess_resume guess r) s)
  = log_rows (log_id a) s.
Proof.
  intros Hr.
  assert (Hst : stable (rows_are (log_id a) (log_rows (log_id a) s))
                       (submitHumanGuess_resume guess r)).
  { unfold submitHumanGuess_resume. destruct r as [|data]; [destruct a; rows|].
    destruct a.
    - rewrite Hr. simpl. rows.
    - destruct (h_success data); simpl; rows.
      apply (rows_showResultFlash Ai). }
  by apply Hst.
Qed.

Lemma rows_ai_resume_other a bulls cows r s :
  match a, r with
  | Ai, Reply data => f_success data = false
  | _, _ => True
  end ->
  log_rows (log_id a) (exec (submitAiFeedback_resume bulls cows r) s)
  = log_rows (log_id a) s.
Proof.
  intros Hr.
  assert (Hst : stable (rows_are (log_id a) (log_rows (log_id a) s))
                       (submitAiFeedback_resume bulls cows r)).
  { unfold submitAiFeedback_resume. destruct r as [|data]; [destruct a; rows|].
    destruct a.
    - destruct (f_success data); simpl; rows.
    - rewrite Hr. simpl. rows. }
  by apply Hst.
Qed.

Lemma fmap_appended_none (v : option (list child)) : appended None <$> v = v.
Proof. by destruct v. Qed.

(** One event: the rows of an actor's list grow by the row of the
    actor's successful submission, if the event is one, and stay as they
    are otherwise. *)
Lemma step_rows a e c :
  log_rows (log_id a) (page_of (step e c))
  = appended (submission a e c) <$> log_rows (log_id a) (page_of c).
Proof.
  assert (Hkept : forall m : M unit,
            stable (rows_are (log_id a) (log_rows (log_id a) (page_of c))) m ->
            log_rows (log_id a) (page_of (on_page m c))
            = log_rows (log_id a) (page_of c)).
  { intros m Hm. by apply Hm. }
  destruct e; simpl;
    try (replace (submission a _ c) with (@None child) by (by destruct a);
         rewrite fmap_appended_none).
  - apply Hkept, rows_initOtpBoxes.
  - apply Hkept. rows. apply rows_on_input.
  - apply Hkept, rows_press.
  - apply Hkept, rows_paste.
  - apply Hkept. unfold on_click. rows.
  - apply Hkept. rows.
  - pose proof (rows_submitHumanGuess_send a _ (page_of c) eq_refl) as Hs.
    destruct (submitHumanGuess_send (page_of c)) as [[[guess|]|] s1]; exact Hs.
  - destruct (guesses_in_flight c) as [|guess rest] eqn:Eq.
    + replace (submission a _ c) with (@None child)
        by (destruct a, r; simpl; by rewrite ?Eq).
      by rewrite fmap_appended_none.
    + simpl. destruct a; destruct r as [|data]; simpl; rewrite ?Eq.
      * rewrite fmap_appended_none.
        by apply (rows_human_resume_other Human guess).
      * destruct (h_success data) eqn:Eok.
        -- by apply rows_human_resume_success.
        -- rewrite fmap_appended_none.
           by apply (rows_human_resume_other Human guess).
      * rewrite fmap_appended_none.
        by apply (rows_human_resume_other Ai guess).
      * rewrite fmap_appended_none.
        by apply (rows_human_resume_other Ai guess).
  - apply Hkept, rows_triggerAiTurn_resume.
  - pose proof (rows_submitAiFeedback_send a _ (page_of c) eq_refl) as Hs.
    destruct (submitAiFeedback_send (page_of c)) as [[[counts|]|] s1]; exact Hs.
  - destruct (feedback_in_flight c) as [|[bulls cows] rest] eqn:Eq.
    + replace (submission a _ c) with (@None child)
        by (destruct a, r; simpl; by rewrite ?Eq).
      by rewrite fmap_appended_none.
    + simpl. destruct a; destruct r as [|data]; simpl; rewrite ?Eq.
      * rewrite fmap_appended_none.
        by apply (rows_ai_resume_other Human bulls cows).
      * rewrite fmap_appended_none.
        by apply (rows_ai_resume_other Human bulls cows).
      * rewrite fmap_appended_none.
        by apply (rows_ai_resume_other Ai bulls cows).
      * destruct (f_success data) eqn:Eok.
        -- by apply rows_ai_resume_success.
        -- rewrite fmap_appended_none.
           by apply (rows_ai_resume_other Ai bulls cows).
  - apply Hkept, rows_run_callback.
  - apply Hkept. rows. apply rows_revealTick.
Qed.

Lemma rows_log_rows l s : rows l s = default [] (log_rows l s).
Proof. unfold rows, log_rows. by destruct (dom s !! l). Qed.

Lemma log_rows_present l s : is_Some (log_rows l s) <-> is_Some (dom s !! l).
Proof. unfold log_rows. apply fmap_is_Some. Qed.

Lemma step_present a e c :
  is_Some (dom (page_of c) !! log_id a) ->
  is_Some (dom (page_of (step e c)) !! log_id a).
Proof.
  intros Hp. apply log_rows_present. rewrite step_rows.
  apply fmap_is_Some. by apply log_rows_present.
Qed.

Lemma step_rows_present a e c :
  is_Some (dom (page_of c) !! log_id a) ->
  rows (log_id a) (page_of (step e c))
  = appended (submission a e c) (rows (log_id a) (page_of c)).
Proof.
  intros Hp. rewrite !rows_log_rows, step_rows.
  apply log_rows_present in Hp as [rs ->]. done.
Qed.

(** C3, as the script has it.  With the actor's history list on the page:
    every event that is a successful submission of the actor, winning or
    not, appends exactly one row to the list, and no other event changes
    its rows; so along any sequence of events the number of rows grows by
    the number of successful submissions of the actor, the winning one
    included. *)
Theorem history_row_per_success (a : actor) (c : config) :
  is_Some (dom (page_of c) !! log_id a) ->
  (forall e,
     rows (log_id a) (page_of (step e c))
     = appended (submission a e c) (rows (log_id a) (page_of c))) /\
  (forall evs,
     length (rows (log_id a) (page_of (run_events evs c)))
     = length (rows (log_id a) (page_of c)) + successes a evs c).
Proof.
  intros Hp. split; [intros e; by apply step_rows_present|].
  intros evs. revert c Hp.
  induction evs as [|e evs IH]; intros c Hp; simpl; [lia|].
  rewrite IH by (by apply step_present).
  rewrite step_rows_present by done.
  destruct (submission a e c); simpl; [|lia].
  rewrite length_app. simpl. lia.
Qed.

Lemma history_row_per_success_witness :
  length (rows "humanHistory" (page_of (run_events two_rounds fresh_game)))
  = length (rows "humanHistory" (page_of fresh_game))
    + successes Human two_rounds fresh_game.
Proof.
  destruct (history_row_per_success Human fresh_game) as [_ Hcount].
  - eexists. reflexivity.
  - exact (Hcount two_rounds).
Defined.

Example two_rounds_rows :
  rows "humanHistory" (page_of (run_events two_rounds fresh_game))
  = [HistoryRow "1 2 3 4" (Num 1) (Num 1); HistoryRow "5 6 7 8" (Num 4) (Num 0)]
  /\ successes Human two_rounds fresh_game = 2
  /\ successes_not_winning Human two_rounds fresh_game = 1.
Proof. repeat split; reflexivity. Qed.

(** C3 as stated fails on a winning guess: the row is appended before the
    script looks at [won], so after the guess that wins the list has one
    row while no successful submission was a non-winning one. *)
Lemma winning_guess_is_logged :
  length (rows "humanHistory" (page_of (run_events winning_round fresh_game)))
  <> successes_not_winning Human winning_round fresh_game.
Proof. vm_compute. discriminate. Qed.

Example winning_round_rows :
  rows "humanHistory" (page_of (run_events winning_round fresh_game))
  = [HistoryRow "1 2 3 4" (Num 4) (Num 0)].
Proof. reflexivity. Qed.

Example winning_round_counts :
  successes Human winning_round fresh_game = 1 /\
  successes_not_winning Human winning_round fresh_game = 0.
Proof. split; reflexivity. Qed.

(** ** The AI turn *)

Lemma displayAiGuess_run guess s :
  is_Some (dom s !! "aiGuessDisplay") ->
  displayAiGuess guess s
  = (Ret tt,
     upd "aiCard" (set_animation "" ∘ set_animation "none" ∘ set_display "")
       (emit (SetInterval (split_chars guess) 180)
          (upd "aiGuessDisplay" (set_textContent "_ _ _ _") s))).
Proof.
  intros [e He]. unfold displayAiGuess. run. rewrite He. run.
  set (s1 := emit _ _).
  destruct (dom (upd "aiCard" (set_display "") s1) !! "aiCard") as [card|] eqn:Ec.
  - run. rewrite update_run. by rewrite !upd_upd.
  - rewrite ret_run. f_equal. rewrite lookup_upd in Ec.
    destruct (dom s1 !! "aiCard") eqn:Ec1; [done|].
    by rewrite !upd_absent.
Qed.

Lemma revealTick_run digits i s :
  revealTick digits i s
  = (Ret (i + 1, length digits <=? i + 1),
     upd "aiGuessDisplay"
       (set_textContent
          (join " " (take (i + 1) digits) +:+
           (if i <? 3 then " " +:+ trim (repeat_str "_ " (3 - i)) else "")))
       s).
Proof. unfold revealTick. by run. Qed.

Lemma display_text_upd t s :
  is_Some (dom s !! "aiGuessDisplay") ->
  display_text (upd "aiGuessDisplay" (set_textContent t) s) = Some t.
Proof. intros [e He]. unfold display_text. by rewrite lookup_upd, He. Qed.

Lemma upd_present id f s id' :
  is_Some (dom (upd id f s) !! id') <-> is_Some (dom s !! id').
Proof. apply lookup_alter_is_Some. Qed.

(** The interval on a guess of four characters, period by period. *)
Lemma reveal_four c1 c2 c3 c4 n s :
  is_Some (dom s !! "aiGuessDisplay") ->
  let guess := String c1 (String c2 (String c3 (String c4 ""))) in
  result (reveal (split_chars guess) 0 n) s = Ret (n <? 4) /\
  (0 < n -> display_text (exec (reveal (split_chars guess) 0 n) s)
            = Some (revealed guess n)) /\
  (n = 0 -> exec (reveal (split_chars guess) 0 n) s = s).
Proof.
  intros Hp guess. unfold exec, result.
  destruct n as [|[|[|[|n]]]]; simpl;
    repeat (rewrite (bind_run _ _ _ _ _ (revealTick_run _ _ _)); simpl);
    (split; [done|]); (split; [|done || lia]); intros Hn; try lia;
    rewrite display_text_upd by (by rewrite ?upd_present); reflexivity.
Qed.

Lemma four_chars (guess : string) :
  String.length guess = 4 ->
  exists c1 c2 c3 c4, guess = String c1 (String c2 (String c3 (String c4 ""))).
Proof.
  destruct guess as [|c1 [|c2 [|c3 [|c4 [|c5 r]]]]]; try discriminate.
  intros _. by exists c1, c2, c3, c4.
Qed.

Lemma displayAiGuess_text guess s :
  is_Some (dom s !! "aiGuessDisplay") ->
  display_text (exec (displayAiGuess guess) s) = Some "_ _ _ _" /\
  is_Some (dom (exec (displayAiGuess guess) s) !! "aiGuessDisplay").
Proof.
  intros Hp. unfold exec. rewrite displayAiGuess_run by done. simpl.
  destruct Hp as [e He]. unfold display_text.
  rewrite lookup_upd_ne by done. simpl. rewrite lookup_alter_eq, He.
  split; [done|]. rewrite lookup_alter_ne, lookup_alter_eq, He by done.
  by eexists.
Qed.

(** After [n] periods the display reads the first [n] digits and a
    placeholder for each of the others. *)
Lemma reveal_after_text guess n s :
  is_Some (dom s !! "aiGuessDisplay") ->
  String.length guess = 4 ->
  display_text (reveal_after guess n s) = Some (revealed guess n).
Proof.
  intros Hp Hlen. destruct (four_chars guess Hlen) as (c1 & c2 & c3 & c4 & ->).
  destruct (displayAiGuess_text (String c1 (String c2 (String c3 (String c4 ""))))
              s Hp) as [Htext Hp0].
  unfold reveal_after.
  destruct (reveal_four c1 c2 c3 c4 n _ Hp0) as (_ & Hpos & Hzero).
  destruct n as [|n]; [by rewrite Hzero | apply Hpos; lia].
Qed.

Lemma card_shown_after_display guess s :
  is_Some (dom s !! "aiGuessDisplay") ->
  is_Some (dom s !! "aiCard") ->
  card_shown (exec (displayAiGuess guess) s) = true.
Proof.
  intros Hp [card Hc]. unfold exec. rewrite displayAiGuess_run by done.
  unfold card_shown. simpl. rewrite lookup_alter_eq.
  by rewrite lookup_alter_ne, Hc.
Qed.

(** The interval writes to the display only. *)
Lemma reveal_elsewhere digits id n : forall i s,
  id <> "aiGuessDisplay" ->
  dom (exec (reveal digits i n) s) !! id = dom s !! id /\
  trace (exec (reveal digits i n) s) = trace s.
Proof.
  induction n as [|n IH]; intros i s Hid; [done|].
  unfold exec. simpl. rewrite (bind_run _ _ _ _ _ (revealTick_run _ _ _)).
  simpl. destruct (length digits <=? i + 1).
  - simpl. by rewrite lookup_alter_ne.
  - destruct (IH (i + 1) (upd "aiGuessDisplay"
                   (set_textContent
                      (join " " (take (i + 1) digits) +:+
                       (if i <? 3
                        then " " +:+ trim (repeat_str "_ " (3 - i))
                        else ""))) s) Hid) as [Hd Ht].
    unfold exec in *. rewrite Hd, Ht. simpl. by rewrite lookup_alter_ne.
Qed.

(** C4, as the script has it.  [displayAiGuess] on a guess of four
    characters sets one interval of 180 ms and shows the AI card at once,
    while the display still reads four placeholders.  The [n]-th firing of
    the interval makes the display read the first [n] digits; the fourth
    firing clears the interval; no firing touches the AI card, which is
    shown from the start and not from the end of the reveal. *)
Theorem ai_guess_revealed_by_interval (s : state) (guess : string) :
  is_Some (dom s !! "aiGuessDisplay") ->
  String.length guess = 4 ->
  let s0 := exec (displayAiGuess guess) s in
  trace s0 = trace s ++ [SetInterval (split_chars guess) 180] /\
  revealed guess 0 = "_ _ _ _" /\
  revealed guess 4 = spaced guess /\
  (forall n, display_text (reveal_after guess n s) = Some (revealed guess n)) /\
  (forall n, result (reveal (split_chars guess) 0 n) s0 = Ret (n <? 4)) /\
  (forall n, trace (reveal_after guess n s) = trace s0) /\
  (is_Some (dom s !! "aiCard") ->
   forall n, card_shown (reveal_after guess n s) = true).
Proof.
  intros Hp Hlen s0.
  destruct (four_chars guess Hlen) as (c1 & c2 & c3 & c4 & Hg).
  destruct (displayAiGuess_text guess s Hp) as [Htext Hp0].
  split; [|split; [|split; [|split; [|split; [|split]]]]].
  - subst s0. unfold exec. by rewrite displayAiGuess_run.
  - by rewrite Hg.
  - by rewrite Hg.
  - intros n. by apply reveal_after_text.
  - intros n. subst s0. rewrite Hg in *.
    by destruct (reveal_four c1 c2 c3 c4 n _ Hp0) as (Hres & _).
  - intros n. unfold reveal_after.
    by destruct (reveal_elsewhere (split_chars guess) "aiCard" n 0 s0).
  - intros Hcard n. subst s0. unfold reveal_after, card_shown.
    destruct (reveal_elsewhere (split_chars guess) "aiCard" n 0
                (exec (displayAiGuess guess) s)) as [-> _]; [done|].
    by apply card_shown_after_display.
Qed.

Lemma ai_guess_revealed_by_interval_witness :
  display_text (reveal_after "5678" 2 (page "1" "2" "3" "4" 3 "0" "0"))
  = Some "5 6 _ _" /\
  card_shown (reveal_after "5678" 0 (page "1" "2" "3" "4" 3 "0" "0")) = true.
Proof.
  destruct (ai_guess_revealed_by_interval (page "1" "2" "3" "4" 3 "0" "0") "5678")
    as (_ & _ & _ & Htext & _ & _ & Hcard).
  - eexists. reflexivity.
  - reflexivity.
  - split; [exact (Htext 2) | apply Hcard; eexists; reflexivity].
Defined.

(** C4 as stated fails: right after [displayAiGuess], before the interval
    has fired once, the AI card is shown while the display reads four
    placeholders, and a click on the feedback button sends its request. *)
Lemma ai_card_shown_before_reveal :
  let s0 := reveal_after "5678" 0 (page "1" "2" "3" "4" 3 "0" "0") in
  ~ (card_shown s0 = true -> digits_shown "5678" s0 = true) /\
  display_text s0 = Some "_ _ _ _" /\
  trace (exec submitAiFeedback_send s0)
  = trace s0 ++ [Fetch "POST" "/ai-feedback"
                   (Some [("bulls", JNumber 0); ("cows", JNumber 0)])].
Proof.
  split; [|split; reflexivity].
  intros H. specialize (H eq_refl). vm_compute in H. discriminate.
Qed.

(** ** The guess in the AI history *)

Lemma digit_not_space c : is_digit c = true -> is_space c = false.
Proof.
  destruct c as [[] [] [] [] [] [] [] []]; vm_compute; congruence.
Qed.

Lemma digit_not_placeholder c : is_digit c = true -> c <> "_"%char.
Proof. intros Hd ->. vm_compute in Hd. discriminate. Qed.

(** White space removed, a partly revealed guess of four digits is its
    revealed digits followed by the placeholders. *)
Lemma revealed_without_spaces guess n :
  String.length guess = 4 -> all_digits guess = true ->
  keep (fun c => negb (is_space c)) (revealed guess n)
  = take_str n guess +:+ repeat_str "_" (4 - n).
Proof.
  intros Hlen Hall. destruct (four_chars guess Hlen) as (c1 & c2 & c3 & c4 & ->).
  unfold all_digits in Hall. simpl in Hall.
  apply andb_prop in Hall as [H1 Hall]. apply andb_prop in Hall as [H2 Hall].
  apply andb_prop in Hall as [H3 Hall]. apply andb_prop in Hall as [H4 _].
  apply digit_not_space in H1, H2, H3, H4.
  destruct n as [|[|[|[|n]]]];
    cbv [revealed spaced split_chars join take_str repeat_str String.app keep
         Nat.sub];
    rewrite ?H1, ?H2, ?H3, ?H4; reflexivity.
Qed.

Lemma revealed_not_complete guess n :
  String.length guess = 4 -> all_digits guess = true -> n < 4 ->
  take_str n guess +:+ repeat_str "_" (4 - n) <> guess.
Proof.
  intros Hlen Hall Hn. destruct (four_chars guess Hlen) as (c1 & c2 & c3 & c4 & ->).
  unfold all_digits in Hall. simpl in Hall.
  apply andb_prop in Hall as [_ Hall]. apply andb_prop in Hall as [_ Hall].
  apply andb_prop in Hall as [_ Hall]. apply andb_prop in Hall as [H4 _].
  apply digit_not_placeholder in H4.
  destruct n as [|[|[|[|n]]]]; [..|lia];
    cbv [take_str repeat_str String.app Nat.sub]; congruence.
Qed.

Lemma reveal_after_rows l guess n s :
  l <> "aiGuessDisplay" ->
  is_Some (dom s !! "aiGuessDisplay") ->
  dom (reveal_after guess n s) !! l
  = dom (upd "aiCard" (set_animation "" ∘ set_animation "none" ∘ set_display "") s) !! l.
Proof.
  intros Hl Hp. unfold reveal_after.
  destruct (reveal_elsewhere (split_chars guess) l n 0
              (exec (displayAiGuess guess) s)) as [-> _]; [done|].
  unfold exec. rewrite displayAiGuess_run by done. simpl.
  destruct (decide (l = "aiCard")) as [->|Hc].
  - rewrite !lookup_alter_eq. by rewrite lookup_alter_ne.
  - rewrite !(lookup_alter_ne _ _ "aiCard") by done.
    by rewrite lookup_alter_ne.
Qed.

(** The row [submitAiFeedback] appends on success takes its guess from
    the text the display holds when the answer is handled, white space
    removed. *)
Lemma row_from_display (now : state) (bulls cows : number)
    (data : feedback_reply) :
  f_success data = true ->
  is_Some (dom now !! "aiHistory") ->
  rows "aiHistory"
       (exec (submitAiFeedback_resume bulls cows (Reply data)) now)
  = rows "aiHistory" now
    ++ [HistoryRow
          (spaced (keep (fun c => negb (is_space c))
                        match dom now !! "aiGuessDisplay" with
                        | Some e => textContent e
                        | None => "????"
                        end))
          bulls cows].
Proof.
  intros Hok Hnow. rewrite !rows_log_rows.
  rewrite rows_ai_resume_success by done.
  apply log_rows_present in Hnow as [rs ->]. done.
Qed.

(** ** Confetti *)

Section ConfettiFacts.
Import Confetti.
Context {num : Type} `{Arith num}.
Variable random : nat -> num.
Variables innerWidth innerHeight : num.

Lemma filter_out_only (id : nat) : filter (fun i => i <> id) [id] = [].
Proof. cbn. by destruct (decide (id <> id)). Qed.

Lemma loop_particles (st : @world num) :
  length (particles (loop st)) = length (particles st).
Proof. unfold loop. simpl. by rewrite !length_map. Qed.

Lemma loop_one_pending (st : @world num) :
  requested st = [] -> one_pending (loop st).
Proof.
  intros Hreq. unfold one_pending, loop. simpl. rewrite Hreq.
  destruct ((0 <? _) && negb (done st)); [right | by left].
  by eexists.
Qed.

Lemma loop_keeps (st : @world num) :
  done (loop st) = done st /\ timeouts (loop st) = timeouts st.
Proof. done. Qed.

Lemma frame_fires_one_pending id (st : @world num) :
  one_pending st -> one_pending (frame_fires id st).
Proof.
  intros Hinv. unfold frame_fires. case_decide as Hin; [|done].
  apply loop_one_pending. simpl.
  destruct Hinv as [Hreq | (id' & _ & Hreq)]; rewrite Hreq in *.
  - done.
  - apply list_elem_of_singleton in Hin as ->. apply filter_out_only.
Qed.

Lemma frame_fires_keeps id (st : @world num) :
  length (particles (frame_fires id st)) = length (particles st) /\
  done (frame_fires id st) = done st /\
  timeouts (frame_fires id st) = timeouts st.
Proof.
  unfold frame_fires. case_decide; [|done].
  by rewrite loop_particles.
Qed.

Lemma frames_fire_keeps ids : forall st : @world num,
  one_pending st ->
  one_pending (frames_fire ids st) /\
  length (particles (frames_fire ids st)) = length (particles st) /\
  done (frames_fire ids st) = done st /\
  timeouts (frames_fire ids st) = timeouts st.
Proof.
  induction ids as [|id ids IH]; intros st Hinv; [done|].
  simpl. destruct (IH (frame_fires id st)) as (Hi & Hp & Hd & Ht);
    [by apply frame_fires_one_pending|].
  destruct (frame_fires_keeps id st) as (Hp' & Hd' & Ht').
  rewrite Hp, Hd, Ht. by rewrite Hp', Hd', Ht'.
Qed.

Lemma timer_fires_cancels (st : @world num) :
  one_pending st -> requested (timer_fires st) = [].
Proof.
  intros [Hreq | (id & Hf & Hreq)]; unfold timer_fires; simpl;
    rewrite Hreq; [by destruct (frame st)|].
  rewrite Hf. apply filter_out_only.
Qed.

Lemma frames_fire_idle ids : forall st : @world num,
  requested st = [] -> frames_fire ids st = st.
Proof.
  induction ids as [|id ids IH]; intros st Hreq; [done|].
  simpl. unfold frame_fires at 1. rewrite Hreq.
  case_decide as Hin; [by apply elem_of_nil in Hin|]. by apply IH.
Qed.

(** C7. With the canvas on the page, [launchConfetti] spawns 140
    particles and sets one timeout of 5000 ms.  Whatever frames the host
    runs before that delay is over, once the timeout fires the surface is
    cleared, no frame callback is left requested, and none is requested or
    run any more, whether or not particles are still above the lower
    bound: the particles are all still there, and later frames find
    nothing to run. *)
Theorem confetti_stops_at_ceiling (canvas : list (@rect num)) (handle : nat)
    (before later : list nat) :
  exists st,
    launchConfetti random innerWidth innerHeight (Some canvas) handle = Some st /\
    length (particles st) = 140 /\
    timeouts st = [5000] /\
    let stopped := timer_fires (frames_fire before st) in
    surface stopped = [] /\
    requested stopped = [] /\
    timeouts stopped = [] /\
    done stopped = true /\
    length (particles stopped) = 140 /\
    frames_fire later stopped = stopped.
Proof.
  eexists. split; [reflexivity|].
  set (st0 := World innerWidth innerHeight []
                    (map (spawn random innerWidth) (seq 0 140)) None false
                    handle [] []).
  assert (Hlen : length (particles (loop st0)) = 140) by (by rewrite loop_particles).
  assert (Hinv : one_pending (loop st0)) by (by apply loop_one_pending).
  split; [exact Hlen|]. split; [done|]. intros stopped.
  set (st := World _ _ _ _ _ _ _ _ _) in stopped.
  assert (Hinv' : one_pending st) by exact Hinv.
  destruct (frames_fire_keeps before st Hinv') as (Hi & Hp & Hd & Ht).
  assert (Hreq : requested stopped = []) by (by apply timer_fires_cancels).
  split; [done|]. split; [done|]. split; [subst stopped; simpl; by rewrite Ht|].
  split; [done|]. split; [subst stopped; simpl; by rewrite Hp|].
  by apply frames_fire_idle.
Qed.

End ConfettiFacts.

Lemma confetti_stops_at_ceiling_witness :
  exists st,
    Confetti.launchConfetti (fun _ : nat => 0%Q) 800%Q 100000%Q (Some []) 0
    = Some st /\
    length (Confetti.particles st) = 140 /\
    Confetti.timeouts st = [5000] /\
    let stopped := Confetti.timer_fires (Confetti.frames_fire [0; 1; 2] st) in
    Confetti.surface stopped = [] /\
    Confetti.requested stopped = [] /\
    Confetti.timeouts stopped = [] /\
    Confetti.done stopped = true /\
    length (Confetti.particles stopped) = 140 /\
    Confetti.frames_fire [3; 4] stopped = stopped.
Proof.
  exact (confetti_stops_at_ceiling (fun _ : nat => 0%Q) 800%Q 100000%Q
           [] 0 [0; 1; 2] [3; 4]).
Defined.

(** Particles that never leave the surface: every draw of [Math.random]
    is 0 and the surface is 100000 high, so that after three frames all 140
    particles are still above the lower bound; the timeout stops the
    animation all the same. *)
Example confetti_stops_with_particles_in_view :
  let random := fun _ : nat => 0%Q in
  match Confetti.launchConfetti random 800%Q 100000%Q (Some []) 0 with
  | Some st =>
      let running := Confetti.frames_fire (seq 0 3) st in
      length (Confetti.surface running) = 140 /\
      Confetti.requested running = [3] /\
      Confetti.requested (Confetti.timer_fires running) = [] /\
      Confetti.surface (Confetti.timer_fires running) = []
  | None => False
  end.
Proof. vm_compute. repeat split. Qed.

(** * Further properties *)

(** ** The digit group: typing, keys, reading *)

Lemma boxes_of_upd cid cid' (g : list box -> list box) s :
  g [] = [] ->
  boxes_of cid' (upd cid (fun e => set_boxes (g (boxes e)) e) s)
  = if decide (cid' = cid) then g (boxes_of cid s) else boxes_of cid' s.
Proof.
  intros Hg. unfold boxes_of. case_decide as Hc.
  - subst. rewrite lookup_upd. by destruct (dom s !! cid).
  - by rewrite lookup_upd_ne.
Qed.

Lemma boxes_of_upd_other cid cid' f s :
  (cid <> cid' \/ forall e, boxes (f e) = boxes e) ->
  boxes_of cid' (upd cid f s) = boxes_of cid' s.
Proof.
  intros Hf. unfold boxes_of. destruct (decide (cid = cid')) as [->|Hne].
  - destruct Hf as [?|Hf]; [done|]. rewrite lookup_upd.
    destruct (dom s !! cid'); simpl; [by rewrite Hf | done].
  - by rewrite lookup_upd_ne.
Qed.

Lemma on_input_run cid idx val s :
  on_input cid idx val s
  = (Ret tt,
     (if nonempty (typed_digit val) && (idx <? length (boxes_of cid s) - 1)
      then set_focus (Some (cid, idx + 1))
      else fun s => s)
       (upd cid (fun e => set_boxes (input_cells (boxes e) idx val) e) s)).
Proof.
  unfold on_input, input_cells. run. fold (typed_digit val).
  destruct (nonempty (typed_digit val)) eqn:En; simpl.
  - unfold set_box. run. unfold when.
    destruct (idx <? length (boxes_of cid s) - 1).
    + unfold focus_box. rewrite modify_run. f_equal. f_equal.
      rewrite upd_upd. apply upd_ext. intros e _. unfold set_boxes. simpl.
      by rewrite list_alter_alter_eq.
    + rewrite ret_run. f_equal.
      rewrite upd_upd. apply upd_ext. intros e _. unfold set_boxes. simpl.
      by rewrite list_alter_alter_eq.
  - unfold set_box. rewrite update_run. f_equal.
    rewrite upd_upd. apply upd_ext. intros e _. unfold set_boxes. simpl.
    by rewrite list_alter_alter_eq.
Qed.

Lemma boxes_after_input cid cid' idx val s :
  boxes_of cid' (exec (on_input cid idx val) s)
  = if decide (cid' = cid) then input_cells (boxes_of cid s) idx val
    else boxes_of cid' s.
Proof.
  unfold exec. rewrite on_input_run. simpl.
  destruct (_ && _); simpl;
    by rewrite <- (boxes_of_upd cid cid' (fun bs => input_cells bs idx val)).
Qed.

(** What the [input] listener keeps is nothing or one digit. *)
Lemma typed_digit_shape val :
  typed_digit val = "" \/
  exists c, is_digit c = true /\ typed_digit val = String c "".
Proof.
  unfold typed_digit. induction val as [|c r IH]; simpl; [by left|].
  destruct (is_digit c) eqn:Ec; [|done].
  simpl. destruct (keep is_digit r) as [|c' r'] eqn:Er; [right; by exists c|].
  done.
Qed.

Lemma cell_ok_typed val b :
  cell_ok (set_filled (nonempty (typed_digit val)) (set_bvalue (typed_digit val) b))
  = true.
Proof.
  destruct (typed_digit_shape val) as [-> | (c & Hc & ->)]; [done|].
  unfold cell_ok. simpl. by rewrite Hc.
Qed.

Lemma keep_digits_only s : digits_only (keep is_digit s) = true.
Proof.
  unfold digits_only. induction s as [|c r IH]; simpl; [done|].
  destruct (is_digit c) eqn:Ec; simpl; [by rewrite Ec|done].
Qed.

Lemma take_str_digits_only n : forall s,
  digits_only s = true -> digits_only (take_str n s) = true.
Proof.
  unfold digits_only. induction n as [|n IH]; intros [|c r]; simpl; try done.
  intros Hs. apply andb_prop in Hs as [-> Hr]. simpl. by apply IH.
Qed.

Lemma fill_from_cells_ok chs : forall i bs,
  Forall (fun ch => exists c, is_digit c = true /\ ch = String c "") chs ->
  Forall (fun b => cell_ok b = true) bs ->
  Forall (fun b => cell_ok b = true) (fill_from chs i bs).
Proof.
  induction chs as [|ch r IH]; intros i bs Hchs Hbs; simpl; [done|].
  apply Forall_cons in Hchs as [(c & Hc & ->) Hr].
  apply IH; [done|]. apply Forall_alter; [done|].
  intros b _ _. unfold cell_ok. simpl. by rewrite Hc.
Qed.

Lemma split_chars_digits s :
  digits_only s = true ->
  Forall (fun ch => exists c, is_digit c = true /\ ch = String c "")
         (split_chars s).
Proof.
  unfold digits_only. induction s as [|c r IH]; simpl; [constructor|].
  intros Hs. apply andb_prop in Hs as [Hc Hr].
  constructor; [by exists c | by apply IH].
Qed.

Lemma stable_modify (I : state -> Prop) f :
  (forall s, I s -> I (f s)) -> stable I (modify f).
Proof. intros Hf s Hs. by apply Hf. Qed.

Lemma stable_assoc {A B C} (I : state -> Prop) (m : M A) (k : A -> M B)
    (h : B -> M C) :
  stable I (bind (bind m k) h) ->
  stable I (bind m (fun a => bind (k a) h)).
Proof.
  intros Hs s Is. specialize (Hs s Is). unfold bind in *.
  by destruct (m s) as [[a|] s1]; [destruct (k a s1) as [[b|] s2]|].
Qed.

Lemma stable_forEach_Forall {A} (I : state -> Prop) (P : A -> Prop)
    (f : A -> nat -> M unit) (l : list A) :
  Forall P l -> (forall x i, P x -> stable I (f x i)) ->
  forall i, stable I (forEach_from f l i).
Proof.
  intros Hl Hf. induction Hl as [|x r Hx Hr IH]; intros i; simpl;
    [apply stable_ret|].
  apply stable_bind; [by apply Hf | intros _; apply IH].
Qed.

Lemma set_box_twice_run cid i f g s :
  (set_box cid i f ;; set_box cid i g) s
  = (Ret tt, upd cid (fun e => set_boxes (alter (g ∘ f) i (boxes e)) e) s).
Proof.
  unfold set_box. run. rewrite update_run, upd_upd. f_equal.
  apply upd_ext. intros e _. unfold set_boxes. simpl.
  by rewrite list_alter_alter_eq.
Qed.

Section CellsFine.
Context (cid' : string).

Lemma cells_set_twice cid i f g :
  (forall b, cell_ok (g (f b)) = true) ->
  stable (cells_fine cid') (set_box cid i f ;; set_box cid i g).
Proof.
  intros Hfg s Hs. rewrite set_box_twice_run. unfold cells_fine in *. simpl.
  rewrite (boxes_of_upd cid cid' (alter (g ∘ f) i)) by done.
  case_decide; [subst|done].
  apply Forall_alter; [done|]. intros b' _ _. apply Hfg.
Qed.

Lemma cells_focus_box cid i : stable (cells_fine cid') (focus_box cid i).
Proof. by apply stable_modify. Qed.

Lemma cells_emit e : stable (cells_fine cid') (modify (emit e)).
Proof. by apply stable_modify. Qed.

Lemma cells_on_input cid idx val : stable (cells_fine cid') (on_input cid idx val).
Proof.
  intros s Hs. unfold cells_fine in *.
  change (on_input cid idx val s).2 with (exec (on_input cid idx val) s).
  rewrite boxes_after_input. case_decide; [subst|done].
  unfold input_cells.
  apply Forall_alter; [done|]. intros b' _ _. apply cell_ok_typed.
Qed.

Lemma cells_on_keydown cid idx key :
  stable (cells_fine cid') (on_keydown cid idx key).
Proof.
  unfold on_keydown. apply stable_bind; [apply stable_gets | intros bs].
  destruct (bs !! idx) as [b|]; [|apply stable_ret].
  apply stable_bind.
  - destruct (String.eqb key "Backspace"); [|apply stable_ret].
    apply stable_bind; [|intros _; apply stable_ret].
    destruct (negb (nonempty (bvalue b)) && (0 <? idx)).
    + apply stable_assoc, stable_bind;
        [by apply cells_set_twice | intros _; apply cells_focus_box].
    + by apply cells_set_twice.
  - intros prevented.
    repeat (apply stable_bind; [|intros ?]); try apply stable_ret;
      try (apply stable_when; apply cells_focus_box).
    apply stable_when. apply stable_bind; [apply stable_gets | intros b1].
    apply stable_bind; [apply stable_gets | intros b2].
    destruct (match b1 with
              | Some e => Some ("btnHumanSubmit", e)
              | None => (fun e => ("btnStart", e)) <$> b2
              end) as [[id e]|]; [|apply stable_ret].
    apply stable_when, cells_emit.
Qed.

Lemma cells_on_paste cid text : stable (cells_fine cid') (on_paste cid text).
Proof.
  unfold on_paste. apply stable_bind.
  - apply (stable_forEach_Forall _
             (fun ch => exists c, is_digit c = true /\ ch = String c "")).
    + apply split_chars_digits, take_str_digits_only, keep_digits_only.
    + intros ch i (c & Hc & ->).
      apply stable_bind; [apply stable_gets | intros bs].
      destruct (bs !! i); [|apply stable_ret].
      apply cells_set_twice. intros b0. unfold cell_ok. simpl. by rewrite Hc.
  - intros _. apply stable_bind; [apply stable_gets | intros bs].
    apply stable_bind; [|intros _; apply stable_ret].
    destruct (find_empty bs); [apply cells_focus_box|].
    destruct (bs !! (length bs - 1)); [apply cells_focus_box | apply stable_throw].
Qed.

Lemma cells_clearOtpBoxes cid : stable (cells_fine cid') (clearOtpBoxes cid).
Proof.
  intros s Hs. rewrite clearOtpBoxes_run. unfold cells_fine in *. simpl.
  assert (Hc : Forall (fun b => cell_ok b = true)
                      (boxes_of cid' (upd cid boxes_cleared s))).
  { unfold boxes_cleared.
    rewrite (boxes_of_upd cid cid'
               (map (fun b => set_filled false (set_bvalue "" b)))) by done.
    case_decide; [|done]. apply Forall_forall. intros b Hb.
    apply list_elem_of_fmap in Hb as (b0 & -> & _). done. }
  by destruct (boxes_of cid s).
Qed.
End CellsFine.

(** X1. Whatever the listeners of [initOtpBoxes] and [clearOtpBoxes] are
    given, they keep every digit group well formed: a cell is empty and
    not marked [filled], or holds exactly one decimal digit and is
    marked. *)
Theorem cells_stay_well_formed (group cid : string) (idx : nat)
    (val key text : string) (s : state) :
  cells_fine group s ->
  cells_fine group (exec (on_input cid idx val) s) /\
  cells_fine group (exec (on_keydown cid idx key) s) /\
  cells_fine group (exec (on_paste cid text) s) /\
  cells_fine group (exec (clearOtpBoxes cid) s).
Proof.
  intros Hs. repeat split.
  - by apply cells_on_input.
  - by apply cells_on_keydown.
  - by apply cells_on_paste.
  - by apply cells_clearOtpBoxes.
Qed.

Lemma cells_stay_well_formed_witness :
  cells_fine "guessInputs"
    (exec (on_input "guessInputs" 1 "x7y") (page "1" "" "" "" 1 "0" "0")) /\
  cells_fine "guessInputs"
    (exec (on_paste "guessInputs" "a1b2") (page "1" "" "" "" 1 "0" "0")).
Proof.
  assert (Hs : cells_fine "guessInputs" (page "1" "" "" "" 1 "0" "0"))
    by (repeat constructor).
  split.
  - exact (proj1 (cells_stay_well_formed "guessInputs" "guessInputs" 1
                    "x7y" "" "" _ Hs)).
  - exact (proj1 (proj2 (proj2 (cells_stay_well_formed "guessInputs"
                    "guessInputs" 1 "" "" "a1b2" _ Hs)))).
Defined.

(** *** Typing *)

Lemma on_input_focus cid idx val s :
  focus (exec (on_input cid idx val) s)
  = if nonempty (typed_digit val) && (idx <? length (boxes_of cid s) - 1)
    then Some (cid, idx + 1)
    else focus s.
Proof. unfold exec. rewrite on_input_run. by destruct (_ && _). Qed.

Lemma type_loop cid vals : forall i s,
  Forall (fun v => typed_digit v <> "") vals ->
  i + length vals <= length (boxes_of cid s) ->
  focus s = Some (cid, min i (length (boxes_of cid s) - 1)) ->
  let s' := exec (forEach_from (fun val i => on_input cid i val) vals i) s in
  boxes_of cid s' = fill_from (map typed_digit vals) i (boxes_of cid s) /\
  focus s' = Some (cid, min (i + length vals) (length (boxes_of cid s) - 1)) /\
  trace s' = trace s.
Proof.
  induction vals as [|v r IH]; intros i s Hvals Hlen Hfocus; simpl in *.
  - by rewrite Nat.add_0_r.
  - apply Forall_cons in Hvals as [Hv Hr].
    set (s1 := exec (on_input cid i v) s).
    assert (Hrun : on_input cid i v s = (Ret tt, s1))
      by (subst s1; unfold exec; by rewrite on_input_run).
    unfold exec. rewrite (bind_run _ _ _ _ _ Hrun).
    assert (Hd : nonempty (typed_digit v) = true)
      by (by destruct (typed_digit v)).
    assert (Hb1 : boxes_of cid s1
                  = alter (fun b => set_filled true (set_bvalue (typed_digit v) b))
                          i (boxes_of cid s)).
    { subst s1. rewrite boxes_after_input, decide_True by done.
      unfold input_cells. by rewrite Hd. }
    assert (Hf1 : focus s1
                  = Some (cid, min (S i) (length (boxes_of cid s1) - 1))).
    { rewrite Hb1, length_alter. subst s1. rewrite on_input_focus, Hd.
      destruct (Nat.ltb_spec i (length (boxes_of cid s) - 1)); cbn [andb].
      - f_equal. f_equal. lia.
      - rewrite Hfocus. f_equal. f_equal. lia. }
    assert (Ht1 : trace s1 = trace s).
    { subst s1. unfold exec. rewrite on_input_run. by destruct (_ && _). }
    destruct (IH (S i) s1 Hr) as (Hb & Hf & Ht); [rewrite Hb1, length_alter; lia | done |].
    unfold exec in *. rewrite Hb, Hf, Ht. rewrite Hb1, length_alter.
    repeat split; [|done]. f_equal. f_equal. lia.
Qed.

Lemma length_str_app a b :
  String.length (a +:+ b) = String.length a + String.length b.
Proof. induction a as [|c a IH]; simpl; [done | by rewrite IH]. Qed.

Lemma join_empty_length l :
  String.length (join "" l) = list_sum (map String.length l).
Proof.
  induction l as [|x [|y r] IH]; [done|simpl; lia|].
  change (join "" (x :: y :: r)) with (x +:+ "" +:+ join "" (y :: r)).
  rewrite !length_str_app, IH. simpl. lia.
Qed.

Lemma str_app_empty x : x +:+ "" = x.
Proof.
  induction x as [|c x IH]; [done|].
  change (String c x +:+ "") with (String c (x +:+ "")). by rewrite IH.
Qed.

Lemma join_empty_cons x l : join "" (x :: l) = x +:+ join "" l.
Proof.
  destruct l as [|y r]; [cbn [join]; by rewrite str_app_empty | reflexivity].
Qed.

Lemma fill_from_all chs bs :
  length chs = length bs ->
  fill_from chs 0 bs = map (fun ch => Box ch true) chs.
Proof.
  intros Hlen. apply list_eq. intros j.
  destruct (chs !! j) as [ch|] eqn:Ej.
  - assert (Hj : 0 + j < length bs)
      by (apply lookup_lt_Some in Ej; simpl; lia).
    pose proof (fill_from_written chs 0 bs j ch Ej Hj) as Hw.
    simpl in Hw. by rewrite Hw, list_lookup_fmap, Ej.
  - rewrite list_lookup_fmap, Ej. simpl.
    apply lookup_ge_None in Ej.
    rewrite fill_from_outside by (right; simpl; lia).
    apply lookup_ge_None. lia.
Qed.

Lemma otp_value_boxes id s :
  otp_value id s = join "" (map bvalue (boxes_of id s)).
Proof. unfold otp_value, boxes_of. by destruct (dom s !! id). Qed.

(** X2. Typing into the cells 0, 1, ... in turn, each time a value whose
    last digit is kept, fills those cells with the digits, marks them
    filled and leaves the other cells alone; the focus ends on the cell
    after the last one typed, or stays on the last cell of the group; once
    every cell is typed, reading the group returns the digits in order. *)
Theorem typing_fills_cells (s : state) (cid : string) (e : element)
    (vals : list string) :
  dom s !! cid = Some e ->
  focus s = Some (cid, 0) ->
  length vals <= length (boxes e) ->
  Forall (fun v => typed_digit v <> "") vals ->
  let s' := exec (type_all cid vals) s in
  (forall i v, vals !! i = Some v ->
     boxes_of cid s' !! i = Some (Box (typed_digit v) true)) /\
  (forall i, length vals <= i -> boxes_of cid s' !! i = boxes e !! i) /\
  focus s' = Some (cid, min (length vals) (length (boxes e) - 1)) /\
  (length vals = length (boxes e) ->
   result (getOtpValue cid) s' = Ret (join "" (map typed_digit vals))).
Proof.
  intros He Hfocus Hlen Hvals s'.
  assert (Hbs : boxes_of cid s = boxes e) by (unfold boxes_of; by rewrite He).
  destruct (type_loop cid vals 0 s Hvals) as (Hb & Hf & _);
    [rewrite Hbs; simpl; lia | by rewrite Nat.min_0_l |].
  fold (type_all cid vals) in Hb, Hf. fold s' in Hb, Hf.
  rewrite Hbs in *. simpl in Hf. rewrite Hb. repeat split; [| |done|].
  - intros i v Hv. apply (fill_from_written _ 0 _ i).
    + by rewrite list_lookup_fmap, Hv.
    + apply lookup_lt_Some in Hv. simpl. lia.
  - intros i Hi. apply fill_from_outside. right. rewrite length_map. simpl. lia.
  - intros Hall. unfold result. rewrite getOtpValue_run. simpl.
    rewrite otp_value_boxes, Hb, fill_from_all by (by rewrite length_map).
    by rewrite !map_map.
Qed.

Lemma typing_fills_cells_witness :
  let s' := exec (type_all "guessInputs" ["4"; "x0"; "27"; "9"]) empty_game in
  result (getOtpValue "guessInputs") s' = Ret "4079" /\
  focus s' = Some ("guessInputs", 3).
Proof.
  destruct (typing_fills_cells empty_game "guessInputs" (group "" "" "" "")
              ["4"; "x0"; "27"; "9"]) as (_ & _ & Hf & Hread).
  - reflexivity.
  - reflexivity.
  - simpl. lia.
  - repeat constructor; discriminate.
  - split; [apply Hread; reflexivity | exact Hf].
Defined.

(** *** Reading and the guard *)

Lemma digits_only_app a b :
  digits_only a = true -> digits_only b = true -> digits_only (a +:+ b) = true.
Proof.
  unfold digits_only. induction a as [|c a IH]; simpl; [done|].
  intros Ha Hb. apply andb_prop in Ha as [-> Ha]. simpl. by apply IH.
Qed.

Lemma cell_ok_value b :
  cell_ok b = true ->
  String.length (bvalue b) = (if filled b then 1 else 0) /\
  digits_only (bvalue b) = true.
Proof.
  unfold cell_ok, digits_only. destruct (bvalue b) as [|c [|c' r]]; simpl.
  - by destruct (filled b).
  - intros H. apply andb_prop in H as [-> ->]. done.
  - done.
Qed.

Lemma read_counts_filled_cells_aux s cid :
  cells_fine cid s ->
  String.length (otp_value cid s)
  = length (filter (fun b => filled b = true) (boxes_of cid s)) /\
  digits_only (otp_value cid s) = true.
Proof.
  intros Hs. rewrite otp_value_boxes.
  unfold cells_fine in Hs. induction Hs as [|b r Hb Hr [IHl IHd]]; [done|].
  simpl map. rewrite join_empty_cons, length_str_app, IHl, filter_cons.
  destruct (cell_ok_value b Hb) as [Hlen Hd]. rewrite Hlen. split.
  - destruct (filled b); case_decide; simpl; done.
  - by apply digits_only_app.
Qed.

(** X3. In a well-formed group reading returns only decimal digits, as
    many as there are cells marked filled. *)
Theorem read_counts_filled_cells (s : state) (cid : string) :
  cells_fine cid s ->
  exists guess,
    result (getOtpValue cid) s = Ret guess /\
    String.length guess
    = length (filter (fun b => filled b = true) (boxes_of cid s)) /\
    digits_only guess = true.
Proof.
  intros Hs. exists (otp_value cid s). unfold result.
  rewrite getOtpValue_run. split; [done|].
  by apply read_counts_filled_cells_aux.
Qed.

Lemma read_counts_filled_cells_witness :
  exists guess,
    result (getOtpValue "guessInputs") (page "1" "" "3" "" 1 "0" "0") = Ret guess /\
    String.length guess = 2 /\ digits_only guess = true.
Proof.
  apply (read_counts_filled_cells (page "1" "" "3" "" 1 "0" "0") "guessInputs").
  repeat constructor.
Defined.

Lemma submitHumanGuess_send_ok s :
  String.length (otp_value "guessInputs" s) = 4 ->
  submitHumanGuess_send s
  = (Ret (Some (otp_value "guessInputs" s)),
     emit (Fetch "POST" "/human-turn"
             (Some [("guess", JString (otp_value "guessInputs" s))]))
          (upd "btnHumanSubmit" (button_loading true)
               (upd "humanError" (set_display "none") s))).
Proof.
  intros Hlen. unfold submitHumanGuess_send. run. rewrite Hlen. simpl. by run.
Qed.

Lemma submitHumanGuess_send_blocked s :
  String.length (otp_value "guessInputs" s) <> 4 ->
  submitHumanGuess_send s
  = (Ret None,
     upd "humanError" (error_shown "Fill in all 4 digits.")
         (upd "humanError" (set_display "none") s)).
Proof.
  intros Hlen. unfold submitHumanGuess_send. run.
  destruct (Nat.eqb_spec (String.length (otp_value "guessInputs" s)) 4);
    [done|]. simpl. by run.
Qed.

Lemma four_filled (bs : list box) :
  length bs = 4 ->
  length (filter (fun b => filled b = true) bs) = 4
  <-> Forall (fun b => filled b = true) bs.
Proof.
  destruct bs as [|b1 [|b2 [|b3 [|b4 [|b5 r]]]]]; try discriminate. intros _.
  rewrite !Forall_cons, Forall_nil. rewrite !filter_cons, filter_nil.
  destruct (filled b1), (filled b2), (filled b3), (filled b4);
    repeat case_decide; simpl; try done; split; intros; try lia; naive_solver.
Qed.

(** X4. On the game page with its four well-formed cells, a click on
    submit sends a request exactly when every cell is filled, and the
    guess it sends is then four decimal digits; with a cell empty it sends
    nothing. *)
Theorem guess_sent_iff_all_filled (s : state) :
  cells_fine "guessInputs" s ->
  length (boxes_of "guessInputs" s) = 4 ->
  let s' := exec submitHumanGuess_send s in
  (Forall (fun b => filled b = true) (boxes_of "guessInputs" s) ->
   exists guess,
     result submitHumanGuess_send s = Ret (Some guess) /\
     String.length guess = 4 /\ digits_only guess = true /\
     trace s' = trace s ++ [Fetch "POST" "/human-turn"
                              (Some [("guess", JString guess)])]) /\
  (~ Forall (fun b => filled b = true) (boxes_of "guessInputs" s) ->
   result submitHumanGuess_send s = Ret None /\ trace s' = trace s).
Proof.
  intros Hs Hfour s'.
  destruct (read_counts_filled_cells_aux s "guessInputs" Hs) as [Hlen Hd].
  split.
  - intros Hall. apply (four_filled _ Hfour) in Hall.
    exists (otp_value "guessInputs" s).
    assert (Hl : String.length (otp_value "guessInputs" s) = 4) by lia.
    subst s'. unfold exec, result. by rewrite submitHumanGuess_send_ok.
  - intros Hnot.
    assert (Hl : String.length (otp_value "guessInputs" s) <> 4).
    { intros Hl. apply Hnot, (four_filled _ Hfour). lia. }
    subst s'. unfold exec, result. by rewrite submitHumanGuess_send_blocked.
Qed.

Lemma guess_sent_iff_all_filled_witness :
  trace (exec submitHumanGuess_send (page "4" "0" "7" "9" 3 "0" "0"))
  = [Fetch "POST" "/human-turn" (Some [("guess", JString "4079")])] /\
  trace (exec submitHumanGuess_send (page "4" "" "7" "9" 1 "0" "0")) = [].
Proof.
  destruct (guess_sent_iff_all_filled (page "4" "0" "7" "9" 3 "0" "0"))
    as [_ _]; [repeat constructor | reflexivity |].
  destruct (guess_sent_iff_all_filled (page "4" "" "7" "9" 1 "0" "0"))
    as [_ Hno]; [repeat constructor | reflexivity |].
  split; [reflexivity|]. apply Hno. intros Hall.
  apply Forall_cons in Hall as [_ Hall]. apply Forall_cons in Hall as [H _].
  discriminate.
Defined.

(** *** Arrow keys and Enter *)

Lemma arrow_left_run cid idx b s :
  boxes_of cid s !! idx = Some b ->
  on_keydown cid idx "ArrowLeft" s
  = (Ret false, if 0 <? idx then set_focus (Some (cid, idx - 1)) s else s).
Proof.
  intros Hb. unfold on_keydown. run. rewrite Hb. simpl.
  destruct (0 <? idx); by run.
Qed.

Lemma arrow_right_run cid idx b s :
  boxes_of cid s !! idx = Some b ->
  on_keydown cid idx "ArrowRight" s
  = (Ret false,
     if idx <? length (boxes_of cid s) - 1
     then set_focus (Some (cid, idx + 1)) s else s).
Proof.
  intros Hb. unfold on_keydown. run. rewrite Hb. simpl.
  destruct (idx <? length (boxes_of cid s) - 1); by run.
Qed.

(** X5. The arrow keys move the focus to the neighbouring cell and stop
    at the ends of the group: left of the first cell and right of the last
    nothing happens.  They change no cell, make no call, and leave the
    key's default action in place. *)
Theorem arrows_stay_in_group (s : state) (cid : string) (idx : nat) (b : box) :
  boxes_of cid s !! idx = Some b ->
  focus s = Some (cid, idx) ->
  let left := on_keydown cid idx "ArrowLeft" in
  let right := on_keydown cid idx "ArrowRight" in
  result left s = Ret false /\ result right s = Ret false /\
  focus (exec left s) = Some (cid, idx - 1) /\
  focus (exec right s)
  = Some (cid, min (idx + 1) (length (boxes_of cid s) - 1)) /\
  dom (exec left s) = dom s /\ dom (exec right s) = dom s /\
  trace (exec left s) = trace s /\ trace (exec right s) = trace s.
Proof.
  intros Hb Hfocus left right. subst left right. unfold exec, result.
  rewrite (arrow_left_run cid idx b s Hb), (arrow_right_run cid idx b s Hb).
  simpl. pose proof (lookup_lt_Some _ _ _ Hb) as Hlt.
  destruct (Nat.ltb_spec 0 idx);
    destruct (Nat.ltb_spec idx (length (boxes_of cid s) - 1));
    cbn [fst snd focus dom trace set_focus];
    repeat split; rewrite ?Hfocus; try done; f_equal; f_equal; lia.
Qed.

Lemma arrows_stay_in_group_witness :
  focus (exec (on_keydown "guessInputs" 0 "ArrowLeft")
              (page "1" "2" "3" "4" 0 "0" "0")) = Some ("guessInputs", 0) /\
  focus (exec (on_keydown "guessInputs" 3 "ArrowRight")
              (page "1" "2" "3" "4" 3 "0" "0")) = Some ("guessInputs", 3).
Proof.
  destruct (arrows_stay_in_group (page "1" "2" "3" "4" 0 "0" "0")
              "guessInputs" 0 (cell "1"))
    as (_ & _ & Hl & _); [reflexivity | reflexivity |].
  destruct (arrows_stay_in_group (page "1" "2" "3" "4" 3 "0" "0")
              "guessInputs" 3 (cell "4"))
    as (_ & _ & _ & Hr & _); [reflexivity | reflexivity |].
  split; [exact Hl | exact Hr].
Defined.

Lemma bind_assoc_run {A B C} (m : M A) (k : A -> M B) (h : B -> M C) s :
  bind (bind m k) h s = bind m (fun a => bind (k a) h) s.
Proof.
  unfold bind. by destruct (m s) as [[a|] s1].
Qed.

Lemma enter_run cid idx b s :
  boxes_of cid s !! idx = Some b ->
  on_keydown cid idx "Enter" s
  = (Ret false,
     if idx =? length (boxes_of cid s) - 1 then
       match dom s !! "btnHumanSubmit" with
       | Some e => if disabled e then s else emit (Click "btnHumanSubmit") s
       | None =>
           match dom s !! "btnStart" with
           | Some e => if disabled e then s else emit (Click "btnStart") s
           | None => s
           end
       end
     else s).
Proof.
  intros Hb. unfold on_keydown. run. rewrite Hb. simpl.
  destruct (idx =? length (boxes_of cid s) - 1); simpl; [|by run].
  run. unfold when. rewrite !bind_assoc_run. run.
  destruct (dom s !! "btnHumanSubmit") as [e1|].
  - simpl. destruct (disabled e1); simpl; rewrite ?bind_assoc_run; by run.
  - rewrite ?bind_assoc_run. run.
    destruct (dom s !! "btnStart") as [e2|]; simpl; [|by run].
    destruct (disabled e2); simpl; by run.
Qed.

(** X6. Enter reaches a button only from the last cell of a group, and
    only a button that is on the page and not disabled: the game's submit
    button when the page has it, else the start button.  A disabled
    submit button is not clicked and hides the start button.  Enter moves
    no focus and changes no element. *)
Theorem enter_clicks_enabled_button (s : state) (cid : string) (idx : nat)
    (b : box) :
  boxes_of cid s !! idx = Some b ->
  let s' := exec (on_keydown cid idx "Enter") s in
  let last := idx =? length (boxes_of cid s) - 1 in
  dom s' = dom s /\ focus s' = focus s /\
  (forall e, dom s !! "btnHumanSubmit" = Some e ->
     trace s' = trace s ++ (if last && negb (disabled e)
                            then [Click "btnHumanSubmit"] else [])) /\
  (dom s !! "btnHumanSubmit" = None ->
   forall e, dom s !! "btnStart" = Some e ->
     trace s' = trace s ++ (if last && negb (disabled e)
                            then [Click "btnStart"] else [])) /\
  (dom s !! "btnHumanSubmit" = None -> dom s !! "btnStart" = None ->
   trace s' = trace s).
Proof.
  intros Hb s' last. subst s' last. unfold exec.
  rewrite (enter_run cid idx b s Hb). simpl.
  destruct (idx =? length (boxes_of cid s) - 1); simpl.
  - destruct (dom s !! "btnHumanSubmit") as [e1|] eqn:E1.
    + destruct (disabled e1) eqn:Ed; simpl; (split; [done|]);
        (split; [done|]); (split; [|done]);
        intros e [= <-]; by rewrite Ed, ?app_nil_r.
    + destruct (dom s !! "btnStart") as [e2|] eqn:E2; [|done].
      destruct (disabled e2) eqn:Ed; simpl; (split; [done|]);
        (split; [done|]); (split; [done|]); (split; [|done]);
        intros _ e [= <-]; by rewrite Ed, ?app_nil_r.
  - repeat split; try done; intros; by rewrite app_nil_r.
Qed.

Lemma enter_clicks_enabled_button_witness :
  trace (exec (on_keydown "guessInputs" 3 "Enter")
              (page "1" "2" "3" "4" 3 "0" "0"))
  = [Click "btnHumanSubmit"] /\
  trace (exec (on_keydown "guessInputs" 2 "Enter")
              (page "1" "2" "3" "4" 2 "0" "0")) = [].
Proof.
  destruct (enter_clicks_enabled_button (page "1" "2" "3" "4" 3 "0" "0")
              "guessInputs" 3 (cell "4")) as (_ & _ & Hlast & _);
    [reflexivity|].
  destruct (enter_clicks_enabled_button (page "1" "2" "3" "4" 2 "0" "0")
              "guessInputs" 2 (cell "3")) as (_ & _ & Hmid & _);
    [reflexivity|].
  split.
  - exact (Hlast (set_innerHTML "Submit" blank) eq_refl).
  - exact (Hmid (set_innerHTML "Submit" blank) eq_refl).
Defined.

(** *** Clearing and wiring *)

Lemma join_empty_replicate n : join "" (replicate n "") = "".
Proof.
  induction n as [|n IH]; [done|].
  change (replicate (S n) "") with ("" :: replicate n "").
  by rewrite join_empty_cons, IH.
Qed.

Lemma map_replicate_empty n :
  map bvalue (replicate n empty_box) = replicate n "".
Proof. induction n as [|n IH]; [done|]. cbn. by rewrite IH. Qed.

Lemma boxes_after_clear cid s :
  boxes_of cid (exec (clearOtpBoxes cid) s)
  = replicate (length (boxes_of cid s)) empty_box.
Proof.
  unfold exec. rewrite clearOtpBoxes_run. simpl.
  assert (Hc : boxes_of cid (upd cid boxes_cleared s)
               = replicate (length (boxes_of cid s)) empty_box).
  { unfold boxes_cleared.
    rewrite (boxes_of_upd cid cid
               (map (fun b => set_filled false (set_bvalue "" b)))) by done.
    rewrite decide_True by done.
    induction (boxes_of cid s) as [|b r IH]; [done|]. simpl. by rewrite IH. }
  by destruct (boxes_of cid s).
Qed.

(** X7. After [clearOtpBoxes] every cell of the group is empty and not
    marked, reading the group returns the empty string, the focus is on
    the first cell when the group has one, and no call has left the
    script; a submit of the guess right after clearing the guess group
    sends nothing. *)
Theorem clear_empties_group (s : state) (cid : string) :
  let s' := exec (clearOtpBoxes cid) s in
  boxes_of cid s' = replicate (length (boxes_of cid s)) (Box "" false) /\
  result (getOtpValue cid) s' = Ret "" /\
  (boxes_of cid s <> [] -> focus s' = Some (cid, 0)) /\
  trace s' = trace s /\
  (cid = "guessInputs" ->
   result submitHumanGuess_send s' = Ret None /\
   trace (exec submitHumanGuess_send s') = trace s).
Proof.
  intros s'.
  assert (Hb : boxes_of cid s' = replicate (length (boxes_of cid s)) empty_box)
    by apply boxes_after_clear.
  assert (Hv : otp_value cid s' = "").
  { rewrite otp_value_boxes, Hb.
    by rewrite map_replicate_empty, join_empty_replicate. }
  assert (Ht : trace s' = trace s).
  { subst s'. unfold exec. rewrite clearOtpBoxes_run. simpl.
    by destruct (boxes_of cid s). }
  split; [done|]. split; [|split; [|split; [done|]]].
  - unfold result. by rewrite getOtpValue_run, Hv.
  - intros Hne. subst s'. unfold exec. rewrite clearOtpBoxes_run. simpl.
    by destruct (boxes_of cid s).
  - intros ->. unfold exec, result.
    rewrite submitHumanGuess_send_blocked by (by rewrite Hv).
    simpl. split; [done | exact Ht].
Qed.

Lemma listeners_app cid w1 w2 s :
  wired s = w1 ++ w2 ->
  listeners cid s
  = length (filter (fun c => c = cid) w1) + length (filter (fun c => c = cid) w2).
Proof. intros Hw. unfold listeners. by rewrite Hw, filter_app, length_app. Qed.

Lemma initOtpBoxes_run cid s :
  is_Some (dom s !! cid) ->
  initOtpBoxes cid s = (Ret tt, set_wired (wired s ++ [cid]) s).
Proof. intros [e He]. unfold initOtpBoxes. run. by rewrite He. Qed.

Lemma on_keydown_backspace_any cid idx b s :
  is_Some (dom s !! cid) ->
  boxes_of cid s !! idx = Some b ->
  exec (on_keydown cid idx "Backspace") s
  = if negb (nonempty (bvalue b)) && (0 <? idx)
    then set_focus (Some (cid, idx - 1))
           (with_boxes cid (alter clear_box (idx - 1) (boxes_of cid s)) s)
    else with_boxes cid (alter clear_box idx (boxes_of cid s)) s.
Proof.
  intros Hp Hb. unfold exec, on_keydown. run. rewrite Hb. simpl.
  destruct (negb (nonempty (bvalue b)) && (0 <? idx)) eqn:E.
  - run. simpl. by rewrite upd_box_twice.
  - run. simpl. by rewrite upd_box_twice.
Qed.

Lemma iter_listener_S {A} n (m : M A) s :
  iter_M (S n) (listener m) s = iter_M n (listener m) (exec m s).
Proof. reflexivity. Qed.

(** X8. [initOtpBoxes] is not idempotent.  On a group wired once, one
    press of delete-backward on a filled cell empties that cell and keeps
    the focus; on a group wired twice both sets of listeners run, and the
    same press empties that cell and the one before it and moves the focus
    one cell back. *)
Theorem wiring_twice_doubles_backspace (s : state) (cid : string)
    (idx : nat) (b : box) :
  is_Some (dom s !! cid) ->
  listeners cid s = 0 ->
  focus s = Some (cid, S idx) ->
  boxes_of cid s !! S idx = Some b ->
  bvalue b <> "" ->
  let once := exec (initOtpBoxes cid ;; press "Backspace") s in
  let twice :=
    exec (initOtpBoxes cid ;; initOtpBoxes cid ;; press "Backspace") s in
  boxes_of cid once = alter clear_box (S idx) (boxes_of cid s) /\
  focus once = Some (cid, S idx) /\
  boxes_of cid twice
  = alter clear_box idx (alter clear_box (S idx) (boxes_of cid s)) /\
  focus twice = Some (cid, idx).
Proof.
  intros Hp Hl Hf Hb Hv once twice.
  assert (Hne : nonempty (bvalue b) = true) by (by destruct (bvalue b)).
  set (s1 := set_wired (wired s ++ [cid]) s).
  set (s2 := set_wired (wired s1 ++ [cid]) s1).
  assert (Hl1 : listeners cid s1 = 1).
  { rewrite (listeners_app cid (wired s) [cid] s1) by done.
    unfold listeners in Hl. rewrite Hl. cbn. by rewrite decide_True. }
  assert (Hl2 : listeners cid s2 = 2).
  { rewrite (listeners_app cid (wired s1) [cid] s2) by done.
    unfold listeners in Hl1. rewrite Hl1. cbn. by rewrite decide_True. }
  set (s3 := with_boxes cid (alter clear_box (S idx) (boxes_of cid s)) s1).
  assert (Hk1 : forall s0, dom s0 = dom s -> focus s0 = focus s ->
            exec (on_keydown cid (S idx) "Backspace") s0
            = with_boxes cid (alter clear_box (S idx) (boxes_of cid s)) s0).
  { intros s0 Hd0 Hf0.
    rewrite (on_keydown_backspace_any cid (S idx) b s0);
      unfold boxes_of; rewrite ?Hd0; try done.
    by rewrite Hne. }
  assert (Hpress : forall n s0, dom s0 = dom s -> focus s0 = focus s ->
            listeners cid s0 = n ->
            press "Backspace" s0
            = iter_M n (listener (on_keydown cid (S idx) "Backspace")) s0).
  { intros n s0 Hd0 Hf0 Hn. unfold press. run. rewrite Hf0, Hf. run.
    by rewrite Hn. }
  assert (Honce : once = s3).
  { subst once. unfold exec.
    rewrite (bind_run _ _ _ _ _ (initOtpBoxes_run cid s Hp)). fold s1.
    rewrite (Hpress 1 s1), iter_listener_S by done.
    change (exec (on_keydown cid (S idx) "Backspace") s1 = s3).
    by apply Hk1. }
  assert (Htwice : twice
                   = exec (on_keydown cid (S idx) "Backspace")
                          (with_boxes cid
                             (alter clear_box (S idx) (boxes_of cid s)) s2)).
  { subst twice. unfold exec.
    rewrite (bind_run _ _ _ _ _ (initOtpBoxes_run cid s Hp)). fold s1.
    rewrite (bind_run _ _ _ _ _ (initOtpBoxes_run cid s1 Hp)). fold s2.
    rewrite (Hpress 2 s2), !iter_listener_S by done.
    by rewrite (Hk1 s2 eq_refl eq_refl). }
  rewrite Honce. split; [by apply boxes_of_with_boxes|]. split; [done|].
  rewrite Htwice.
  destruct (lookup_lt_is_Some_2 (boxes_of cid s) (S idx)) as [b' Hb'];
    [by apply lookup_lt_Some in Hb|].
  rewrite (on_keydown_backspace_any cid (S idx) (clear_box b));
    [| by apply with_boxes_present
     | rewrite boxes_of_with_boxes by done;
       by rewrite list_lookup_alter_eq, Hb ].
  simpl. rewrite boxes_of_with_boxes by done. rewrite Nat.sub_0_r.
  rewrite with_boxes_twice. split; [|done].
  unfold boxes_of at 1. simpl. by apply boxes_of_with_boxes.
Qed.

Lemma wiring_twice_doubles_backspace_witness :
  let s := State (dom (page "1" "2" "3" "4" 3 "0" "0"))
                 (Some ("guessInputs", 3)) [] [] in
  boxes_of "guessInputs"
    (exec (initOtpBoxes "guessInputs" ;; initOtpBoxes "guessInputs" ;;
           press "Backspace") s)
  = [cell "1"; cell "2"; empty_box; empty_box].
Proof.
  destruct (wiring_twice_doubles_backspace
              (State (dom (page "1" "2" "3" "4" 3 "0" "0"))
                     (Some ("guessInputs", 3)) [] [])
              "guessInputs" 2 (cell "4")) as (_ & _ & Hb & _).
  - eexists. reflexivity.
  - reflexivity.
  - reflexivity.
  - reflexivity.
  - discriminate.
  - exact Hb.
Defined.

(** ** Buttons and rounds *)

Lemma finally_try_ret {A} (m h : M A) f s a s1 s2 :
  m s = (Ret a, s1) -> f s1 = (Ret tt, s2) ->
  finally (try_catch m h) f s = (Ret a, s2).
Proof. intros Hm Hf. unfold finally, try_catch. by rewrite Hm, Hf. Qed.

Lemma finally_try_caught {A} (m h : M A) f s a s1 s2 s3 :
  m s = (Throw, s1) -> h s1 = (Ret a, s2) -> f s2 = (Ret tt, s3) ->
  finally (try_catch m h) f s = (Ret a, s3).
Proof. intros Hm Hh Hf. unfold finally, try_catch. by rewrite Hm, Hh, Hf. Qed.

Lemma update_or_throw_run id f s :
  has id s -> update_or_throw id f s = (Ret tt, upd id f s).
Proof. intros [e He]. unfold update_or_throw. run. by rewrite He. Qed.

Lemma update_or_throw_missing id f s :
  dom s !! id = None -> update_or_throw id f s = (Throw, s).
Proof. intros He. unfold update_or_throw. run. by rewrite He. Qed.

Lemma has_upd id id' f s : has id (upd id' f s) <-> has id s.
Proof. apply lookup_alter_is_Some. Qed.

(** Looks an element up through the assignments made since a state. *)
Ltac look :=
  unfold field, has in *; simpl;
  repeat first [ rewrite lookup_alter_eq | rewrite lookup_alter_ne by done ].

(** Settles that an element is still on the page. *)
Ltac present :=
  unfold has in *; simpl; rewrite ?lookup_alter_is_Some; assumption.

#[local] Hint Extern 1 (update_or_throw _ _ _ = _) =>
  apply update_or_throw_run; present : run.

Lemma spinner_not_empty : nonempty spinnerHTML = true.
Proof. reflexivity. Qed.

(** X9. [setButtonLoading] disables the button and puts the spinner in
    it; turning loading off enables it again and gives it back the label
    it had, unless that label was empty, in which case the spinner stays.
    Loading turned on twice in a row loses the label: the second call
    saves the spinner as the label to restore. *)
Theorem button_loading_round_trip (s : state) (id : string) (b : element) :
  dom s !! id = Some b ->
  let on := setButtonLoading id true in
  let off := setButtonLoading id false in
  field disabled id (exec on s) = Some true /\
  field innerHTML id (exec on s) = Some spinnerHTML /\
  field disabled id (exec (on ;; off) s) = Some false /\
  field innerHTML id (exec (on ;; off) s)
  = Some (if nonempty (innerHTML b) then innerHTML b else spinnerHTML) /\
  field innerHTML id (exec (on ;; on ;; off) s) = Some spinnerHTML /\
  trace (exec (on ;; off) s) = trace s.
Proof.
  intros Hb on off. subst on off. unfold exec. run.
  rewrite !setButtonLoading_run. look. rewrite Hb. simpl.
  repeat split; by destruct (nonempty (innerHTML b)).
Qed.

Lemma button_loading_round_trip_witness :
  let s := page "1" "2" "3" "4" 3 "0" "0" in
  field innerHTML "btnHumanSubmit"
    (exec (setButtonLoading "btnHumanSubmit" true ;;
           setButtonLoading "btnHumanSubmit" false) s) = Some "Submit" /\
  field innerHTML "humanCard"
    (exec (setButtonLoading "humanCard" true ;;
           setButtonLoading "humanCard" false) s) = Some spinnerHTML.
Proof.
  destruct (button_loading_round_trip (page "1" "2" "3" "4" 3 "0" "0")
              "btnHumanSubmit" (set_innerHTML "Submit" blank))
    as (_ & _ & _ & Hlabel & _); [reflexivity|].
  destruct (button_loading_round_trip (page "1" "2" "3" "4" 3 "0" "0")
              "humanCard" blank)
    as (_ & _ & _ & Hempty & _); [reflexivity|].
  split; [exact Hlabel | exact Hempty].
Defined.

(** *** The human turn *)

Lemma showResultFlash_run guess bulls cows s :
  has "resultFlash" s -> has "resultEmoji" s -> has "resultScore" s ->
  has "resultSub" s ->
  showResultFlash guess bulls cows s = (Ret tt, flash_shown guess bulls cows s).
Proof.
  intros [e He] H1 H2 H3. unfold showResultFlash. run. rewrite He.
  fold (flash_emoji bulls). fold (flash_score bulls cows). run.
  rewrite show_run. unfold flash_shown. by rewrite !upd_upd.
Qed.

Lemma showResultFlash_throws guess bulls cows s :
  has "resultFlash" s -> dom s !! "resultEmoji" = None ->
  showResultFlash guess bulls cows s = (Throw, s).
Proof.
  intros [e He] Hm. unfold showResultFlash. run. rewrite He.
  by rewrite (bind_throw _ _ _ _ (update_or_throw_missing _ _ _ Hm)).
Qed.

Lemma human_resume_failed guess r s :
  match r with Failed => True | Reply data => h_success data = false end ->
  submitHumanGuess_resume guess r s
  = (Ret tt,
     upd "btnHumanSubmit" (button_loading false)
         (upd "humanError" (error_shown (human_failure r)) s)).
Proof.
  intros Hr. unfold submitHumanGuess_resume. destruct r as [|data]; simpl.
  - eapply finally_try_caught; [done | apply showError_run
                                | apply setButtonLoading_run].
  - rewrite Hr. simpl.
    eapply finally_try_ret; [apply showError_run | apply setButtonLoading_run].
Qed.

Lemma human_resume_accepted guess data s :
  h_success data = true ->
  has "resultFlash" s -> has "resultEmoji" s -> has "resultScore" s ->
  has "resultSub" s ->
  submitHumanGuess_resume guess (Reply data) s
  = (Ret tt,
     upd "btnHumanSubmit" (button_loading false)
       (emit (human_timer data)
          (flash_shown guess (h_bulls data) (h_cows data)
             (upd "humanCard" (set_display "none")
                (exec (clearOtpBoxes "guessInputs")
                   (upd "humanHistory"
                      (row_added guess (Num (h_bulls data)) (Num (h_cows data)))
                      s)))))).
Proof.
  intros Hok H0 H1 H2 H3. unfold submitHumanGuess_resume. rewrite Hok. simpl.
  eapply finally_try_ret; [|apply setButtonLoading_run].
  run. unfold exec. rewrite clearOtpBoxes_run. simpl snd.
  set (s1 := upd "humanCard" _ _).
  assert (Hflash : forall id, has id s -> has id s1).
  { intros id Hid. subst s1. apply has_upd.
    destruct (boxes_of _ _); unfold has in *; simpl;
      by rewrite !lookup_alter_is_Some. }
  rewrite (bind_run _ _ _ _ _ (showResultFlash_run _ _ _ _
             (Hflash _ H0) (Hflash _ H1) (Hflash _ H2) (Hflash _ H3))).
  unfold human_timer. by destruct (h_won data).
Qed.

(** X10. When the answer to a guess is a failure (the request or its
    body failed, or the service said [success: false]), the script shows
    the reason inline and changes nothing else: the typed guess stays in
    its cells for a retry, the focus and the human card are as they were,
    no row is logged, no timer is set, and the submit button is enabled
    again with its label. *)
Theorem human_guess_rejected (s : state) (r : response human_reply) :
  String.length (otp_value "guessInputs" s) = 4 ->
  match r with Failed => True | Reply data => h_success data = false end ->
  let guess := otp_value "guessInputs" s in
  let s' := exec (submitHumanGuess r) s in
  trace s' = trace s ++ [Fetch "POST" "/human-turn"
                           (Some [("guess", JString guess)])] /\
  boxes_of "guessInputs" s' = boxes_of "guessInputs" s /\
  focus s' = focus s /\
  rows "humanHistory" s' = rows "humanHistory" s /\
  field display "humanCard" s' = field display "humanCard" s /\
  (has "humanError" s ->
   field textContent "humanError" s' = Some (human_failure r) /\
   field display "humanError" s' = Some "") /\
  (forall b, dom s !! "btnHumanSubmit" = Some b ->
     nonempty (innerHTML b) = true ->
     field disabled "btnHumanSubmit" s' = Some false /\
     field innerHTML "btnHumanSubmit" s' = Some (innerHTML b)).
Proof.
  intros Hlen Hr guess s'. subst s'. unfold exec, submitHumanGuess.
  rewrite (bind_run _ _ _ _ _ (submitHumanGuess_send_ok s Hlen)).
  rewrite human_resume_failed by done.
  unfold boxes_of, rows. look. split; [done|]. split; [done|].
  split; [done|]. split; [done|]. split; [done|]. split.
  - intros [e ->]. done.
  - intros b Hb Hlabel. rewrite Hb. simpl. unfold button_loading. simpl.
    by rewrite Hlabel.
Qed.

Lemma human_guess_rejected_witness :
  let s' := exec (submitHumanGuess turned_down) (page "1" "1" "2" "2" 3 "0" "0") in
  field textContent "humanError" s' = Some "Digits must differ." /\
  boxes_of "guessInputs" s' = [cell "1"; cell "1"; cell "2"; cell "2"].
Proof.
  destruct (human_guess_rejected (page "1" "1" "2" "2" 3 "0" "0") turned_down)
    as (_ & Hb & _ & _ & _ & He & _); [reflexivity | reflexivity |].
  split; [apply He; eexists; reflexivity | exact Hb].
Defined.

Lemma rows_upd l id f s :
  (id <> l \/ forall e, filter is_row (children (f e)) = filter is_row (children e)) ->
  rows l (upd id f s) = rows l s.
Proof. intros Hf. by rewrite !rows_log_rows, log_rows_upd. Qed.

Lemma has_after_send id s :
  has id s ->
  has id (emit (Fetch "POST" "/human-turn"
                  (Some [("guess", JString (otp_value "guessInputs" s))]))
            (upd "btnHumanSubmit" (button_loading true)
               (upd "humanError" (set_display "none") s))).
Proof. intros H. present. Qed.



Lemma human_resume_flash_throws guess data s :
  h_success data = true ->
  has "resultFlash" s -> dom s !! "resultEmoji" = None ->
  submitHumanGuess_resume guess (Reply data) s
  = (Ret tt,
     upd "btnHumanSubmit" (button_loading false)
       (upd "humanError" (error_shown "Network error. Please try again.")
          (upd "humanCard" (set_display "none")
             (exec (clearOtpBoxes "guessInputs")
                (upd "humanHistory"
                   (row_added guess (Num (h_bulls data)) (Num (h_cows data)))
                   s))))).
Proof.
  intros Hok H0 Hm. unfold submitHumanGuess_resume. rewrite Hok. simpl.
  eapply finally_try_caught; [|apply showError_run|apply setButtonLoading_run].
  run. unfold exec. rewrite clearOtpBoxes_run. simpl snd.
  set (s1 := upd "humanCard" _ _).
  assert (Hp : has "resultFlash" s1).
  { subst s1. apply has_upd.
    destruct (boxes_of _ _); unfold has in *; simpl;
      by rewrite !lookup_alter_is_Some. }
  assert (Hm1 : dom s1 !! "resultEmoji" = None).
  { subst s1. destruct (boxes_of _ _); simpl; by rewrite !lookup_alter_ne. }
  by rewrite (bind_throw _ _ _ _ (showResultFlash_throws _ _ _ _ Hp Hm1)).
Qed.

(** X12. When the page has the result flash but not its emoji element, an
    accepted guess is logged, the cells are cleared and the human card is
    hidden as usual, but the flash throws: the script reports a network
    error, sets no timer, and so neither the AI turn nor the winner
    overlay ever follows. *)
Theorem accepted_guess_without_flash_stalls (s : state) (data : human_reply) :
  String.length (otp_value "guessInputs" s) = 4 ->
  h_success data = true ->
  has "resultFlash" s ->
  dom s !! "resultEmoji" = None ->
  let guess := otp_value "guessInputs" s in
  let s' := exec (submitHumanGuess (Reply data)) s in
  trace s' = trace s ++ [Fetch "POST" "/human-turn"
                           (Some [("guess", JString guess)])] /\
  (has "humanError" s ->
   field textContent "humanError" s'
   = Some "Network error. Please try again.") /\
  (has "humanCard" s -> field display "humanCard" s' = Some "none") /\
  (has "humanHistory" s ->
   rows "humanHistory" s'
   = rows "humanHistory" s
     ++ [HistoryRow (spaced guess) (Num (h_bulls data)) (Num (h_cows data))]) /\
  boxes_of "guessInputs" s'
  = replicate (length (boxes_of "guessInputs" s)) (Box "" false).
Proof.
  intros Hlen Hok H0 Hm guess s'.
  set (s1 := emit (Fetch "POST" "/human-turn" (Some [("guess", JString guess)]))
               (upd "btnHumanSubmit" (button_loading true)
                  (upd "humanError" (set_display "none") s))).
  set (s2 := upd "humanHistory"
               (row_added guess (Num (h_bulls data)) (Num (h_cows data))) s1).
  set (s3 := exec (clearOtpBoxes "guessInputs") s2).
  assert (Hs' : s' = upd "btnHumanSubmit" (button_loading false)
                       (upd "humanError"
                          (error_shown "Network error. Please try again.")
                          (upd "humanCard" (set_display "none") s3))).
  { subst s'. unfold exec at 1, submitHumanGuess.
    rewrite (bind_run _ _ _ _ _ (submitHumanGuess_send_ok s Hlen)).
    rewrite human_resume_flash_throws; try done; [by apply has_after_send|].
    simpl. by rewrite !lookup_alter_ne. }
  assert (Hb2 : boxes_of "guessInputs" s2 = boxes_of "guessInputs" s).
  { subst s2 s1. unfold boxes_of. by look. }
  assert (Ht3 : trace s3 = trace s1).
  { subst s3. unfold exec. rewrite clearOtpBoxes_run. simpl.
    by destruct (boxes_of "guessInputs" s2). }
  assert (Hd3 : forall id, id <> "guessInputs" -> dom s3 !! id = dom s2 !! id).
  { intros id Hg. subst s3. unfold exec. rewrite clearOtpBoxes_run. simpl.
    destruct (boxes_of "guessInputs" s2); simpl;
      by rewrite !lookup_alter_ne by congruence. }
  rewrite Hs'. split; [simpl; by rewrite Ht3|]. split; [|split; [|split]].
  - intros [e He]. look. rewrite Hd3 by done. subst s2 s1. look.
    by rewrite He.
  - intros [e He]. look. rewrite Hd3 by done. subst s2 s1. look.
    by rewrite He.
  - intros [e He]. unfold rows. look. rewrite Hd3 by done. subst s2 s1. look.
    rewrite He. simpl. by rewrite filter_app, filter_remove_placeholder.
  - transitivity (boxes_of "guessInputs" s3); [unfold boxes_of; by look|].
    subst s3. by rewrite boxes_after_clear, Hb2.
Qed.

Lemma accepted_guess_without_flash_stalls_witness :
  let s' := exec (submitHumanGuess (Reply one_one)) page_without_emoji in
  trace s' = [Fetch "POST" "/human-turn" (Some [("guess", JString "1234")])] /\
  field textContent "humanError" s' = Some "Network error. Please try again.".
Proof.
  destruct (accepted_guess_without_flash_stalls page_without_emoji one_one)
    as (Ht & He & _).
  - reflexivity.
  - reflexivity.
  - eexists. reflexivity.
  - reflexivity.
  - split; [exact Ht | apply He; eexists; reflexivity].
Defined.

(** *** The winner overlay *)

Lemma showWinner_run winner secret s :
  has "winOverlay" s -> has "winEmoji" s -> has "winTitle" s ->
  has "winSub" s -> has "winSecret" s ->
  let isHuman := String.eqb winner "human" in
  showWinner winner secret s
  = (Ret tt,
     (if isHuman then emit LaunchConfetti else fun s => s)
       (upd "winOverlay" (set_display "flex")
          (upd "winSecret"
             (set_textContent
                match secret with
                | Some sec => if nonempty sec then spaced sec else ""
                | None => ""
                end)
             (upd "winSub"
                (set_textContent
                   (if isHuman then "You cracked the AI's secret number!"
                    else "The AI cracked your secret number!"))
                (upd "winTitle"
                   (set_textContent
                      (if isHuman then "HUMAN WINS!" else "AI WINS!"))
                   (upd "winEmoji"
                      (set_textContent (if isHuman then "🏆" else "🤖"))
                      s)))))).
Proof.
  intros [e He] H1 H2 H3 H4 isHuman. unfold showWinner. run. rewrite He.
  fold isHuman. run. by destruct isHuman.
Qed.

(** X13. On a page that has the overlay and its four texts, [showWinner]
    shows the overlay, names the winner, and spells the secret out digit
    by digit (nothing when no secret came); it launches the confetti once
    when the winner is the human and not at all otherwise.  When the
    overlay is there but its emoji element is not, it throws before
    anything is shown or launched. *)
Theorem winner_overlay (s : state) (winner : string) (secret : option string) :
  has "winOverlay" s ->
  let s' := exec (showWinner winner secret) s in
  (has "winEmoji" s -> has "winTitle" s -> has "winSub" s ->
   has "winSecret" s ->
   field display "winOverlay" s' = Some "flex" /\
   field textContent "winTitle" s'
   = Some (if String.eqb winner "human" then "HUMAN WINS!" else "AI WINS!") /\
   field textContent "winSecret" s'
   = Some match secret with
          | Some sec => spaced sec
          | None => ""
          end /\
   trace s' = trace s ++ (if String.eqb winner "human"
                          then [LaunchConfetti] else [])) /\
  (dom s !! "winEmoji" = None ->
   result (showWinner winner secret) s = Throw /\ s' = s).
Proof.
  intros H0 s'. split.
  - intros H1 H2 H3 H4. subst s'. unfold exec.
    rewrite showWinner_run by done.
    destruct H0 as [e0 He0], H2 as [e2 He2], H4 as [e4 He4].
    destruct (String.eqb winner "human"); look; rewrite He0, He2, He4; simpl;
      repeat split; try (by rewrite app_nil_r);
      destruct secret as [[|c sec]|]; done.
  - intros Hm. subst s'. unfold exec, result, showWinner. run.
    destruct H0 as [e0 ->].
    by rewrite (bind_throw _ _ _ _ (update_or_throw_missing _ _ _ Hm)).
Qed.

Lemma winner_overlay_witness :
  let s' := exec (showWinner "human" (Some "5678"))
                 (page "1" "2" "3" "4" 3 "0" "0") in
  field textContent "winSecret" s' = Some "5 6 7 8" /\
  trace s' = [LaunchConfetti].
Proof.
  destruct (winner_overlay (page "1" "2" "3" "4" 3 "0" "0") "human"
              (Some "5678")) as [Hall _]; [eexists; reflexivity|].
  destruct Hall as (_ & _ & Hsec & Ht).
  - eexists. reflexivity.
  - eexists. reflexivity.
  - eexists. reflexivity.
  - eexists. reflexivity.
  - split; [exact Hsec | exact Ht].
Defined.

(** *** The AI turn *)

(** X14. When the request for the AI guess fails, the script raises an
    alert and does nothing else: on a failed request or body the alert
    says so, on [success: false] it carries the service's reason or
    [Unknown].  The AI card is not shown and no interval is set.  When
    the answer says success but carries no guess, the display is reset to
    its placeholders before the failure is caught and reported as a
    network error. *)
Theorem ai_turn_failure_alerts (s : state) (data : ai_turn_reply) :
  exec (triggerAiTurn_resume Failed) s
  = emit (Alert "Network error during AI turn.") s /\
  (t_success data = false ->
   exec (triggerAiTurn_resume (Reply data)) s
   = emit (Alert ("AI error: " +:+ or_else (t_error data) "Unknown")) s) /\
  (t_success data = true -> t_ai_guess data = None ->
   has "aiGuessDisplay" s ->
   exec (triggerAiTurn_resume (Reply data)) s
   = emit (Alert "Network error during AI turn.")
          (upd "aiGuessDisplay" (set_textContent "_ _ _ _") s)).
Proof.
  unfold exec, triggerAiTurn_resume, try_catch. split; [done|]. split.
  - intros ->. done.
  - intros -> -> [e He]. simpl. run. rewrite He. by run.
Qed.

(** *** Feedback *)

Lemma submitAiFeedback_send_ok s eb ec :
  dom s !! "aiBulls" = Some eb -> dom s !! "aiCows" = Some ec ->
  num_gt (num_add (parseInt (value eb)) (parseInt (value ec))) (Num 4) = false ->
  submitAiFeedback_send s
  = (Ret (Some (parseInt (value eb), parseInt (value ec))),
     emit (Fetch "POST" "/ai-feedback"
             (Some [("bulls", json_of_number (parseInt (value eb)));
                    ("cows", json_of_number (parseInt (value ec)))]))
          (upd "btnAiFeedback" (button_loading true)
               (upd "aiError" (set_display "none") s))).
Proof.
  intros Hb Hc Hg. unfold submitAiFeedback_send. run. rewrite Hb. run.
  rewrite Hc. run. rewrite Hg. by run.
Qed.

Lemma feedback_resume_failed bulls cows r s :
  match r with Failed => True | Reply data => f_success data = false end ->
  submitAiFeedback_resume bulls cows r s
  = (Ret tt,
     upd "btnAiFeedback" (button_loading false)
         (upd "aiError" (error_shown (feedback_failure r)) s)).
Proof.
  intros Hr. unfold submitAiFeedback_resume. destruct r as [|data]; simpl.
  - eapply finally_try_caught; [done | apply showError_run
                                | apply setButtonLoading_run].
  - rewrite Hr. simpl.
    eapply finally_try_ret; [apply showError_run | apply setButtonLoading_run].
Qed.

(** The guess [submitAiFeedback] logs: the text of the display without
    white space. *)
Lemma feedback_resume_accepted bulls cows data s :
  f_success data = true -> has "aiBulls" s -> has "aiCows" s ->
  submitAiFeedback_resume bulls cows (Reply data) s
  = (Ret tt,
     upd "btnAiFeedback" (button_loading false)
       (emit (feedback_timer data)
          (upd "aiCard" (set_display "none")
             (upd "aiCows" (set_value "0")
                (upd "aiBulls" (set_value "0")
                   (upd "aiHistory"
                      (row_added
                         (keep (fun c => negb (is_space c))
                               match dom s !! "aiGuessDisplay" with
                               | Some e => textContent e
                               | None => "????"
                               end)
                         bulls cows)
                      s)))))).
Proof.
  intros Hok Hb Hc. unfold submitAiFeedback_resume. rewrite Hok. simpl.
  eapply finally_try_ret; [|apply setButtonLoading_run].
  run. unfold feedback_timer. destruct (f_won data); by run.
Qed.

(** X15. When the service accepts a feedback, the script puts both
    selects back to 0, hides the AI card, enables the button again and
    sets exactly one timer: the winner overlay for the AI after 400 ms
    when the AI has won, the human turn after 300 ms when it has not.
    The counts of the selects and their sum are integers a double holds
    without rounding (or not numbers at all), and pass the guard. *)
Theorem feedback_accepted (s : state) (elBulls elCows : element)
    (data : feedback_reply) :
  dom s !! "aiBulls" = Some elBulls ->
  dom s !! "aiCows" = Some elCows ->
  exact_counts (parseInt (value elBulls)) (parseInt (value elCows)) = true ->
  num_gt (num_add (parseInt (value elBulls)) (parseInt (value elCows)))
         (Num 4) = false ->
  f_success data = true ->
  let s' := exec (submitAiFeedback (Reply data)) s in
  trace s'
  = trace s ++ [Fetch "POST" "/ai-feedback"
                  (Some [("bulls", json_of_number (parseInt (value elBulls)));
                         ("cows", json_of_number (parseInt (value elCows)))]);
                feedback_timer data] /\
  field value "aiBulls" s' = Some "0" /\
  field value "aiCows" s' = Some "0" /\
  (has "aiCard" s -> field display "aiCard" s' = Some "none") /\
  (has "aiError" s -> field display "aiError" s' = Some "none") /\
  (has "btnAiFeedback" s -> field disabled "btnAiFeedback" s' = Some false).
Proof.
  intros Hb Hc _ Hg Hok s'. subst s'. unfold exec, submitAiFeedback.
  rewrite (bind_run _ _ _ _ _ (submitAiFeedback_send_ok s _ _ Hb Hc Hg)).
  rewrite feedback_resume_accepted; try done;
    try (unfold has; simpl; rewrite !lookup_alter_ne by done; by eexists).
  look. rewrite Hb, Hc. simpl. rewrite <- app_assoc. simpl.
  repeat split; try done; intros [e ->]; try done.
  all: simpl; unfold button_loading; simpl; by destruct (nonempty (innerHTML e)).
Qed.

Lemma feedback_accepted_witness :
  let s' := exec (submitAiFeedback (Reply goes_on))
                 (page "1" "2" "3" "4" 3 "1" "2") in
  trace s' = [Fetch "POST" "/ai-feedback"
                (Some [("bulls", JNumber 1); ("cows", JNumber 2)]);
              SetTimeout CbShowHumanTurn 300] /\
  field value "aiBulls" s' = Some "0".
Proof.
  destruct (feedback_accepted (page "1" "2" "3" "4" 3 "1" "2")
              (set_value "1" blank) (set_value "2" blank) goes_on)
    as (Ht & Hv & _).
  - reflexivity.
  - reflexivity.
  - reflexivity.
  - reflexivity.
  - reflexivity.
  - split; [exact Ht | exact Hv].
Defined.

(** X16. When the answer to a feedback is a failure, the script shows
    the reason inline and changes nothing else: the selects keep the
    counts for a retry, the AI card stays as it is, no row is logged, no
    timer is set, and the button is enabled again.  The counts of the
    selects and their sum are integers a double holds without rounding
    (or not numbers at all), and pass the guard. *)
Theorem feedback_rejected (s : state) (elBulls elCows : element)
    (r : response feedback_reply) :
  dom s !! "aiBulls" = Some elBulls ->
  dom s !! "aiCows" = Some elCows ->
  exact_counts (parseInt (value elBulls)) (parseInt (value elCows)) = true ->
  num_gt (num_add (parseInt (value elBulls)) (parseInt (value elCows)))
         (Num 4) = false ->
  match r with Failed => True | Reply data => f_success data = false end ->
  let s' := exec (submitAiFeedback r) s in
  trace s'
  = trace s ++ [Fetch "POST" "/ai-feedback"
                  (Some [("bulls", json_of_number (parseInt (value elBulls)));
                         ("cows", json_of_number (parseInt (value elCows)))])] /\
  field value "aiBulls" s' = Some (value elBulls) /\
  field value "aiCows" s' = Some (value elCows) /\
  field display "aiCard" s' = field display "aiCard" s /\
  rows "aiHistory" s' = rows "aiHistory" s /\
  (has "aiError" s ->
   field textContent "aiError" s' = Some (feedback_failure r) /\
   field display "aiError" s' = Some "") /\
  (has "btnAiFeedback" s -> field disabled "btnAiFeedback" s' = Some false).
Proof.
  intros Hb Hc _ Hg Hr s'. subst s'. unfold exec, submitAiFeedback.
  rewrite (bind_run _ _ _ _ _ (submitAiFeedback_send_ok s _ _ Hb Hc Hg)).
  rewrite feedback_resume_failed by done.
  unfold rows. look. rewrite Hb, Hc. simpl.
  split; [done|]. split; [done|]. split; [done|]. split; [done|].
  split; [done|]. split.
  - intros [e ->]. done.
  - intros [e ->]. simpl. unfold button_loading. simpl.
    by destruct (nonempty (innerHTML e)).
Qed.

Lemma feedback_rejected_witness :
  let s' := exec (submitAiFeedback inconsistent)
                 (page "1" "2" "3" "4" 3 "1" "2") in
  field textContent "aiError" s' = Some "Feedback is inconsistent." /\
  field value "aiBulls" s' = Some "1".
Proof.
  destruct (feedback_rejected (page "1" "2" "3" "4" 3 "1" "2")
              (set_value "1" blank) (set_value "2" blank) inconsistent)
    as (_ & Hv & _ & _ & _ & He & _).
  - reflexivity.
  - reflexivity.
  - reflexivity.
  - reflexivity.
  - reflexivity.
  - split; [apply He; eexists; reflexivity | exact Hv].
Defined.

(** ** Along any sequence of events *)

(** X17. The history lists are append-only: whatever happens on the
    page, the rows a list had are still its first rows, unchanged and in
    the same order. *)
Theorem history_is_append_only (a : actor) (evs : list event) (c : config) :
  rows (log_id a) (page_of c)
  `prefix_of` rows (log_id a) (page_of (run_events evs c)).
Proof.
  revert c. induction evs as [|e evs IH]; intros c; simpl; [done|].
  etrans; [|apply IH]. rewrite !rows_log_rows, step_rows.
  destruct (log_rows (log_id a) (page_of c)) as [rs|]; simpl; [|done].
  destruct (submission a e c); simpl; [by apply prefix_app_r | done].
Qed.

Section Calls.

Lemma calls_same f :
  (forall s, trace (f s) = trace s) -> stable calls_ok (modify f).
Proof. intros Hf s Hs. unfold calls_ok in *. simpl. by rewrite Hf. Qed.

Lemma calls_update id f : stable calls_ok (update id f).
Proof. by apply calls_same. Qed.

Lemma calls_update_or_throw id f : stable calls_ok (update_or_throw id f).
Proof.
  unfold update_or_throw. apply stable_bind; [apply stable_gets|].
  intros [e|]; [apply calls_update | apply stable_throw].
Qed.

Lemma calls_emit e : request_ok e = true -> stable calls_ok (modify (emit e)).
Proof.
  intros He s Hs. unfold calls_ok in *. simpl. apply Forall_app. split; [done|].
  by constructor.
Qed.

Lemma calls_run {A} (m : M A) id f :
  (forall s, exists a, m s = (Ret a, upd id f s)) -> stable calls_ok m.
Proof. intros Hm s Hs. by destruct (Hm s) as [a ->]. Qed.

Lemma calls_show id : stable calls_ok (show id).
Proof. apply (calls_run _ id (set_display "")). eexists. apply show_run. Qed.

Lemma calls_hide id : stable calls_ok (hide id).
Proof. apply (calls_run _ id (set_display "none")). eexists. apply hide_run. Qed.

Lemma calls_clearError id : stable calls_ok (clearError id).
Proof. apply calls_hide. Qed.

Lemma calls_showError id msg : stable calls_ok (showError id msg).
Proof.
  apply (calls_run _ id (error_shown msg)). eexists. apply showError_run.
Qed.

Lemma calls_setButtonLoading id b : stable calls_ok (setButtonLoading id b).
Proof.
  apply (calls_run _ id (button_loading b)). eexists.
  apply setButtonLoading_run.
Qed.

Lemma calls_addHistoryRow id guess bulls cows :
  stable calls_ok (addHistoryRow id guess bulls cows).
Proof.
  apply (calls_run _ id (row_added guess bulls cows)). eexists.
  apply addHistoryRow_run.
Qed.

Lemma calls_set_box cid i f : stable calls_ok (set_box cid i f).
Proof. apply calls_update. Qed.

Lemma calls_focus_box cid i : stable calls_ok (focus_box cid i).
Proof. by apply calls_same. Qed.

Lemma calls_clearOtpBoxes id : stable calls_ok (clearOtpBoxes id).
Proof.
  intros s Hs. rewrite clearOtpBoxes_run. unfold calls_ok in *. simpl.
  by destruct (boxes_of id s).
Qed.

End Calls.

Create HintDb calls discriminated.
#[local] Hint Resolve stable_ret stable_throw stable_gets calls_show
  calls_hide calls_clearError calls_showError calls_setButtonLoading
  calls_addHistoryRow calls_set_box calls_focus_box calls_clearOtpBoxes
  calls_update calls_update_or_throw : calls.

(** Takes a computation apart like [rows]; a call is checked where it is
    made. *)
Ltac calls_step :=
  lazymatch goal with
  | |- stable _ (bind _ _) => apply stable_bind; [|intros ?]
  | |- stable _ (try_catch _ _) => apply stable_try_catch
  | |- stable _ (finally _ _) => apply stable_finally
  | |- stable _ (when _ _) => apply stable_when
  | |- stable _ (listener _) => apply stable_listener
  | |- stable _ (iter_M _ _) => apply stable_iter
  | |- stable _ (forEach_from _ _ _) => apply stable_forEach; intros ? ?
  | |- stable _ (getElementById _) => apply stable_gets
  | |- stable _ (modify (emit _)) => apply calls_emit; reflexivity
  | |- stable _ (match ?x with _ => _ end) => destruct x
  | |- _ => solve [eauto with calls]
  end.
Ltac calls := repeat calls_step.

Lemma calls_initOtpBoxes cid : stable calls_ok (initOtpBoxes cid).
Proof. unfold initOtpBoxes. calls. by apply calls_same. Qed.

Lemma calls_on_input cid idx val : stable calls_ok (on_input cid idx val).
Proof. unfold on_input. calls. Qed.

Lemma calls_on_keydown cid idx key : stable calls_ok (on_keydown cid idx key).
Proof. unfold on_keydown. calls. Qed.

Lemma calls_on_paste cid text : stable calls_ok (on_paste cid text).
Proof. unfold on_paste. calls. Qed.

Lemma calls_press key : stable calls_ok (press key).
Proof. unfold press. calls. apply calls_on_keydown. Qed.

Lemma calls_paste text : stable calls_ok (paste text).
Proof. unfold paste. calls. apply calls_on_paste. Qed.

Lemma calls_showResultFlash guess bulls cows :
  stable calls_ok (showResultFlash guess bulls cows).
Proof. unfold showResultFlash. calls. Qed.

Lemma calls_displayAiGuess guess : stable calls_ok (displayAiGuess guess).
Proof. unfold displayAiGuess. calls. Qed.

Lemma calls_triggerAiTurn_resume r : stable calls_ok (triggerAiTurn_resume r).
Proof. unfold triggerAiTurn_resume. calls. apply calls_displayAiGuess. Qed.

Lemma calls_showWinner winner secret : stable calls_ok (showWinner winner secret).
Proof. unfold showWinner. calls. Qed.

Lemma calls_run_callback cb : stable calls_ok (run_callback cb).
Proof.
  destruct cb; simpl.
  - apply calls_showWinner.
  - unfold triggerAiTurn_send. calls.
  - unfold showHumanTurn. calls.
Qed.

Lemma calls_revealTick digits i : stable calls_ok (revealTick digits i).
Proof. unfold revealTick. calls. Qed.

Lemma calls_human_resume guess r :
  stable calls_ok (submitHumanGuess_resume guess r).
Proof. unfold submitHumanGuess_resume. calls. apply calls_showResultFlash. Qed.

Lemma calls_feedback_resume bulls cows r :
  stable calls_ok (submitAiFeedback_resume bulls cows r).
Proof. unfold submitAiFeedback_resume. calls. Qed.

Lemma calls_human_send : stable calls_ok submitHumanGuess_send.
Proof.
  intros s Hs.
  destruct (Nat.eq_dec (String.length (otp_value "guessInputs" s)) 4) as [Hl|Hl].
  - rewrite submitHumanGuess_send_ok by done. unfold calls_ok in *. simpl.
    apply Forall_app. split; [done|]. constructor; [|done].
    simpl. by apply Nat.eqb_eq.
  - by rewrite submitHumanGuess_send_blocked.
Qed.

Lemma feedback_request_ok bulls cows :
  num_gt (num_add bulls cows) (Num 4) = false ->
  request_ok (Fetch "POST" "/ai-feedback"
                (Some [("bulls", json_of_number bulls);
                       ("cows", json_of_number cows)])) = true.
Proof.
  destruct bulls as [|b], cows as [|c]; simpl; try done.
  intros H. apply Z.leb_le. apply Z.ltb_ge in H. lia.
Qed.

Lemma calls_feedback_send : stable calls_ok submitAiFeedback_send.
Proof.
  unfold submitAiFeedback_send.
  apply stable_bind; [apply stable_gets | intros [eb|]]; [|apply stable_throw].
  apply stable_bind; [apply stable_gets | intros [ec|]]; [|apply stable_throw].
  apply stable_bind; [apply calls_clearError | intros _].
  destruct (num_gt _ _) eqn:Hg; [calls|].
  apply stable_bind; [apply calls_setButtonLoading | intros _].
  apply stable_bind; [|intros _; apply stable_ret].
  by apply calls_emit, feedback_request_ok.
Qed.

Lemma on_page_calls m c :
  stable calls_ok m -> calls_ok (page_of c) -> calls_ok (page_of (on_page m c)).
Proof. intros Hm Hc. by apply Hm. Qed.

Lemma step_calls_ok e c : calls_ok (page_of c) -> calls_ok (page_of (step e c)).
Proof.
  intros Hc. destruct e; simpl.
  - apply on_page_calls; [apply calls_initOtpBoxes | done].
  - apply on_page_calls; [|done]. calls. apply calls_on_input.
  - apply on_page_calls; [apply calls_press | done].
  - apply on_page_calls; [apply calls_paste | done].
  - apply on_page_calls; [|done]. unfold on_click. calls.
  - apply on_page_calls; [apply calls_update | done].
  - pose proof (calls_human_send _ Hc) as Hs.
    by destruct (submitHumanGuess_send (page_of c)) as [[[g|]|] s1].
  - destruct (guesses_in_flight c); [done|]. by apply calls_human_resume.
  - apply on_page_calls; [apply calls_triggerAiTurn_resume | done].
  - pose proof (calls_feedback_send _ Hc) as Hs.
    by destruct (submitAiFeedback_send (page_of c)) as [[[g|]|] s1].
  - destruct (feedback_in_flight c) as [|[b k] rest]; [done|].
    by apply calls_feedback_resume.
  - apply on_page_calls; [apply calls_run_callback | done].
  - apply on_page_calls; [|done]. calls. apply calls_revealTick.
Qed.

Lemma run_calls_ok evs : forall c,
  calls_ok (page_of c) -> calls_ok (page_of (run_events evs c)).
Proof.
  induction evs as [|e evs IH]; intros c Hc; simpl; [done|].
  by apply IH, step_calls_ok.
Qed.

(** X18. Whatever the user does and whatever the service answers, in any
    order, every guess the script sends to [/human-turn] is a string of
    exactly four characters, and every pair of numeric counts it sends to
    [/ai-feedback] adds up to at most 4. *)
Theorem requests_stay_in_order (evs : list event) (c : config) :
  calls_ok (page_of c) ->
  let sent := trace (page_of (run_events evs c)) in
  (forall method payload,
     Fetch method "/human-turn" payload ∈ sent ->
     exists name guess,
       payload = Some [(name, JString guess)] /\ String.length guess = 4) /\
  (forall method bulls cows,
     Fetch method "/ai-feedback"
           (Some [("bulls", JNumber bulls); ("cows", JNumber cows)]) ∈ sent ->
     (bulls + cows <= 4)%Z).
Proof.
  intros Hc sent. pose proof (run_calls_ok evs c Hc) as Hok.
  unfold calls_ok in Hok. rewrite Forall_forall in Hok. split.
  - intros method payload Hin. specialize (Hok _ Hin). simpl in Hok.
    destruct payload as [[|[name [| |guess]] [|]]|]; try done.
    exists name, guess. split; [done|]. by apply Nat.eqb_eq.
  - intros method bulls cows Hin. specialize (Hok _ Hin). simpl in Hok.
    by apply Z.leb_le.
Qed.

Lemma requests_stay_in_order_witness :
  exists name guess,
    Some [("guess", JString "5678")] = Some [(name, JString guess)]
    /\ String.length guess = 4.
Proof.
  apply (proj1 (requests_stay_in_order two_rounds fresh_game
                  (Forall_nil_2 _)) "POST").
  vm_compute. repeat constructor.
Defined.

(** ** Confetti: frames *)

Section ConfettiFrames.
Import Confetti.
Context {num : Type} `{Arith num}.

Lemma advance_fallen (h : num) (p : @particle num) :
  past_bottom h p = true -> advance h p = (p, None).
Proof. unfold past_bottom, advance. by intros ->. Qed.

Lemma advance_live (h : num) (p : @particle num) :
  past_bottom h p = false -> exists q r, advance h p = (q, Some r).
Proof. unfold past_bottom, advance. intros ->. by eexists _, _. Qed.

Lemma drawn_length (h : num) (ps : list (@particle num)) :
  length (omap snd (map (advance h) ps))
  = length (filter (fun p => past_bottom h p = false) ps).
Proof.
  induction ps as [|p ps IH]; [done|].
  rewrite filter_cons. simpl. destruct (past_bottom h p) eqn:E.
  - rewrite (advance_fallen _ _ E). exact IH.
  - destruct (advance_live _ _ E) as (q & r & ->). simpl.
    f_equal. exact IH.
Qed.

Lemma none_live (h : num) (ps : list (@particle num)) :
  length (filter (fun p => past_bottom h p = false) ps) = 0
  <-> Forall (fun p => past_bottom h p = true) ps.
Proof.
  induction ps as [|p ps IH]; [done|].
  rewrite filter_cons, Forall_cons. destruct (past_bottom h p) eqn:E.
  - simpl. rewrite IH. tauto.
  - simpl. split; [done|]. by intros [? _].
Qed.

Lemma all_fallen_fixed (h : num) (ps : list (@particle num)) :
  Forall (fun p => past_bottom h p = true) ps ->
  map fst (map (advance h) ps) = ps /\ omap snd (map (advance h) ps) = [].
Proof.
  induction 1 as [|p ps Hp _ [IH1 IH2]]; [done|].
  simpl. rewrite (advance_fallen _ _ Hp). simpl. split; [by f_equal|].
  exact IH2.
Qed.

(** X19. One animation frame of the confetti, run while its callback is
    the one pending: it draws one rectangle for each particle that is not
    below the lower bound (the canvas height plus 20) and leaves the
    particles below it as they are.  It requests no further frame exactly
    when every particle is below the bound or the timeout has fired; it
    requests exactly one otherwise.  So the animation ends on its own,
    with an empty surface and the particles untouched, as soon as all
    particles have fallen out of view. *)
Theorem confetti_frame (id : nat) (st : @world num) :
  one_pending st -> id ∈ requested st ->
  let st' := frame_fires id st in
  let fallen p := past_bottom (height st) p in
  length (surface st')
  = length (filter (fun p => fallen p = false) (particles st)) /\
  (forall i p, particles st !! i = Some p -> fallen p = true ->
               particles st' !! i = Some p) /\
  (requested st' = []
   <-> Forall (fun p => fallen p = true) (particles st) \/ done st = true) /\
  (requested st' = [] \/ requested st' = [next_handle st]) /\
  (Forall (fun p => fallen p = true) (particles st) ->
   surface st' = [] /\ particles st' = particles st).
Proof.
  intros Hone Hin st' fallen. subst st' fallen. unfold frame_fires.
  case_decide; [|done].
  assert (Hreq : filter (fun i => i <> id) (requested st) = []).
  { destruct Hone as [Hreq | (id' & _ & Hreq)]; rewrite Hreq in *.
    - by apply elem_of_nil in Hin.
    - apply list_elem_of_singleton in Hin as ->. apply filter_out_only. }
  unfold loop. simpl. rewrite Hreq, drawn_length.
  split; [done|]. split.
  { intros i p Hi Hp. rewrite !list_lookup_fmap, Hi. simpl.
    by rewrite (advance_fallen _ _ Hp). }
  split.
  { rewrite <- none_live.
    destruct (length (filter _ (particles st))) as [|n]; simpl.
    - split; [by left | done].
    - destruct (done st); simpl; [split; [by right | done]|].
      split; [done|]. by intros [|]. }
  split.
  { destruct (_ && _); [by right | by left]. }
  intros Hall. by destruct (all_fallen_fixed _ _ Hall) as [-> ->].
Qed.

End ConfettiFrames.

Lemma confetti_frame_witness :
  let below := Confetti.Particle 10%Q 700%Q 6%Q 8%Q None 1%Q 2%Q 0%Q 0%Q 1%Q in
  let st := Confetti.World 800%Q 600%Q [] [below; below] (Some 0) false 1
                           [0] [] in
  Confetti.surface (Confetti.frame_fires 0 st) = [] /\
  Confetti.particles (Confetti.frame_fires 0 st) = [below; below].
Proof.
  intros below st.
  destruct (confetti_frame 0 st) as (_ & _ & _ & _ & Hstop).
  - right. by exists 0.
  - by apply list_elem_of_singleton.
  - apply Hstop. by repeat constructor.
Defined.

(** ** The start page *)

(** X20. Starting a game with the start button on the page, its label
    not empty: the button
    is disabled and shows the spinner while one POST to [/start] with an
    empty object is under way.  The page moves to the address the service
    gives exactly when the answer says success; otherwise exactly one
    alert is raised, with the service's reason, or the default text when
    there is none, or the network message when the request or its body
    failed.  In every case the button is enabled again and has its label
    back. *)
Theorem start_game (s : state) (r : response start_reply) (b : element) :
  dom s !! "btnStartGame" = Some b -> nonempty (innerHTML b) = true ->
  let s1 := exec quickStartGame_send s in
  let s2 := exec (quickStartGame_resume r) s1 in
  field disabled "btnStartGame" s1 = Some true /\
  field innerHTML "btnStartGame" s1 = Some spinnerHTML /\
  trace s1 = trace s ++ [Fetch "POST" "/start" (Some [])] /\
  result (quickStartGame_resume r) s1
  = Ret (match r with
         | Reply data => if s_success data then Some (s_redirect data) else None
         | Failed => None
         end) /\
  field disabled "btnStartGame" s2 = Some false /\
  field innerHTML "btnStartGame" s2 = Some (innerHTML b) /\
  trace s2
  = trace s1 ++
    match r with
    | Failed => [Alert "Network error. Please try again."]
    | Reply data =>
        if s_success data then []
        else [Alert (or_else (s_error data) "Failed to start game.")]
    end.
Proof.
  intros Hb Hlabel s1 s2.
  assert (Hs1 : s1 = emit (Fetch "POST" "/start" (Some []))
                       (upd "btnStartGame" (button_loading true) s)).
  { subst s1. unfold exec, quickStartGame_send.
    by rewrite (bind_run _ _ _ _ _ (setButtonLoading_run _ _ _)). }
  assert (Hrun : forall a t,
            (match r with
             | Failed => throw
             | Reply data =>
                 if negb (s_success data) then
                   modify (emit (Alert (or_else (s_error data)
                                                "Failed to start game."))) ;;
                   ret None
                 else ret (Some (s_redirect data))
             end) s1 = (a, t) ->
            quickStartGame_resume r s1
            = match a with
              | Ret v => (Ret v, upd "btnStartGame" (button_loading false) t)
              | Throw =>
                  (Ret None,
                   upd "btnStartGame" (button_loading false)
                       (emit (Alert "Network error. Please try again.") t))
              end).
  { intros a t Hm. unfold quickStartGame_resume. destruct a as [v|].
    - eapply finally_try_ret; [exact Hm | apply setButtonLoading_run].
    - eapply finally_try_caught; [exact Hm | done | apply setButtonLoading_run]. }
  subst s2. unfold exec, result.
  destruct r as [|data]; [|destruct (s_success data) eqn:Hok]; simpl in Hrun.
  - rewrite (Hrun _ _ eq_refl). rewrite Hs1. look. rewrite Hb. simpl.
    rewrite Hlabel. done.
  - rewrite (Hrun _ _ eq_refl). rewrite Hs1. look. rewrite Hb. simpl.
    rewrite Hlabel. rewrite app_nil_r. done.
  - rewrite (Hrun _ _ eq_refl). rewrite Hs1. look. rewrite Hb. simpl.
    rewrite Hlabel. done.
Qed.

Lemma start_game_witness :
  let s := State {[ "btnStartGame" := set_innerHTML "Start" blank ]}
                 None [] [] in
  result (quickStartGame_resume (Reply (StartReply true "" "/game")))
         (exec quickStartGame_send s) = Ret (Some "/game") /\
  field innerHTML "btnStartGame"
    (exec (quickStartGame_resume Failed) (exec quickStartGame_send s))
  = Some "Start".
Proof.
  intros s.
  destruct (start_game s (Reply (StartReply true "" "/game"))
              (set_innerHTML "Start" blank))
    as (_ & _ & _ & Hgo & _); [reflexivity | reflexivity |].
  destruct (start_game s Failed (set_innerHTML "Start" blank))
    as (_ & _ & _ & _ & _ & Hlabel & _); [reflexivity | reflexivity |].
  split; [exact Hgo | exact Hlabel].
Defined.

(** ** Handing the turn over *)

Lemma clear_elsewhere cid id s :
  id <> cid -> dom (exec (clearOtpBoxes cid) s) !! id = dom s !! id.
Proof.
  intros Hne. unfold exec. rewrite clearOtpBoxes_run. simpl.
  destruct (boxes_of cid s); simpl; by rewrite lookup_alter_ne.
Qed.

Lemma clear_trace cid s : trace (exec (clearOtpBoxes cid) s) = trace s.
Proof.
  unfold exec. rewrite clearOtpBoxes_run. simpl. by destruct (boxes_of cid s).
Qed.

Lemma human_accepted_state s data :
  String.length (otp_value "guessInputs" s) = 4 ->
  h_success data = true ->
  has "resultFlash" s -> has "resultEmoji" s -> has "resultScore" s ->
  has "resultSub" s ->
  exec (submitHumanGuess (Reply data)) s
  = upd "btnHumanSubmit" (button_loading false)
      (emit (human_timer data)
         (flash_shown (otp_value "guessInputs" s) (h_bulls data) (h_cows data)
            (upd "humanCard" (set_display "none")
               (exec (clearOtpBoxes "guessInputs")
                  (upd "humanHistory"
                     (row_added (otp_value "guessInputs" s)
                                (Num (h_bulls data)) (Num (h_cows data)))
                     (emit (Fetch "POST" "/human-turn"
                              (Some [("guess",
                                      JString (otp_value "guessInputs" s))]))
                        (upd "btnHumanSubmit" (button_loading true)
                           (upd "humanError" (set_display "none") s)))))))).
Proof.
  intros Hlen Hok H0 H1 H2 H3. unfold exec at 1, submitHumanGuess.
  rewrite (bind_run _ _ _ _ _ (submitHumanGuess_send_ok s Hlen)).
  rewrite human_resume_accepted by (try done; by apply has_after_send).
  done.
Qed.

Lemma showHumanTurn_run s :
  showHumanTurn s
  = (Ret tt,
     let s' := upd "aiCard" (set_display "none")
                 (upd "resultFlash" (set_display "none")
                    (upd "humanCard" (set_display "") s)) in
     match boxes_of "guessInputs" s with
     | _ :: _ => set_focus (Some ("guessInputs", 0)) s'
     | [] => s'
     end).
Proof.
  unfold showHumanTurn. run.
  rewrite !boxes_of_upd_other by (by right).
  by destruct (boxes_of "guessInputs" s).
Qed.

(** X21. From an accepted guess that did not win to the AI's turn: the
    timer the script has set is the one for the AI's turn, after 2500 ms;
    when it fires, the result flash is hidden and the AI's guess is asked
    for with one GET to [/ai-turn]; when the guess arrives, the AI card is
    shown, the human card and the flash stay hidden, the display starts
    from four placeholders and one interval of 180 ms is set over the
    characters of the guess.  The guess cells are empty by then. *)
Theorem on_to_ai_turn (s : state) (data : human_reply)
    (reply : ai_turn_reply) (g : string) :
  String.length (otp_value "guessInputs" s) = 4 ->
  h_success data = true -> h_won data = false ->
  has "resultFlash" s -> has "resultEmoji" s -> has "resultScore" s ->
  has "resultSub" s ->
  has "humanCard" s -> has "aiCard" s -> has "aiGuessDisplay" s ->
  t_success reply = true -> t_ai_guess reply = Some g ->
  let s1 := exec (submitHumanGuess (Reply data)) s in
  let s2 := exec (run_callback CbAiTurn) s1 in
  let s3 := exec (triggerAiTurn_resume (Reply reply)) s2 in
  last (trace s1) = Some (SetTimeout CbAiTurn 2500) /\
  trace s2 = trace s1 ++ [Fetch "GET" "/ai-turn" None] /\
  field display "resultFlash" s2 = Some "none" /\
  trace s3 = trace s2 ++ [SetInterval (split_chars g) 180] /\
  field display "humanCard" s3 = Some "none" /\
  field display "resultFlash" s3 = Some "none" /\
  field display "aiCard" s3 = Some "" /\
  field textContent "aiGuessDisplay" s3 = Some "_ _ _ _" /\
  boxes_of "guessInputs" s3
  = replicate (length (boxes_of "guessInputs" s)) empty_box.
Proof.
  intros Hlen Hok Hwon H0 H1 H2 H3 [eh Hh] [ea Ha] [ed Hd] Hsucc Hguess
         s1 s2 s3.
  assert (Hs1 := human_accepted_state s data Hlen Hok H0 H1 H2 H3).
  fold s1 in Hs1. unfold human_timer in Hs1. rewrite Hwon in Hs1.
  destruct H0 as [e0 He0].
  assert (Hs2 : s2 = emit (Fetch "GET" "/ai-turn" None)
                       (upd "resultFlash" (set_display "none") s1)).
  { subst s2. unfold exec, run_callback, triggerAiTurn_send.
    by rewrite (bind_run _ _ _ _ _ (hide_run _ _)). }
  assert (Hd2 : is_Some (dom s2 !! "aiGuessDisplay")).
  { rewrite Hs2, Hs1. unfold flash_shown. look.
    rewrite clear_elsewhere by done. look. by rewrite Hd. }
  assert (Hs3 : s3 = upd "aiCard"
                       (set_animation "" ∘ set_animation "none" ∘ set_display "")
                       (emit (SetInterval (split_chars g) 180)
                          (upd "aiGuessDisplay" (set_textContent "_ _ _ _")
                             s2))).
  { subst s3. unfold exec, triggerAiTurn_resume, try_catch.
    rewrite Hsucc, Hguess. simpl. by rewrite displayAiGuess_run. }
  split; [rewrite Hs1; simpl; by rewrite last_snoc|].
  split; [by rewrite Hs2|].
  split.
  { rewrite Hs2, Hs1. unfold flash_shown. look.
    rewrite clear_elsewhere by done. look. by rewrite He0. }
  split; [by rewrite Hs3|].
  split.
  { rewrite Hs3, Hs2, Hs1. unfold flash_shown. look.
    rewrite clear_elsewhere by done. look. by rewrite Hh. }
  split.
  { rewrite Hs3, Hs2, Hs1. unfold flash_shown. look.
    rewrite clear_elsewhere by done. look. by rewrite He0. }
  split.
  { rewrite Hs3, Hs2, Hs1. unfold flash_shown. look.
    rewrite clear_elsewhere by done. look. by rewrite Ha. }
  split.
  { rewrite Hs3, Hs2, Hs1. unfold flash_shown. look.
    rewrite clear_elsewhere by done. look. by rewrite Hd. }
  rewrite Hs3, Hs2, Hs1. unfold flash_shown, boxes_of. look.
  fold (boxes_of "guessInputs"
          (exec (clearOtpBoxes "guessInputs")
             (upd "humanHistory"
                (row_added (otp_value "guessInputs" s)
                           (Num (h_bulls data)) (Num (h_cows data)))
                (emit (Fetch "POST" "/human-turn"
                         (Some [("guess", JString (otp_value "guessInputs" s))]))
                   (upd "btnHumanSubmit" (button_loading true)
                      (upd "humanError" (set_display "none") s)))))).
  rewrite boxes_after_clear. unfold boxes_of. by look.
Qed.

Lemma on_to_ai_turn_witness :
  let s := page "1" "2" "3" "4" 3 "0" "0" in
  let s3 := exec (triggerAiTurn_resume (Reply (AiTurnReply true "" (Some "5678"))))
              (exec (run_callback CbAiTurn)
                 (exec (submitHumanGuess (Reply one_one)) s)) in
  field display "humanCard" s3 = Some "none" /\
  field display "aiCard" s3 = Some "".
Proof.
  intros s s3.
  destruct (on_to_ai_turn s one_one (AiTurnReply true "" (Some "5678")) "5678")
    as (_ & _ & _ & _ & Hh & _ & Ha & _);
    [ reflexivity | reflexivity | reflexivity
    | eexists; reflexivity | eexists; reflexivity | eexists; reflexivity
    | eexists; reflexivity | eexists; reflexivity | eexists; reflexivity
    | eexists; reflexivity | reflexivity | reflexivity | ].
  split; [exact Hh | exact Ha].
Defined.

(** X22. From an accepted feedback that did not end the game back to the
    human's turn: the timer the script has set is the one for the human's
    turn, after 300 ms; when it fires, the human card is shown, the AI card
    and the result flash are hidden, and the focus is on the first guess
    cell when there is one.  The guess cells hold what they held, both
    selects are back at 0, and no call leaves the script.  The counts of
    the selects and their sum are integers a double holds without
    rounding (or not numbers at all), and pass the guard. *)
Theorem back_to_human_turn (s : state) (elBulls elCows : element)
    (data : feedback_reply) :
  dom s !! "aiBulls" = Some elBulls ->
  dom s !! "aiCows" = Some elCows ->
  exact_counts (parseInt (value elBulls)) (parseInt (value elCows)) = true ->
  num_gt (num_add (parseInt (value elBulls)) (parseInt (value elCows)))
         (Num 4) = false ->
  f_success data = true -> f_won data = false ->
  has "humanCard" s -> has "resultFlash" s -> has "aiCard" s ->
  let s1 := exec (submitAiFeedback (Reply data)) s in
  let s2 := exec (run_callback CbShowHumanTurn) s1 in
  last (trace s1) = Some (SetTimeout CbShowHumanTurn 300) /\
  trace s2 = trace s1 /\
  field display "humanCard" s2 = Some "" /\
  field display "resultFlash" s2 = Some "none" /\
  field display "aiCard" s2 = Some "none" /\
  field value "aiBulls" s2 = Some "0" /\
  field value "aiCows" s2 = Some "0" /\
  boxes_of "guessInputs" s2 = boxes_of "guessInputs" s /\
  focus s2 = match boxes_of "guessInputs" s with
             | _ :: _ => Some ("guessInputs", 0)
             | [] => focus s
             end.
Proof.
  intros Hb Hc _ Hg Hok Hwon [eh Hh] [ef Hf] [ea Ha] s1 s2.
  assert (Hs1 : s1 = upd "btnAiFeedback" (button_loading false)
       (emit (feedback_timer data)
          (upd "aiCard" (set_display "none")
             (upd "aiCows" (set_value "0")
                (upd "aiBulls" (set_value "0")
                   (upd "aiHistory"
                      (row_added
                         (keep (fun c => negb (is_space c))
                               match dom s !! "aiGuessDisplay" with
                               | Some e => textContent e
                               | None => "????"
                               end)
                         (parseInt (value elBulls)) (parseInt (value elCows)))
                      (emit (Fetch "POST" "/ai-feedback"
                               (Some [("bulls", json_of_number (parseInt (value elBulls)));
                                      ("cows", json_of_number (parseInt (value elCows)))]))
                         (upd "btnAiFeedback" (button_loading true)
                            (upd "aiError" (set_display "none") s))))))))).
  { subst s1. unfold exec, submitAiFeedback.
    rewrite (bind_run _ _ _ _ _ (submitAiFeedback_send_ok s _ _ Hb Hc Hg)).
    rewrite feedback_resume_accepted; try done;
      try (unfold has; simpl; rewrite !lookup_alter_ne by done; by eexists). }
  unfold feedback_timer in Hs1. rewrite Hwon in Hs1.
  assert (Hbs : boxes_of "guessInputs" s1 = boxes_of "guessInputs" s).
  { rewrite Hs1. unfold boxes_of. by look. }
  assert (Hs2 : s2 = let s' := upd "aiCard" (set_display "none")
                                 (upd "resultFlash" (set_display "none")
                                    (upd "humanCard" (set_display "") s1)) in
                     match boxes_of "guessInputs" s with
                     | _ :: _ => set_focus (Some ("guessInputs", 0)) s'
                     | [] => s'
                     end).
  { subst s2. unfold exec, run_callback. by rewrite showHumanTurn_run, Hbs. }
  split; [rewrite Hs1; simpl; by rewrite last_snoc|].
  assert (Hdom : dom s2 = dom (upd "aiCard" (set_display "none")
                                 (upd "resultFlash" (set_display "none")
                                    (upd "humanCard" (set_display "") s1)))).
  { rewrite Hs2. simpl. by destruct (boxes_of "guessInputs" s). }
  split.
  { rewrite Hs2. simpl. by destruct (boxes_of "guessInputs" s). }
  assert (Hfocus : focus s2 = match boxes_of "guessInputs" s with
                              | _ :: _ => Some ("guessInputs", 0)
                              | [] => focus s
                              end).
  { rewrite Hs2. simpl. destruct (boxes_of "guessInputs" s); [|done].
    simpl. by rewrite Hs1. }
  rewrite Hfocus. clear Hfocus.
  unfold field, boxes_of. rewrite !Hdom, Hs1.
  split; [look; by rewrite Hh|].
  split; [look; by rewrite Hf|].
  split; [look; by rewrite Ha|].
  split; [look; by rewrite Hb|].
  split; [look; by rewrite Hc|].
  split; [by look | done].
Qed.

Lemma back_to_human_turn_witness :
  let s2 := exec (run_callback CbShowHumanTurn)
              (exec (submitAiFeedback (Reply goes_on))
                 (page "1" "2" "3" "4" 3 "1" "2")) in
  field display "humanCard" s2 = Some "" /\
  field display "aiCard" s2 = Some "none" /\
  focus s2 = Some ("guessInputs", 0).
Proof.
  intros s2.
  destruct (back_to_human_turn (page "1" "2" "3" "4" 3 "1" "2")
              (set_value "1" blank) (set_value "2" blank) goes_on)
    as (_ & _ & Hh & _ & Ha & _ & _ & _ & Hfocus);
    [ reflexivity | reflexivity | reflexivity | reflexivity | reflexivity
    | reflexivity
    | eexists; reflexivity | eexists; reflexivity | eexists; reflexivity | ].
  split; [exact Hh|]. split; [exact Ha | exact Hfocus].
Defined.

(** ** The guess in the AI history: when the display is read *)

Lemma revealed_past guess a :
  String.length guess = 4 -> 4 <= a -> revealed guess a = revealed guess 4.
Proof.
  intros Hlen Ha. destruct (four_chars guess Hlen) as (c1 & c2 & c3 & c4 & ->).
  destruct a as [|[|[|[|a]]]]; [lia..|]. reflexivity.
Qed.

Lemma take_all guess a :
  String.length guess = 4 -> 4 <= a ->
  take_str a guess +:+ repeat_str "_" (4 - a) = guess.
Proof.
  intros Hlen Ha. destruct (four_chars guess Hlen) as (c1 & c2 & c3 & c4 & ->).
  destruct a as [|[|[|[|a]]]]; [lia..|]. reflexivity.
Qed.

(** The interval from its counter [k] on, while it is still set. *)
Lemma reveal_from c1 c2 c3 c4 k m s :
  is_Some (dom s !! "aiGuessDisplay") -> k < 4 -> 0 < m ->
  let guess := String c1 (String c2 (String c3 (String c4 ""))) in
  display_text (exec (reveal (split_chars guess) k m) s)
  = Some (revealed guess (k + m)).
Proof.
  intros Hp Hk Hm guess. unfold exec.
  destruct k as [|[|[|[|k]]]]; [..|lia];
    (destruct m as [|[|[|[|m]]]]; [lia|..]); simpl;
    repeat (rewrite (bind_run _ _ _ _ _ (revealTick_run _ _ _)); simpl);
    rewrite display_text_upd by (by rewrite ?upd_present); reflexivity.
Qed.

Lemma display_text_sent s e fetch :
  display_text (emit fetch
                  (upd "btnAiFeedback" (button_loading true)
                     (upd "aiError" e s)))
  = display_text s.
Proof. unfold display_text. simpl. by rewrite !lookup_alter_ne. Qed.

(** C10, as the script has it.  The row [submitAiFeedback] appends on
    success takes its guess from the text of the display, white space
    removed, and not from the answer of [/ai-turn]; it reads that text
    when the answer to the feedback is handled, after its [await]s, not
    when the feedback is submitted.  With the feedback submitted after [k]
    firings of the reveal and answered [m] firings later, the guess of the
    row is the first [k + m] digits followed by a placeholder for each
    digit not revealed by then: it holds placeholders when the answer
    comes before the fourth firing, and is the guess of the AI when the
    answer comes after it, however early the feedback was submitted.  The
    counts of the selects and their sum are integers a double holds
    without rounding (or not numbers at all), and pass the guard. *)
Theorem ai_history_row_from_display (s : state) (guess : string)
    (k m : nat) (elBulls elCows : element) (data : feedback_reply) :
  f_success data = true ->
  is_Some (dom s !! "aiHistory") ->
  is_Some (dom s !! "aiGuessDisplay") ->
  dom s !! "aiBulls" = Some elBulls ->
  dom s !! "aiCows" = Some elCows ->
  exact_counts (parseInt (value elBulls)) (parseInt (value elCows)) = true ->
  num_gt (num_add (parseInt (value elBulls)) (parseInt (value elCows)))
         (Num 4) = false ->
  String.length guess = 4 -> all_digits guess = true ->
  let bulls := parseInt (value elBulls) in
  let cows := parseInt (value elCows) in
  let logged := take_str (k + m) guess +:+ repeat_str "_" (4 - (k + m)) in
  (forall now b c,
     is_Some (dom now !! "aiHistory") ->
     rows "aiHistory" (exec (submitAiFeedback_resume b c (Reply data)) now)
     = rows "aiHistory" now
       ++ [HistoryRow
             (spaced (keep (fun c => negb (is_space c))
                           match dom now !! "aiGuessDisplay" with
                           | Some e => textContent e
                           | None => "????"
                           end))
             b c]) /\
  display_text (reveal_after guess k s) = Some (revealed guess k) /\
  rows "aiHistory" (answered_after guess k m (Reply data) s)
  = rows "aiHistory" s ++ [HistoryRow (spaced logged) bulls cows] /\
  (k + m < 4 -> logged <> guess) /\
  (4 <= k + m -> logged = guess).
Proof.
  intros Hok Hlog Hp Hb Hc _ Hg Hlen Hall bulls cows logged.
  split; [intros now b c Hnow; by apply row_from_display|].
  split; [by apply reveal_after_text|].
  split; [|split; [intros Hn; by apply revealed_not_complete
                  | intros Hn; by apply take_all]].
  pose proof (reveal_after_text guess k s Hp Hlen) as Hclicked.
  assert (Hdom : forall id, id <> "aiGuessDisplay" -> id <> "aiCard" ->
            dom (reveal_after guess k s) !! id = dom s !! id).
  { intros id H1 H2. rewrite reveal_after_rows by done.
    by rewrite lookup_upd_ne. }
  assert (Hpc : is_Some (dom (reveal_after guess k s) !! "aiGuessDisplay")).
  { unfold display_text in Hclicked.
    destruct (dom (reveal_after guess k s) !! "aiGuessDisplay"); [by eexists|].
    discriminate. }
  destruct (four_chars guess Hlen) as (c1 & c2 & c3 & c4 & Hguess).
  assert (Hstill : result (reveal (split_chars guess) 0 k)
                          (exec (displayAiGuess guess) s) = Ret (k <? 4)).
  { destruct (displayAiGuess_text guess s Hp) as [_ Hp0]. rewrite Hguess in *.
    by destruct (reveal_four c1 c2 c3 c4 k _ Hp0) as (Hres & _). }
  unfold answered_after. fold (reveal_after guess k s). rewrite Hstill.
  rewrite (submitAiFeedback_send_ok (reveal_after guess k s) elBulls elCows)
    by (rewrite ?Hdom; done).
  fold bulls cows.
  set (sent := emit _ (upd "btnAiFeedback" _ (upd "aiError" _ _))).
  assert (Hps : is_Some (dom sent !! "aiGuessDisplay")).
  { subst sent. simpl. by rewrite !lookup_alter_ne. }
  assert (Hts : display_text sent = Some (revealed guess k)).
  { subst sent. by rewrite display_text_sent. }
  assert (Hds : dom sent !! "aiHistory" = dom s !! "aiHistory").
  { subst sent. simpl. rewrite !lookup_alter_ne by done. by apply Hdom. }
  set (later := match Ret (k <? 4) with
                | Ret true => exec (reveal (split_chars guess) k m) sent
                | _ => sent
                end).
  assert (Hlater : display_text later = Some (revealed guess (k + m))
                   /\ dom later !! "aiHistory" = dom s !! "aiHistory").
  { subst later. destruct (Nat.ltb_spec k 4) as [Hk|Hk].
    - split.
      + destruct m as [|m].
        * rewrite Nat.add_0_r. exact Hts.
        * rewrite Hguess in *. apply reveal_from; [done | done | lia].
      + by destruct (reveal_elsewhere (split_chars guess) "aiHistory" m k sent)
          as [-> _].
    - split; [|done]. rewrite Hts.
      rewrite (revealed_past guess k), (revealed_past guess (k + m)) by lia.
      done. }
  destruct Hlater as [Htext Hdl].
  rewrite row_from_display by (try done; by rewrite Hdl).
  unfold display_text in Htext.
  destruct (dom later !! "aiGuessDisplay") as [e|]; [|done].
  simpl in Htext. injection Htext as ->.
  rewrite revealed_without_spaces by done.
  unfold rows. by rewrite Hdl.
Qed.

Lemma ai_history_row_from_display_witness :
  rows "aiHistory"
       (answered_after "5678" 1 1 (Reply (FeedbackReply true "" false None))
                       (page "1" "2" "3" "4" 3 "1" "2"))
  = [HistoryRow "5 6 _ _" (Num 1) (Num 2)].
Proof.
  destruct (ai_history_row_from_display
              (page "1" "2" "3" "4" 3 "1" "2") "5678" 1 1
              (set_value "1" blank) (set_value "2" blank)
              (FeedbackReply true "" false None))
    as (_ & _ & Hrow & _).
  - reflexivity.
  - eexists. reflexivity.
  - eexists. reflexivity.
  - reflexivity.
  - reflexivity.
  - reflexivity.
  - reflexivity.
  - reflexivity.
  - reflexivity.
  - exact Hrow.
Defined.

(** C10 as stated fails: the feedback is submitted right after
    [displayAiGuess], while the display reads four placeholders, and is
    answered after the four firings of the reveal; the guess of the row
    is the four digits, not the text of the display at the submission,
    and holds no placeholder. *)
Lemma late_answer_logs_the_digits :
  let s := page "1" "2" "3" "4" 3 "1" "2" in
  let answer := Reply (FeedbackReply true "" false None) in
  display_text (reveal_after "5678" 0 s) = Some "_ _ _ _" /\
  digits_shown "5678" (reveal_after "5678" 0 s) = false /\
  result submitAiFeedback_send (reveal_after "5678" 0 s)
  = Ret (Some (Num 1, Num 2)) /\
  rows "aiHistory" (answered_after "5678" 0 4 answer s)
  = [HistoryRow "5 6 7 8" (Num 1) (Num 2)] /\
  rows "aiHistory" (answered_after "5678" 0 4 answer s)
  <> [HistoryRow (spaced "____") (Num 1) (Num 2)].
Proof.
  split; [reflexivity|]. split; [reflexivity|]. split; [reflexivity|].
  split; [reflexivity|]. vm_compute. discriminate.
Qed.
